(** * saltext-sap_likey: the saplikey execution module and its states

    A shallow embedding of
    - [src/saltext/sap_likey/_modules/sap_likey.py] (module [Modules]):
      the wrappers [info], [show], [install], [delete], [temp] around the
      [saplikey] command line tool and the licence file reader
      [read_lic_file];
    - [src/saltext/sap_likey/_states/sap_likey.py] (module [States]):
      the states [license_present] and [license_absent].

    Python dictionaries with string keys are [gmap string _]; Python
    exceptions, early [return] and the calls into [__salt__] are kept
    explicit in a small state monad. *)

From stdpp Require Import base option list strings gmap fin_maps pretty.
From Stdlib Require Import ZArith Lia Ascii.

Set Default Proof Using "Type".

(** ** Python strings

    A [string] is a sequence of characters with code points below 256.
    The functions below follow [str] on that range. *)

Module Py.

Definition code (c : ascii) : N := Ascii.N_of_ascii c.

(** [str.isspace] on one character: TAB..CR, FS..US, SPACE, NEL, NBSP. *)
Definition isspace (c : ascii) : bool :=
  let n := code c in
  ((9 <=? n) && (n <=? 13) || (28 <=? n) && (n <=? 32)
   || (n =? 133) || (n =? 160))%N.

Fixpoint lstrip (s : string) : string :=
  match s with
  | String c s' => if isspace c then lstrip s' else s
  | EmptyString => EmptyString
  end.

Definition rstrip (s : string) : string :=
  String.rev (lstrip (String.rev s)).

(** [s.strip()] *)
Definition strip (s : string) : string := rstrip (lstrip s).

Definition lower_char (c : ascii) : ascii :=
  let n := code c in
  if ((65 <=? n) && (n <=? 90)
      || (192 <=? n) && (n <=? 222) && negb (n =? 215))%N
  then Ascii.ascii_of_N (n + 32) else c.

(** [str.upper] on one character.  The three characters of the range whose
    upper case lies outside it (U+00B5, U+00DF, U+00FF) are left as they
    are; system identifiers are made of ASCII letters and digits. *)
Definition upper_char (c : ascii) : ascii :=
  let n := code c in
  if ((97 <=? n) && (n <=? 122)
      || (224 <=? n) && (n <=? 254) && negb (n =? 247))%N
  then Ascii.ascii_of_N (n - 32) else c.

Fixpoint map_chars (f : ascii → ascii) (s : string) : string :=
  match s with
  | String c s' => String (f c) (map_chars f s')
  | EmptyString => EmptyString
  end.

(** [s.lower()] and [s.upper()] *)
Definition lower : string → string := map_chars lower_char.
Definition upper : string → string := map_chars upper_char.

(** [s.startswith(p)] *)
Fixpoint startswith (s p : string) : bool :=
  match p, s with
  | EmptyString, _ => true
  | String a p', String b s' => Ascii.eqb a b && startswith s' p'
  | String _ _, EmptyString => false
  end.

(** [s.endswith(p)] *)
Definition endswith (s p : string) : bool :=
  startswith (String.rev s) (String.rev p).

(** [sub in s] *)
Fixpoint contains (sub s : string) : bool :=
  startswith s sub ||
  match s with
  | String _ s' => contains sub s'
  | EmptyString => false
  end.

(** [s.split(sep)] for a separator of one character. *)
Fixpoint split (sep : ascii) (s : string) : list string :=
  match s with
  | EmptyString => [EmptyString]
  | String c s' =>
      if Ascii.eqb c sep then EmptyString :: split sep s'
      else match split sep s' with
           | w :: ws => String c w :: ws
           | [] => [String c EmptyString]
           end
  end.

(** [s.split(sep, 1)] for a separator of one character: the whole string
    when [sep] does not occur, else the parts before and after its first
    occurrence. *)
Fixpoint split1 (sep : ascii) (s : string) : list string :=
  match s with
  | EmptyString => [EmptyString]
  | String c s' =>
      if Ascii.eqb c sep then [EmptyString; s']
      else match split1 sep s' with
           | w :: ws => String c w :: ws
           | [] => [String c EmptyString]
           end
  end.

(** [s.replace(a, b)] for single characters [a] and [b]. *)
Definition replace_char (a b : ascii) : string → string :=
  map_chars (λ c, if Ascii.eqb c a then b else c).

(** [s.replace(a, "")] for a single character [a]. *)
Fixpoint remove_char (a : ascii) (s : string) : string :=
  match s with
  | String c s' =>
      if Ascii.eqb c a then remove_char a s' else String c (remove_char a s')
  | EmptyString => EmptyString
  end.

(** [re.sub("_+", "_", s)]: every run of underscores becomes one. *)
Fixpoint collapse_underscores (s : string) : string :=
  match s with
  | String c s' =>
      if Ascii.eqb c "_"%char then
        match s' with
        | String c' _ =>
            if Ascii.eqb c' "_"%char then collapse_underscores s'
            else String c (collapse_underscores s')
        | EmptyString => String c EmptyString
        end
      else String c (collapse_underscores s')
  | EmptyString => EmptyString
  end.

(** Truth value of a string: [if s:] *)
Definition truthy (s : string) : bool :=
  match s with EmptyString => false | _ => true end.

(** [s.isascii()]: every character is below U+0080.  On such strings
    [upper] is [str.upper]; above, [upper_char] leaves U+00B5, U+00DF and
    U+00FF where [str.upper] leaves the range. *)
Fixpoint isascii (s : string) : bool :=
  match s with
  | String c s' => (code c <? 128)%N && isascii s'
  | EmptyString => true
  end.

End Py.

(** ** Exceptions, outcomes and the state monad *)

Inductive exn :=
| KeyError (key : string)
| TypeError
| IndexError
| ValueError
| OSError
| Exception (msg : string).

(** What calling a function gives: a value or a raised exception. *)
Inductive res (A : Type) :=
| Ok (a : A)
| Raise (e : exn).
Arguments Ok {A} a.
Arguments Raise {A} e.

(** What a statement inside a function body gives: it runs through with a
    value, executes [return r], or raises. *)
Inductive outcome (R A : Type) :=
| Normal (a : A)
| Returned (r : R)
| Raised (e : exn).
Arguments Normal {R A} a.
Arguments Returned {R A} r.
Arguments Raised {R A} e.

(** Statements of a function returning [R], over a state [S]. *)
Definition M (S R A : Type) : Type := S → outcome R A * S.

Global Instance M_ret {S R} : MRet (M S R) := λ A a s, (Normal a, s).

Global Instance M_bind {S R} : MBind (M S R) := λ A B f m s,
  match m s with
  | (Normal a, s') => f a s'
  | (Returned r, s') => (Returned r, s')
  | (Raised e, s') => (Raised e, s')
  end.

(** [return r] *)
Definition return_ {S R A} (r : R) : M S R A := λ s, (Returned r, s).

(** [raise e] *)
Definition raise {S R A} (e : exn) : M S R A := λ s, (Raised e, s).

(** A pure expression that may raise, used as a statement. *)
Definition lift {S R A} (x : res A) : M S R A := λ s,
  match x with
  | Ok a => (Normal a, s)
  | Raise e => (Raised e, s)
  end.

(** Calling a function whose body is [body]: falling off the end of the
    bodies below never happens, they all end in [return]. *)
Definition def {S R} (body : M S R R) : S → res R * S := λ s,
  match body s with
  | (Normal r, s') => (Ok r, s')
  | (Returned r, s') => (Ok r, s')
  | (Raised e, s') => (Raise e, s')
  end.

(** The result of a call used as a statement of the caller. *)
Definition call {S R A} (f : S → res A * S) : M S R A := λ s,
  match f s with
  | (Ok a, s') => (Normal a, s')
  | (Raise e, s') => (Raised e, s')
  end.

(** [for x in xs: acc = body(x, acc)] *)
Fixpoint for_ {S R A T} (xs : list A) (body : A → T → M S R T) (acc : T)
  : M S R T :=
  match xs with
  | [] => mret acc
  | x :: xs' => acc' ← body x acc; for_ xs' body acc'
  end.

Global Instance res_ret : MRet res := λ A a, Ok a.
Global Instance res_bind : MBind res := λ A B f x,
  match x with
  | Ok a => f a
  | Raise e => Raise e
  end.

(** [d[k]] *)
Definition getitem {V} (d : gmap string V) (k : string) : res V :=
  match d !! k with
  | Some v => Ok v
  | None => Raise (KeyError k)
  end.

(** [a, b = l] *)
Definition unpack2 {A} (l : list A) : res (A * A) :=
  match l with
  | [a; b] => Ok (a, b)
  | _ => Raise ValueError
  end.

(** A value that is either [False] or of type [A]: what [info] and [show]
    return. *)
Inductive or_false (A : Type) :=
| PyFalse
| Val (a : A).
Arguments PyFalse {A}.
Arguments Val {A} a.

(** [for x in v]: [False] is not iterable. *)
Definition iter {A} (v : or_false (list A)) : res (list A) :=
  match v with
  | Val l => Ok l
  | PyFalse => Raise TypeError
  end.

(** [v[k]]: [False] is not subscriptable. *)
Definition subscript {V} (v : or_false (gmap string V)) (k : string) : res V :=
  match v with
  | Val d => getitem d k
  | PyFalse => Raise TypeError
  end.

(** Values formatted into messages: strings and integers. *)
Inductive pyval :=
| PyStr (s : string)
| PyInt (z : Z).

(** [str(v)], as an f-string formats it. *)
Definition str (v : pyval) : string :=
  match v with
  | PyStr s => s
  | PyInt z => pretty z
  end.

(** One licence key entry, a [dict] from field name to value. *)
Abbreviation license := (gmap string string).

(** [l[0]] *)
Definition first {A} (l : list A) : res A :=
  match l with
  | a :: _ => Ok a
  | [] => Raise IndexError
  end.

(** ** The execution module [_modules/sap_likey.py] *)

Module Modules.

(** What [cmd.run_all] returns. *)
Record cmd_ret := {
  retcode : Z;
  stdout : string;
  stderr : string
}.

(** What the module takes from its surroundings, over a world [W]:
    [__salt__["cmd.shell"](cmd, runas)],
    [__salt__["cmd.run_all"](cmd, runas, timeout)] and
    [salt.utils.files.fopen(filename, "r")] followed by [readlines()]. *)
Record Minion (W : Type) := {
  cmd_shell : string → string → W → res string * W;
  cmd_run_all : string → string → Z → W → res cmd_ret * W;
  fopen_readlines : string → W → res (list string) * W
}.
Arguments cmd_shell {W} _ _ _ _.
Arguments cmd_run_all {W} _ _ _ _ _.
Arguments fopen_readlines {W} _ _ _.

(** *** The parsing loops *)

(** One line of the output of [saplikey -get] (body of the loop of
    [info]). *)
Definition info_line (ifo : gmap string string) (line : string)
  : res (gmap string string) :=
  if Py.contains ":" line then
    '(key, value) ← unpack2 (Py.split1 ":" line);
    let key :=
      Py.replace_char " " "_" (Py.strip (Py.remove_char "." (Py.lower key))) in
    let key := Py.collapse_underscores key in
    value ← first (Py.split " " (Py.strip value));
    mret (<[key := value]> ifo)
  else mret ifo.

(** [for i in range(0, len(lines))] of [info]; the loop only reads
    [lines[i]]. *)
Fixpoint info_lines (lines : list string) (ifo : gmap string string)
  : res (gmap string string) :=
  match lines with
  | [] => mret ifo
  | line :: lines' => ifo' ← info_line ifo line; info_lines lines' ifo'
  end.

Definition parse_info (stdout : string) : res (gmap string string) :=
  info_lines (Py.split "010" stdout) ∅.

(** The [while lines[i]:] loop of [show]; [rest] is [lines[i:]].  Reading
    [lines[i]] past the end is an [IndexError], a line without a colon
    cannot be unpacked into [key, value]. *)
Fixpoint show_block (rest : list string) (lic : license) : res license :=
  match rest with
  | [] => Raise IndexError
  | line :: rest' =>
      if Py.truthy line then
        '(key, value) ← unpack2 (Py.split1 ":" line);
        let key := Py.replace_char " " "_" (Py.lower (Py.strip key)) in
        let key := Py.collapse_underscores key in
        let value := Py.strip value in
        show_block rest' (<[key := value]> lic)
      else mret lic
  end.

(** [for i in range(0, len(lines))] of [show]; [rest] is [lines[i:]].  The
    [i += 2] and [i += 1] inside the body move a copy of the index only:
    the next round takes the next value of the range, so the scan goes on
    at the line after the marker. *)
Fixpoint show_lines (rest : list string) (licenses : list license)
  : res (list license) :=
  match rest with
  | [] => mret licenses
  | line :: rest' =>
      if Py.endswith line "License Key:" then
        lic ← show_block (drop 1 rest') ∅;
        show_lines rest' (licenses ++ [lic])
      else show_lines rest' licenses
  end.

(** Lines 127 to 142 of [show]: the text of [saplikey -show] to the list
    of licences. *)
Definition parse_show (stdout : string) : res (list license) :=
  show_lines (Py.split "010" stdout) [].

(** The [if]/[elif] chain of [read_lic_file] on one [KEY=value] line. *)
Definition read_lic_line (lic : license) (line : string) : res license :=
  '(key, value) ← unpack2 (Py.split1 "=" line);
  let value := Py.strip value in
  mret (if String.eqb key "SAPSYSTEM" then <["system" := value]> lic
        else if String.eqb key "HARDWARE-KEY" then <["hardware_key" := value]> lic
        else if String.eqb key "INSTNO" then <["installation_number" := value]> lic
        else if String.eqb key "BEGIN" then <["begin_of_validity" := value]> lic
        else if String.eqb key "EXPIRATION" then <["end_of_validity" := value]> lic
        else if String.eqb key "SWPRODUCTNAME" then <["software_product" := value]> lic
        else if String.eqb key "SWPRODUCTLIMIT" then <["software_product_limit" := value]> lic
        else if String.eqb key "SYSTEM-NR" then <["system_number" := value]> lic
        else lic).

(** The [while i < len(lines) and ...] loop of [read_lic_file]; [rest] is
    [lines[i:]]. *)
Fixpoint read_lic_block (rest : list string) (lic : license) : res license :=
  match rest with
  | [] => mret lic
  | line :: rest' =>
      if Py.contains "=" line && negb (Py.contains "Begin SAP License" line)
      then lic' ← read_lic_line lic line; read_lic_block rest' lic'
      else mret lic
  end.

(** [for i in range(0, len(lines))] of [read_lic_file]; [rest] is
    [lines[i:]].  As in [show], what the body adds to [i] is lost at the
    next round. *)
Fixpoint read_lic_lines (rest : list string) (data : list license)
  : res (list license) :=
  match rest with
  | [] => mret data
  | line :: rest' =>
      if Py.contains "Begin SAP License" line then
        lic ← read_lic_block rest' ∅;
        read_lic_lines rest' (data ++ [lic])
      else read_lic_lines rest' data
  end.

Section Functions.
Context {W : Type} (salt : Minion W).

Definition _get_saplikey_path (sidadm : string) : W → res string * W :=
  def (
    dir_library ← call (cmd_shell salt "echo $DIR_LIBRARY" sidadm);
    if negb (Py.truthy dir_library) || negb (Py.contains "/" dir_library)
    then raise (Exception ("Cannot retrieve $DIR_LIBRARY for user " +:+ sidadm))
    else return_ (dir_library +:+ "/saplikey")).

(** The common start of the five wrappers: the command line up to the
    profile, run as [<sid>adm] with a timeout of 30. *)
Definition saplikey {R} (sid : string) (args : string) : M W R cmd_ret :=
  let sid := Py.upper sid in
  let runas := Py.lower sid +:+ "adm" in
  saplikey_exec ← call (_get_saplikey_path runas);
  let cmd :=
    saplikey_exec +:+ " pf=/sapmnt/" +:+ sid +:+ "/profile/DEFAULT.PFL " +:+ args in
  call (cmd_run_all salt cmd runas 30).

Definition info (sid : string)
  : W → res (or_false (gmap string string)) * W :=
  def (
    cmd_ret ← saplikey sid "-get";
    if negb (retcode cmd_ret =? 0)%Z then return_ PyFalse
    else
      ifo ← lift (parse_info (stdout cmd_ret));
      return_ (Val ifo)).

Definition show (sid : string) : W → res (or_false (list license)) * W :=
  def (
    cmd_ret ← saplikey sid "-show";
    if negb (retcode cmd_ret =? 0)%Z then return_ PyFalse
    else
      licenses ← lift (parse_show (stdout cmd_ret));
      return_ (Val licenses)).

Definition install (sid filename : string) : W → res bool * W :=
  def (
    cmd_ret ← saplikey sid ("-install " +:+ filename);
    if negb (retcode cmd_ret =? 0)%Z then return_ false
    else return_ true).

(** [def delete(name, sid, hwkey="*", product="*")] *)
Definition delete (name sid hwkey product : string) : W → res bool * W :=
  def (
    cmd_ret ←
      saplikey sid ("-delete " +:+ name +:+ " " +:+ hwkey +:+ " " +:+ product);
    if negb (retcode cmd_ret =? 0)%Z then return_ false
    else return_ true).

Definition temp (sid product : string) : W → res bool * W :=
  def (
    cmd_ret ← saplikey sid ("-temp " +:+ product);
    if negb (retcode cmd_ret =? 0)%Z then return_ false
    else return_ true).

Definition read_lic_file (filename : string) : W → res (list license) * W :=
  def (
    lines ← call (fopen_readlines salt filename);
    data ← lift (read_lic_lines lines []);
    return_ data).

End Functions.

End Modules.

(** ** The state module [_states/sap_likey.py] *)

Module States.

(** The calls a state makes into [__salt__], with the arguments the callee
    receives. *)
Inductive invocation :=
| Info (sid : string)
| Show (sid : string)
| Delete (name sid hwkey product : string)
| Install (sid filename : string)
| Temp (sid product : string)
| ReadLicFile (filename : string)
| FileGetUser (path : string)
| UserInfo (name : string)
| FileChown (user group : pyval) (path : string).

Global Instance pyval_eq_dec : EqDecision pyval.
Proof. solve_decision. Defined.
Global Instance invocation_eq_dec : EqDecision invocation.
Proof. solve_decision. Defined.

(** The [__salt__] dunder as the states use it, over a world [W]. *)
Record Salt (W : Type) := {
  sap_likey_info : string → W → res (or_false (gmap string string)) * W;
  sap_likey_show : string → W → res (or_false (list license)) * W;
  sap_likey_delete : string → string → string → string → W → res bool * W;
  sap_likey_install : string → string → W → res bool * W;
  sap_likey_temp : string → string → W → res bool * W;
  sap_likey_read_lic_file : string → W → res (list license) * W;
  file_get_user : string → W → res string * W;
  user_info : string → W → res (gmap string pyval) * W;
  file_chown : pyval → pyval → string → W → res unit * W
}.
Arguments sap_likey_info {W} _ _ _.
Arguments sap_likey_show {W} _ _ _.
Arguments sap_likey_delete {W} _ _ _ _ _ _.
Arguments sap_likey_install {W} _ _ _ _.
Arguments sap_likey_temp {W} _ _ _ _.
Arguments sap_likey_read_lic_file {W} _ _ _.
Arguments file_get_user {W} _ _ _.
Arguments user_info {W} _ _ _.
Arguments file_chown {W} _ _ _ _ _.

(** The state of a run: the world and the calls made so far, oldest
    first. *)
Record st (W : Type) := St {
  world : W;
  calls : list invocation
}.
Arguments St {W} _ _.
Arguments world {W} _.
Arguments calls {W} _.

(** The return value of a state: [ret["name"]], [ret["changes"]],
    [ret["comment"]], [ret["result"]] ([None] is the dry run's "would
    change"). *)
Record ret := Ret {
  r_name : string;
  r_changes : gmap string (list string);
  r_comment : string;
  r_result : option bool
}.

(** [ret["changes"][key].append(msg)] *)
Definition append (key msg : string) (r : ret) : ret :=
  Ret (r_name r) (alter (λ l, l ++ [msg]) key (r_changes r))
      (r_comment r) (r_result r).

(** [ret["comment"] = msg; ret["result"] = False] *)
Definition failed (msg : string) (r : ret) : ret :=
  Ret (r_name r) (r_changes r) msg (Some false).

Definition set_comment (msg : string) (r : ret) : ret :=
  Ret (r_name r) (r_changes r) msg (r_result r).

(** [not ret["changes"].get(key)] *)
Definition no_changes (key : string) (r : ret) : bool :=
  match r_changes r !! key with
  | None | Some [] => true
  | Some (_ :: _) => false
  end.

(** The last lines of both states. *)
Definition finish (test : bool) (r : ret) : ret :=
  let r :=
    if no_changes "new" r && no_changes "old" r
    then Ret (r_name r) ∅ "No changes required" (r_result r)
    else r in
  Ret (r_name r) (r_changes r) (r_comment r)
      (if negb test || bool_decide (r_changes r = ∅) then Some true else None).

(** ["{lic['system']} / {lic['hardware_key']} / {lic['software_product']}"],
    the middle of every message about one licence. *)
Definition describe (lic : license) : res string :=
  system ← getitem lic "system";
  hardware_key ← getitem lic "hardware_key";
  software_product ← getitem lic "software_product";
  mret (system +:+ " / " +:+ hardware_key +:+ " / " +:+ software_product).

(** Lines 125 to 130: the fields of the live system that a licence file
    does not have are deleted from [lic_sys]. *)
Definition strip_system_fields (lic_sys : license) : license :=
  base.delete "type_of_license_key"
    (base.delete "validity" (base.delete "last_successful_check" lic_sys)).

(** [for lic_sys in licenses_system] of lines 123 to 133: whether
    [lic_file] is found, and [licenses_system] with the entries visited
    stripped in place. *)
Fixpoint find_license (lic_file : license) (licenses_system : list license)
  : bool * list license :=
  match licenses_system with
  | [] => (false, [])
  | lic_sys :: rest =>
      let lic_sys := strip_system_fields lic_sys in
      if bool_decide (lic_file = lic_sys) then (true, lic_sys :: rest)
      else
        let '(found, rest) := find_license lic_file rest in
        (found, lic_sys :: rest)
  end.

(** [for lic_file in licenses_file] of lines 121 to 136, from
    [all_valid]: the final [all_valid] and [licenses_system]. *)
Fixpoint all_found (licenses_file : list license) (all_valid : bool)
    (licenses_system : or_false (list license))
  : res (bool * or_false (list license)) :=
  match licenses_file with
  | [] => mret (all_valid, licenses_system)
  | lic_file :: rest =>
      lics ← iter licenses_system;
      let '(found, lics) := find_license lic_file lics in
      if negb found then mret (false, Val lics)
      else all_found rest all_valid (Val lics)
  end.

(** [for lic in licenses_system] of lines 201 to 207, from
    [valid_license]. *)
Fixpoint find_valid (licenses_system : list license) (valid_license : bool)
  : res bool :=
  match licenses_system with
  | [] => mret valid_license
  | lic :: rest =>
      software_product ← getitem lic "software_product";
      if Py.startswith software_product "Maintenance_"
      then find_valid rest valid_license
      else
        validity ← getitem lic "validity";
        if String.eqb validity "valid" then mret true
        else find_valid rest valid_license
  end.

(** [if licenses_system:] *)
Definition nonempty (v : or_false (list license)) : bool :=
  match v with
  | Val (_ :: _) => true
  | _ => false
  end.

Section Functions.
Context {W : Type} (salt : Salt W).
(** [__opts__["test"]] *)
Context (test : bool).

(** A call into [__salt__]: it is recorded, then run on the world. *)
Definition invoke {R A} (c : invocation) (f : W → res A * W)
  : M (st W) R A := λ s,
  let '(r, w) := f (world s) in
  (match r with Ok a => Normal a | Raise e => Raised e end,
   St w (calls s ++ [c])).

Definition salt_info {R} (sid : string) :=
  invoke (R:=R) (Info sid) (sap_likey_info salt sid).
Definition salt_show {R} (sid : string) :=
  invoke (R:=R) (Show sid) (sap_likey_show salt sid).
Definition salt_delete {R} (name sid hwkey product : string) :=
  invoke (R:=R) (Delete name sid hwkey product)
    (sap_likey_delete salt name sid hwkey product).
Definition salt_install {R} (sid filename : string) :=
  invoke (R:=R) (Install sid filename) (sap_likey_install salt sid filename).
Definition salt_temp {R} (sid product : string) :=
  invoke (R:=R) (Temp sid product) (sap_likey_temp salt sid product).
Definition salt_read_lic_file {R} (filename : string) :=
  invoke (R:=R) (ReadLicFile filename) (sap_likey_read_lic_file salt filename).
Definition salt_file_get_user {R} (path : string) :=
  invoke (R:=R) (FileGetUser path) (file_get_user salt path).
Definition salt_user_info {R} (name : string) :=
  invoke (R:=R) (UserInfo name) (user_info salt name).
Definition salt_file_chown {R} (user group : pyval) (path : string) :=
  invoke (R:=R) (FileChown user group path) (file_chown salt user group path).

(** Lines 64 to 87: one round of the loop over the licences of other
    systems.  [delete] is called without [hwkey] and [product], which
    are then ["*"]. *)
Definition remove_other_sid_body (name : string) (lic : license) (ret : ret)
  : M (st W) States.ret States.ret :=
  system ← lift (getitem lic "system");
  if negb (String.eqb system name) then
    if test then
      d ← lift (describe lic);
      mret (append "old" ("SAP system license " +:+ d +:+ " would be removed") ret)
    else
      system ← lift (getitem lic "system");
      success ← salt_delete system name "*" "*";
      if success : bool then
        d ← lift (describe lic);
        mret (append "old" ("SAP system license " +:+ d) ret)
      else
        d ← lift (describe lic);
        return_ (failed ("Could not remove license for SAP system license " +:+ d) ret)
  else mret ret.

(** Lines 90 to 115: one round of the loop over the licences of other
    hardware keys.  [delete] is called without [product], which is then
    ["*"]. *)
Definition remove_other_hwkey_body (name : string)
    (info : or_false (gmap string string)) (lic : license) (ret : ret)
  : M (st W) States.ret States.ret :=
  hardware_key ← lift (getitem lic "hardware_key");
  own ← lift (subscript info "hardware_key");
  if negb (String.eqb hardware_key own) then
    if test then
      d ← lift (describe lic);
      mret (append "old" ("SAP system license " +:+ d +:+ " would be removed") ret)
    else
      system ← lift (getitem lic "system");
      hardware_key ← lift (getitem lic "hardware_key");
      success ← salt_delete system name hardware_key "*";
      if success : bool then
        d ← lift (describe lic);
        mret (append "old" ("SAP system license " +:+ d) ret)
      else
        d ← lift (describe lic);
        return_ (failed ("Could not remove license for system " +:+ d) ret)
  else mret ret.

(** [for lic in lics: ret["changes"][key].append(prefix + ... + suffix)] *)
Definition append_all (key prefix suffix : string) (lics : list license)
    (ret : ret) : M (st W) States.ret States.ret :=
  for_ lics (λ lic ret,
    d ← lift (describe lic);
    mret (append key (prefix +:+ d +:+ suffix) ret)) ret.

(** Lines 137 to 195: the [if not all_valid:] branch. *)
Definition install_file (name filename : string)
    (licenses_file : list license) (licenses_system : or_false (list license))
    (ret : ret) : M (st W) States.ret States.ret :=
  ret ←
    (if test then
       lics ← lift (iter licenses_system);
       append_all "old" "SAP system license " " would be removed" lics ret
     else
       success ← salt_delete name name "*" "*";
       if success : bool then
         lics ← lift (iter licenses_system);
         append_all "old" "SAP system license " "" lics ret
       else return_ (failed ("Could not remove license for system " +:+ name) ret));
  let sidadm := Py.lower name +:+ "adm" in
  owner ← salt_file_get_user filename;
  ret ←
    (if negb (String.eqb owner sidadm) then
       user_info ← salt_user_info sidadm;
       if test then
         uid ← lift (getitem user_info "uid");
         gid ← lift (getitem user_info "gid");
         mret (append "new"
                 ("Would change to owner of " +:+ filename +:+ " to uid "
                  +:+ str uid +:+ " / gid " +:+ str gid) ret)
       else
         uid ← lift (getitem user_info "uid");
         gid ← lift (getitem user_info "gid");
         salt_file_chown uid gid filename;;
         mret ret
     else mret ret);
  ret ←
    (if test then
       append_all "new" "SAP system license " " would be installed" licenses_file ret
     else
       success ← salt_install name filename;
       if success : bool then
         append_all "new" "SAP system license " "" licenses_file ret
       else return_ (failed ("Could not install licenses for system " +:+ name) ret));
  mret (set_comment "Installed licenses" ret).

(** Lines 199 to 242: the branch without a licence file. *)
Definition ensure_valid (name : string) (info : or_false (gmap string string))
    (licenses_system : or_false (list license)) (ret : ret)
  : M (st W) States.ret States.ret :=
  lics ← lift (iter licenses_system);
  valid_license ← lift (find_valid lics false);
  if negb valid_license then
    ret ←
      (if nonempty licenses_system then
         if test then
           mret (append "old" ("SAP system " +:+ name +:+ " license would be deleted") ret)
         else
           success ← salt_delete name name "*" "*";
           if success : bool then
             mret (append "old" ("SAP system " +:+ name +:+ " license") ret)
           else return_ (failed ("Could not remove license for system " +:+ name) ret)
       else mret ret);
    _ ← lift (subscript info "software_products");
    if test then
      products ← lift (subscript info "software_products");
      mret (append "new"
              ("SAP system " +:+ name +:+ " temporary license for " +:+ products
               +:+ " would be added") ret)
    else
      products ← lift (subscript info "software_products");
      success ← salt_temp name products;
      if success : bool then
        products ← lift (subscript info "software_products");
        mret (append "new"
                ("SAP system " +:+ name +:+ " temporary license for " +:+ products) ret)
      else
        products ← lift (subscript info "software_products");
        return_ (failed ("Could not add temporay license for system " +:+ name
                         +:+ " for " +:+ products) ret)
  else mret (set_comment ("System " +:+ name +:+ " already has a valid license") ret).

(** [if filename:] on [None] or a string. *)
Definition given (filename : option string) : option string :=
  match filename with
  | Some f => if Py.truthy f then Some f else None
  | None => None
  end.

(** Lines 117 to 197: the branch with a licence file. *)
Definition ensure_file (name filename : string)
    (licenses_system : or_false (list license)) (ret : ret)
  : M (st W) States.ret States.ret :=
  licenses_file ← salt_read_lic_file filename;
  let all_valid := bool_decide (0 < length licenses_file)%nat in
  '(all_valid, licenses_system) ←
    lift (all_found licenses_file all_valid licenses_system);
  if negb all_valid
  then install_file name filename licenses_file licenses_system ret
  else mret ret.

Definition license_present (name : string) (filename : option string)
    (remove_other_sid remove_other_hwkey : bool)
  : st W → res ret * st W :=
  def (
    let ret :=
      Ret name {["old" := []; "new" := []]} "" (Some true) in
    info ← salt_info name;
    licenses_system ← salt_show name;
    ret ←
      (if remove_other_sid then
         lics ← lift (iter licenses_system);
         for_ lics (remove_other_sid_body name) ret
       else mret ret);
    ret ←
      (if remove_other_hwkey then
         _ ← lift (subscript info "hardware_key");
         lics ← lift (iter licenses_system);
         for_ lics (remove_other_hwkey_body name info) ret
       else mret ret);
    ret ←
      match given filename with
      | Some filename => ensure_file name filename licenses_system ret
      | None => ensure_valid name info licenses_system ret
      end;
    return_ (finish test ret)).

(** Lines 277 to 304: one round of the loop of [license_absent]. *)
Definition license_absent_body (name : string) (remove_all : bool)
    (lic_sys : license) (ret : ret) : M (st W) States.ret States.ret :=
  matches ←
    (if remove_all then mret true
     else system ← lift (getitem lic_sys "system");
          mret (String.eqb system name));
  if matches : bool then
    _ ← lift (getitem lic_sys "system");
    if test then
      d ← lift (describe lic_sys);
      mret (append "old" ("SAP system license " +:+ d +:+ " would be removed") ret)
    else
      hardware_key ← lift (getitem lic_sys "hardware_key");
      software_product ← lift (getitem lic_sys "software_product");
      success ← salt_delete name name hardware_key software_product;
      if success : bool then
        d ← lift (describe lic_sys);
        mret (append "old" ("SAP system license " +:+ d) ret)
      else
        d ← lift (describe lic_sys);
        return_ (failed ("Could not remove license for " +:+ d) ret)
  else mret ret.

Definition license_absent (name : string) (remove_all : bool)
  : st W → res ret * st W :=
  def (
    let ret :=
      Ret name {["old" := []; "new" := []]} "" (Some true) in
    licenses_system ← salt_show name;
    lics ← lift (iter licenses_system);
    ret ← for_ lics (license_absent_body name remove_all) ret;
    return_ (finish test ret)).

End Functions.

End States.

(** ** Wiring and fixed surroundings for concrete runs *)

Module Fixtures.
Import States.

(** The loader: the functions of the execution module behind
    [__salt__["sap_likey.*"]], next to the [file] and [user] modules. *)
Definition loader {W} (minion : Modules.Minion W)
    (get_user : string → W → res string * W)
    (uinfo : string → W → res (gmap string pyval) * W)
    (chown : pyval → pyval → string → W → res unit * W) : Salt W := {|
  sap_likey_info := Modules.info minion;
  sap_likey_show := Modules.show minion;
  sap_likey_delete := Modules.delete minion;
  sap_likey_install := Modules.install minion;
  sap_likey_temp := Modules.temp minion;
  sap_likey_read_lic_file := Modules.read_lic_file minion;
  file_get_user := get_user;
  user_info := uinfo;
  file_chown := chown
|}.

(** Surroundings that answer every call the same way and have no state of
    their own. *)
Definition fixed (info : or_false (gmap string string))
    (show : or_false (list license)) (deleted installed : bool)
    (licenses_file : list license) (owner : string)
    (uinfo : gmap string pyval) : Salt unit := {|
  sap_likey_info := λ _ w, (Ok info, w);
  sap_likey_show := λ _ w, (Ok show, w);
  sap_likey_delete := λ _ _ _ _ w, (Ok deleted, w);
  sap_likey_install := λ _ _ w, (Ok installed, w);
  sap_likey_temp := λ _ _ w, (Ok installed, w);
  sap_likey_read_lic_file := λ _ w, (Ok licenses_file, w);
  file_get_user := λ _ w, (Ok owner, w);
  user_info := λ _ w, (Ok uinfo, w);
  file_chown := λ _ _ _ w, (Ok (), w)
|}.

(** A minion whose tool directory is [/usr/sap/S4H/SYS/exe/run], whose
    every command ends with [code] and prints [out], and whose every file
    has the lines [lines]. *)
Definition tool (code : Z) (out : string) (lines : list string)
  : Modules.Minion unit := {|
  Modules.cmd_shell := λ _ _ w, (Ok "/usr/sap/S4H/SYS/exe/run", w);
  Modules.cmd_run_all := λ _ _ _ w, (Ok (Modules.Build_cmd_ret code out ""), w);
  Modules.fopen_readlines := λ _ w, (Ok lines, w)
|}.

(** A minion whose [$DIR_LIBRARY] is empty. *)
Definition no_tool : Modules.Minion unit := {|
  Modules.cmd_shell := λ _ _ w, (Ok "", w);
  Modules.cmd_run_all := λ _ _ _ w, (Ok (Modules.Build_cmd_ret 0 "" ""), w);
  Modules.fopen_readlines := λ _ w, (Ok [], w)
|}.

Definition lic (system hardware_key software_product : string) : license :=
  {["system" := system; "hardware_key" := hardware_key;
    "software_product" := software_product]}.

Definition start : st unit := St () [].

(** The lines of a licence file with one block, as [readlines] gives
    them. *)
Definition example_file : list string :=
  ["----- Begin SAP License -----" +:+ String "010" "";
   "SAPSYSTEM=S4H" +:+ String "010" "";
   "HARDWARE-KEY=Z01" +:+ String "010" "";
   "SWPRODUCTNAME=NetWeaver_HDB" +:+ String "010" "";
   "LKEY=xxxx" +:+ String "010" "";
   "----- End SAP License -----" +:+ String "010" ""].

(** What [info] gives for the system S4H. *)
Definition info_S4H : or_false (gmap string string) :=
  Val {["hardware_key" := "H1"; "software_products" := "NetWeaver_HDB"]}.

(** A valid licence of the system S4H on its own hardware key, as [show]
    gives it. *)
Definition own_license : license :=
  <["validity" := "valid"]> (lic "S4H" "H1" "NetWeaver_HDB").

Definition uinfo : gmap string pyval :=
  {["uid" := PyInt 1001; "gid" := PyInt 79]}.

(** The surroundings of a system whose only licence is [own_license],
    with [licenses_file] as the records of every licence file. *)
Definition settled (licenses_file : list license) : Salt unit :=
  fixed info_S4H (Val [own_license]) true true licenses_file "root" uinfo.

(** The surroundings of a system that also holds a licence of the
    system M70 on the hardware key H2. *)
Definition with_foreign : Salt unit :=
  fixed info_S4H (Val [lic "M70" "H2" "P"; own_license]) true true []
    "s4hadm" uinfo.

(** The surroundings of a system that holds one licence of the system
    M70, on its own hardware key. *)
Definition only_foreign : Salt unit :=
  fixed info_S4H (Val [lic "M70" "H1" "P"]) true true [] "s4hadm" uinfo.

(** The surroundings of a system with one licence of its own, where
    [delete] fails. *)
Definition undeletable : Salt unit :=
  fixed info_S4H (Val [lic "S4H" "H1" "P"]) false true [] "s4hadm" uinfo.

(** The surroundings of a system that holds an expired licence of the
    system M70 on the hardware key H2 next to [own_license]. *)
Definition crowded : Salt unit :=
  fixed info_S4H
    (Val [<["validity" := "expired"]> (lic "M70" "H2" "P"); own_license])
    true true [] "s4hadm" uinfo.

(** The surroundings of a system that holds a licence on its own
    hardware key H1 and one on H2, with a licence file that has both. *)
Definition two_keys : Salt unit :=
  fixed info_S4H (Val [lic "S4H" "H1" "P"; lic "S4H" "H2" "P"]) true true
    [lic "S4H" "H1" "P"; lic "S4H" "H2" "P"] "s4hadm" uinfo.

(** The surroundings of a system whose only licence has expired; [temp]
    answers [temp_ok]. *)
Definition lapsed (temp_ok : bool) : Salt unit :=
  fixed info_S4H
    (Val [<["validity" := "expired"]> (lic "S4H" "H1" "NetWeaver_HDB")])
    true temp_ok [] "s4hadm" uinfo.

(** The surroundings of a system the tool of which ends with the code 1:
    the execution module on [tool], with a file owned by root. *)
Definition broken_tool : Salt unit :=
  loader (tool 1 "" [])
    (λ _ w, (Ok "root", w)) (λ _ w, (Ok uinfo, w)) (λ _ _ _ w, (Ok (), w)).

(** The surroundings of a system whose licence file has no block: the
    execution module reads the file, the rest is fixed. *)
Definition empty_file : Salt unit := {|
  sap_likey_info := λ _ w, (Ok info_S4H, w);
  sap_likey_show := λ _ w, (Ok (Val [own_license]), w);
  sap_likey_delete := λ _ _ _ _ w, (Ok true, w);
  sap_likey_install := λ _ _ w, (Ok true, w);
  sap_likey_temp := λ _ _ w, (Ok true, w);
  sap_likey_read_lic_file := Modules.read_lic_file (tool 0 "" ["# no licence"]);
  file_get_user := λ _ w, (Ok "root", w);
  user_info := λ _ w, (Ok uinfo, w);
  file_chown := λ _ _ _ w, (Ok (), w)
|}.

End Fixtures.

(** ** The licence file reader in the words of the specification

    A line containing the marker opens a block; the [KEY=value] lines after
    it, up to a line without [=], a new marker or the end of the input, go
    through a fixed rename table; keys that are not in the table are
    dropped; each block yields one record, in file order. *)

Module Spec.

Definition marker : string := "Begin SAP License".

Definition rename_table : list (string * string) :=
  [("SAPSYSTEM", "system");
   ("HARDWARE-KEY", "hardware_key");
   ("INSTNO", "installation_number");
   ("BEGIN", "begin_of_validity");
   ("EXPIRATION", "end_of_validity");
   ("SWPRODUCTNAME", "software_product");
   ("SWPRODUCTLIMIT", "software_product_limit");
   ("SYSTEM-NR", "system_number")].

Fixpoint assoc (key : string) (table : list (string * string))
  : option string :=
  match table with
  | [] => None
  | (k, v) :: table' => if String.eqb key k then Some v else assoc key table'
  end.

(** The field names a record can have. *)
Definition fields : list string := rename_table.*2.

Definition is_key_value (line : string) : bool :=
  Py.contains "=" line && negb (Py.contains marker line).

(** The [KEY=value] lines of the block that starts at [rest]. *)
Fixpoint block_of (rest : list string) : list string :=
  match rest with
  | line :: rest' => if is_key_value line then line :: block_of rest' else []
  | [] => []
  end.

(** One line through the rename table: the field and its value, if the
    key is in the table. *)
Definition field_of (line : string) : option (string * string) :=
  match Py.split1 "=" line with
  | [key; value] => field ← assoc key rename_table; Some (field, Py.strip value)
  | _ => None
  end.

Definition add_line (lic : license) (line : string) : license :=
  match field_of line with
  | Some (field, value) => <[field := value]> lic
  | None => lic
  end.

Definition record_of (block : list string) : license :=
  foldl add_line ∅ block.

Fixpoint parse_license_file (lines : list string) : list license :=
  match lines with
  | [] => []
  | line :: rest =>
      if Py.contains marker line
      then record_of (block_of rest) :: parse_license_file rest
      else parse_license_file rest
  end.

End Spec.

(** ** A program logic for the statements of a function

    [triple I m Q QR]: started in a state satisfying the invariant [I], the
    statement [m] ends in a state satisfying [I], whichever way it ends; a
    value it runs through with satisfies [Q], a value it returns satisfies
    [QR]. *)

Definition triple {S R A} (I : S → Prop) (m : M S R A)
    (Q : A → Prop) (QR : R → Prop) : Prop :=
  ∀ s, I s →
    I (m s).2 ∧
    match (m s).1 with
    | Normal a => Q a
    | Returned r => QR r
    | Raised _ => True
    end.

(** ** Predicates on calls and messages used in the statements below *)

Module Props.
Import States.

(** The calls that change the system: [delete], [install], [temp] and
    [file.chown]. *)
Definition mutating (c : invocation) : bool :=
  match c with
  | Delete _ _ _ _ | Install _ _ | Temp _ _ | FileChown _ _ _ => true
  | _ => false
  end.

Definition is_delete (c : invocation) : bool :=
  match c with
  | Delete _ _ _ _ => true
  | _ => false
  end.

(** The descriptions of a dry run: "... would be removed", "... would be
    deleted", "... would be installed", "... would be added" and "Would
    change to owner of ...". *)
Inductive would : string → Prop :=
| would_be (subject verb : string) :
    verb ∈ ["removed"; "deleted"; "installed"; "added"] →
    would (subject +:+ " would be " +:+ verb)
| would_change (rest : string) :
    would ("Would change to owner of " +:+ rest).

(** Every description in both change lists of [r] satisfies [P]. *)
Definition descriptions (P : string → Prop) (r : ret) : Prop :=
  ∀ key l, r_changes r !! key = Some l → Forall P l.

(** Both change lists of [r] are empty. *)
Definition unchanged (r : ret) : Prop :=
  no_changes "old" r = true ∧ no_changes "new" r = true.

(** The result of a state that had nothing to do. *)
Definition no_op (r : ret) : Prop :=
  r_comment r = "No changes required" ∧ r_result r = Some true.

(** What a state gives reports a failure or went through the last lines
    of the state. *)
Definition failed_or_finished (test : bool) (r : ret) : Prop :=
  r_result r = Some false ∨ ∃ r0, r = finish test r0.

(** The calls [cs'] extend [cs] by calls that satisfy [P]. *)
Definition extends (P : invocation → Prop) (cs cs' : list invocation) : Prop :=
  ∃ new, cs' = cs ++ new ∧ Forall P new.

(** A delete call aimed at one record: owner, hardware key and product
    are those of an observed record. *)
Definition scoped_by_record (lics : list license) (c : invocation) : Prop :=
  ∀ name sid hwkey product, c = Delete name sid hwkey product →
    ∃ lic, lic ∈ lics ∧ lic !! "system" = Some name
           ∧ lic !! "hardware_key" = Some hwkey
           ∧ lic !! "software_product" = Some product.

(** A statement that did not run through: it raised, or returned a
    value with the result [False]; and the same of a finished call. *)
Definition halted {A} (o : outcome ret A) : Prop :=
  match o with
  | Normal _ => False
  | Returned r => r_result r = Some false
  | Raised _ => True
  end.

Definition stopped (x : res ret) : Prop :=
  match x with
  | Ok r => r_result r = Some false
  | Raise _ => True
  end.

(** No observed licence is foreign under the removals that are switched
    on: every one is of the system [name], and carries the hardware key of
    [info]. *)
Definition none_foreign (name : string) (info : or_false (gmap string string))
    (lics : list license) (remove_other_sid remove_other_hwkey : bool) : Prop :=
  (remove_other_sid = true → Forall (λ lic, lic !! "system" = Some name) lics)
  ∧ (remove_other_hwkey = true →
     ∃ own, subscript info "hardware_key" = Ok own
            ∧ Forall (λ lic, lic !! "hardware_key" = Some own) lics).

(** A record of the file has an exact match among the observed ones once
    the fields that only the system has are stripped. *)
Definition installed (lics : list license) (lic_file : license) : Prop :=
  Exists (λ lic_sys, strip_system_fields lic_sys = lic_file) lics.

(** A valid licence other than a maintenance licence. *)
Definition valid (lic : license) : Prop :=
  ∃ product, lic !! "software_product" = Some product
             ∧ Py.startswith product "Maintenance_" = false
             ∧ lic !! "validity" = Some "valid".

(** A record carries the three fields every message about it names. *)
Definition describable (lic : license) : Prop :=
  ∃ d, describe lic = Ok d.

(** The check of lines 160 to 173 goes through from the world [w]: the
    owner of the file is read, and when it is not [<sid>adm] the user is
    looked up, has a [uid] and a [gid], and [file.chown] comes back.  [mid]
    are the calls after [file.get_user]. *)
Definition ownership_settled {W} (salt : Salt W) (name filename : string)
    (w : W) (mid : list invocation) : Prop :=
  let sidadm := Py.lower name +:+ "adm" in
  ∃ owner w1, file_get_user salt filename w = (Ok owner, w1) ∧
    ((owner = sidadm ∧ mid = []) ∨
     (owner ≠ sidadm ∧
      ∃ ui uid gid w2 w3,
        user_info salt sidadm w1 = (Ok ui, w2)
        ∧ ui !! "uid" = Some uid ∧ ui !! "gid" = Some gid
        ∧ file_chown salt uid gid filename w2 = (Ok (), w3)
        ∧ mid = [UserInfo sidadm; FileChown uid gid filename])).

(** The observed records carry the fields the scan for a valid licence
    reads. *)
Definition scannable (lic : license) : Prop :=
  is_Some (lic !! "software_product") ∧ is_Some (lic !! "validity").

End Props.

(** ** Texts the parsers are run on

    The output of [saplikey -show] and the licence files of SAP, written
    from the records they describe. *)

Module Render.

Definition nl : string := String "010" EmptyString.

(** The record with the given fields, a later field replacing an earlier
    one of the same name. *)
Definition record (fields : list (string * string)) : license :=
  foldl (λ lic kv, <[kv.1 := kv.2]> lic) ∅ fields.

(** The key of a line of [saplikey -show] as [show] stores it. *)
Definition show_key (key : string) : string :=
  Py.collapse_underscores (Py.replace_char " " "_" (Py.lower (Py.strip key))).

(** A field that [show] reads back as it is: the key has no colon and is
    in the form [show] stores, the value has no white space around it, and
    the line does not end like the header of a block. *)
Definition show_field (kv : string * string) : Prop :=
  Py.contains ":" kv.1 = false
  ∧ show_key kv.1 = kv.1
  ∧ Py.lstrip kv.2 = kv.2 ∧ Py.rstrip kv.2 = kv.2
  ∧ Py.endswith (kv.1 +:+ ": " +:+ kv.2) "License Key:" = false.

(** One block of the output of [saplikey -show]: the header, the rule
    below it, one line per field and the empty line that ends the block. *)
Definition show_block_lines (block : string * list (string * string))
  : list string :=
  block.1 :: "-------" :: ((λ kv, kv.1 +:+ ": " +:+ kv.2) <$> block.2) ++ [""].

Definition show_lines_of (blocks : list (string * list (string * string)))
  : list string :=
  blocks ≫= show_block_lines.

(** No line break inside the header and the fields of a block. *)
Definition one_line (s : string) : Prop := Py.contains nl s = false.

Definition show_block_ok (block : string * list (string * string)) : Prop :=
  Py.endswith block.1 "License Key:" = true
  ∧ one_line block.1
  ∧ Forall (λ kv, show_field kv ∧ one_line kv.1 ∧ one_line kv.2) block.2.

(** The output of [saplikey -show] for the given blocks. *)
Definition show_text (blocks : list (string * list (string * string)))
  : string :=
  String.concat nl (show_lines_of blocks).

(** A field of a licence file that [read_lic_file] reads back: the key is
    one of the rename table, the value has no white space around it, and the
    line does not contain the marker of a block. *)
Definition lic_field (kv : string * string) : Prop :=
  is_Some (Spec.assoc kv.1 Spec.rename_table)
  ∧ Py.lstrip kv.2 = kv.2 ∧ Py.rstrip kv.2 = kv.2
  ∧ Py.contains Spec.marker (kv.1 +:+ "=" +:+ kv.2 +:+ nl) = false.

(** One block of a licence file, as [readlines] gives it: the line with
    the marker, one line per field and the closing line. *)
Definition lic_block_lines (fields : list (string * string)) : list string :=
  ("----- Begin SAP License -----" +:+ nl)
  :: ((λ kv, kv.1 +:+ "=" +:+ kv.2 +:+ nl) <$> fields)
  ++ ["----- End SAP License -----" +:+ nl].

(** The record of a block: the fields under their names of the rename
    table. *)
Definition lic_record (fields : list (string * string)) : license :=
  record ((λ kv, (default kv.1 (Spec.assoc kv.1 Spec.rename_table), kv.2))
          <$> fields).

(** The characters of a string. *)
Fixpoint chars (s : string) : list ascii :=
  match s with
  | String c s' => c :: chars s'
  | EmptyString => []
  end.

(** A key of [info]: lower case, without space, period or two
    underscores in a row. *)
Definition info_key (key : string) : Prop :=
  Py.lower key = key
  ∧ Py.contains " " key = false
  ∧ Py.contains "." key = false
  ∧ Py.contains "__" key = false.

End Render.

(** ** What the states are expected to call and to report *)

Module Plan.
Import States.

(** [describe] of a record that carries the three fields. *)
Definition description (lic : license) : string :=
  match describe lic with
  | Ok d => d
  | Raise _ => EmptyString
  end.

(** [lic[key]] of a record that carries the field. *)
Definition field (key : string) (lic : license) : string :=
  default EmptyString (lic !! key).

(** The message about a licence that was removed or installed. *)
Definition named (lic : license) : string :=
  "SAP system license " +:+ description lic.

(** [ret["changes"]] with the two lists. *)
Definition changes (old new : list string) : gmap string (list string) :=
  {["old" := old; "new" := new]}.

(** The records [license_absent] is to remove. *)
Definition to_remove (name : string) (remove_all : bool) (lics : list license)
  : list license :=
  filter (λ lic, remove_all = true ∨ lic !! "system" = Some name) lics.

(** The records of other systems, and those on other hardware keys. *)
Definition other_sid (name : string) (lics : list license) : list license :=
  filter (λ lic, lic !! "system" ≠ Some name) lics.

Definition other_hwkey (own : string) (lics : list license) : list license :=
  filter (λ lic, lic !! "hardware_key" ≠ Some own) lics.

(** Every call of [delete], [install] or [temp] comes back with the same
    answer, whatever the world. *)
Definition deletes_answer {W} (salt : Salt W) (answer : bool) : Prop :=
  ∀ name sid hwkey product w,
    (sap_likey_delete salt name sid hwkey product w).1 = Ok answer.

Definition installs_answer {W} (salt : Salt W) (answer : bool) : Prop :=
  ∀ sid filename w, (sap_likey_install salt sid filename w).1 = Ok answer.

Definition temps_answer {W} (salt : Salt W) (answer : bool) : Prop :=
  ∀ sid product w, (sap_likey_temp salt sid product w).1 = Ok answer.

(** The licence file [filename] belongs to [owner], whatever the world. *)
Definition owned_by {W} (salt : Salt W) (filename owner : string) : Prop :=
  ∀ w, (file_get_user salt filename w).1 = Ok owner.

(** The message of a dry run about a licence it would remove, and the
    message of either kind of run. *)
Definition announced (lic : license) : string :=
  "SAP system license " +:+ description lic +:+ " would be removed".

Definition removed (test : bool) (lic : license) : string :=
  if test then announced lic else named lic.

(** The message about a licence of the file, in either kind of run. *)
Definition added (test : bool) (lic : license) : string :=
  if test
  then "SAP system license " +:+ description lic +:+ " would be installed"
  else named lic.

(** The records the two removal loops of [license_present] pick, each
    loop over the whole list [show] gave, and the [delete] call of each
    loop for a record. *)
Definition sid_removals (name : string) (remove_other_sid : bool)
    (lics : list license) : list license :=
  if remove_other_sid then other_sid name lics else [].

Definition hwkey_removals (own : string) (remove_other_hwkey : bool)
    (lics : list license) : list license :=
  if remove_other_hwkey then other_hwkey own lics else [].

Definition foreign (name own : string)
    (remove_other_sid remove_other_hwkey : bool) (lics : list license)
  : list license :=
  sid_removals name remove_other_sid lics
  ++ hwkey_removals own remove_other_hwkey lics.

Definition delete_sid (name : string) (lic : license) : invocation :=
  Delete (field "system" lic) name "*" "*".

Definition delete_hwkey (name : string) (lic : license) : invocation :=
  Delete (field "system" lic) name (field "hardware_key" lic) "*".

Definition foreign_deletes (name own : string)
    (remove_other_sid remove_other_hwkey : bool) (lics : list license)
  : list invocation :=
  (delete_sid name <$> sid_removals name remove_other_sid lics)
  ++ (delete_hwkey name <$> hwkey_removals own remove_other_hwkey lics).

(** The [delete] call of [license_absent] for a record. *)
Definition delete_record (name : string) (lic : license) : invocation :=
  Delete name name (field "hardware_key" lic) (field "software_product" lic).

(** The calls of a run that is not a dry run; a dry run makes none of
    them. *)
Definition unless_dry (test : bool) (cs : list invocation) : list invocation :=
  if test then [] else cs.

(** Without a valid licence and without a file: the wildcard [delete]
    and its message when [show] gave a record, and the message about the
    temporary licence. *)
Definition wipe (name : string) (lics : list license) : list invocation :=
  match lics with
  | [] => []
  | _ :: _ => [Delete name name "*" "*"]
  end.

Definition wiped (name : string) (test : bool) (lics : list license)
  : list string :=
  match lics with
  | [] => []
  | _ :: _ =>
      ["SAP system " +:+ name
       +:+ (if test then " license would be deleted" else " license")]
  end.

Definition temporary (name products : string) (test : bool) : string :=
  "SAP system " +:+ name +:+ " temporary license for "
  +:+ (if test then products +:+ " would be added" else products).

(** The licence file [filename] has the records [licenses_file], the
    user [user] has the entry [ui], and [file.chown] comes back, whatever
    the world. *)
Definition reads_file {W} (salt : Salt W) (filename : string)
    (licenses_file : list license) : Prop :=
  ∀ w, (sap_likey_read_lic_file salt filename w).1 = Ok licenses_file.

Definition known_user {W} (salt : Salt W) (user : string)
    (ui : gmap string pyval) : Prop :=
  ∀ w, (user_info salt user w).1 = Ok ui.

Definition chowns {W} (salt : Salt W) : Prop :=
  ∀ uid gid path w, (file_chown salt uid gid path w).1 = Ok ().

(** The calls and the message about the owner of the licence file: none
    when [owner] is [<sid>adm]; otherwise the user is looked up, and the
    file is handed over, or the dry run announces it. *)
Definition chown_calls (test : bool) (name filename owner : string)
    (uid gid : pyval) : list invocation :=
  let sidadm := Py.lower name +:+ "adm" in
  if String.eqb owner sidadm then []
  else UserInfo sidadm :: unless_dry test [FileChown uid gid filename].

Definition chown_announced (test : bool) (name filename owner : string)
    (uid gid : pyval) : list string :=
  let sidadm := Py.lower name +:+ "adm" in
  if negb (String.eqb owner sidadm) && test
  then ["Would change to owner of " +:+ filename +:+ " to uid "
        +:+ str uid +:+ " / gid " +:+ str gid]
  else [].

End Plan.

(** ** Facts about strings *)

Module PyFacts.

Lemma append_assoc (a b c : string) : (a +:+ b) +:+ c = a +:+ b +:+ c.
Proof.
  induction a as [|x a IH]; [reflexivity|].
  change (String x ((a +:+ b) +:+ c) = String x (a +:+ b +:+ c)).
  by rewrite IH.
Qed.

End PyFacts.

(** ** Facts about the execution module *)

Module ModulesFacts.
Import Modules Spec.

Lemma split1_found (sep : ascii) (s : string) :
  Py.contains (String sep EmptyString) s = true →
  ∃ key value, Py.split1 sep s = [key; value].
Proof.
  induction s as [|c s IH]; simpl; [discriminate|].
  rewrite Ascii.eqb_sym. destruct (Ascii.eqb c sep); simpl.
  - intros _. by eexists _, _.
  - intros [key [value ->]]%IH. by eexists _, _.
Qed.

Lemma read_lic_line_add (lic : license) (line : string) :
  Py.contains "=" line = true →
  read_lic_line lic line = Ok (add_line lic line).
Proof.
  intros [key [value Hsplit]]%split1_found.
  unfold read_lic_line, add_line, field_of. rewrite Hsplit. simpl.
  repeat (destruct (String.eqb key _); [done|]). done.
Qed.

Lemma read_lic_block_record (rest : list string) (lic : license) :
  read_lic_block rest lic = Ok (foldl add_line lic (block_of rest)).
Proof.
  revert lic. induction rest as [|line rest IH]; intros lic; simpl; [done|].
  unfold is_key_value, marker.
  destruct (Py.contains "=" line) eqn:Heq; simpl; [|done].
  destruct (Py.contains "Begin SAP License" line); simpl; [done|].
  rewrite read_lic_line_add by done. simpl. apply IH.
Qed.

Lemma read_lic_lines_parse (rest : list string) (data : list license) :
  read_lic_lines rest data = Ok (data ++ parse_license_file rest).
Proof.
  revert data. induction rest as [|line rest IH]; intros data; simpl.
  - by rewrite app_nil_r.
  - unfold marker. destruct (Py.contains "Begin SAP License" line).
    + rewrite read_lic_block_record. simpl. rewrite IH.
      by rewrite <- app_assoc.
    + apply IH.
Qed.

Lemma parse_license_file_length (lines : list string) :
  length (parse_license_file lines)
  = length (filter (λ line, Py.contains marker line = true) lines).
Proof.
  induction lines as [|line lines IH]; simpl; [done|].
  rewrite filter_cons. destruct (Py.contains marker line) eqn:Hm.
  - rewrite decide_True by done. simpl. by rewrite IH.
  - rewrite decide_False by done. done.
Qed.

Lemma assoc_fields (key field : string) :
  assoc key rename_table = Some field → field ∈ fields.
Proof.
  unfold rename_table, fields. simpl.
  repeat (destruct (String.eqb key _);
          [intros [= <-]; set_solver|]).
  done.
Qed.

Lemma add_line_fields (lic : license) (line : string) :
  (∀ k, is_Some (lic !! k) → k ∈ fields) →
  ∀ k, is_Some (add_line lic line !! k) → k ∈ fields.
Proof.
  intros Hlic k. unfold add_line, field_of.
  destruct (Py.split1 "=" line) as [|key [|value [|? ?]]]; try apply Hlic.
  destruct (assoc key rename_table) as [field|] eqn:Hassoc; simpl; [|apply Hlic].
  destruct (decide (field = k)) as [<-|Hne].
  - intros _. by eapply assoc_fields.
  - rewrite lookup_insert_ne by done. apply Hlic.
Qed.

Lemma record_of_fields (block : list string) (k : string) :
  is_Some (record_of block !! k) → k ∈ fields.
Proof.
  unfold record_of.
  assert (∀ lic : license, (∀ k, is_Some (lic !! k) → k ∈ fields) →
          ∀ k, is_Some (foldl add_line lic block !! k) → k ∈ fields) as H.
  { induction block as [|line block IH]; intros lic Hlic; simpl; [done|].
    apply IH. by apply add_line_fields. }
  apply H. intros k'. rewrite lookup_empty. by intros [? ?].
Qed.

Lemma parse_license_file_fields (lines : list string) (lic : license) (k : string) :
  lic ∈ parse_license_file lines → is_Some (lic !! k) → k ∈ fields.
Proof.
  induction lines as [|line lines IH]; simpl; [by intros ?%elem_of_nil|].
  destruct (Py.contains marker line); [|done].
  intros [->|Hin]%elem_of_cons; [apply record_of_fields|by apply IH].
Qed.

Lemma read_lic_file_parse {W} (salt : Minion W) (filename : string)
    (lines : list string) (w w' : W) :
  fopen_readlines salt filename w = (Ok lines, w') →
  read_lic_file salt filename w = (Ok (parse_license_file lines), w').
Proof.
  intros Hopen.
  unfold read_lic_file, def, mbind, M_bind, call, lift, return_.
  rewrite Hopen. by rewrite read_lic_lines_parse.
Qed.

(** C9: [read_lic_file] returns the records of the specification's reader:
    one per line that contains "Begin SAP License", in file order, each made
    of the [KEY=value] lines that follow, sent through the rename table;
    no record has a field outside the eight of the table, so [LKEY] and any
    other key is dropped. *)
Theorem read_lic_file_records {W} (salt : Minion W) (filename : string)
    (lines : list string) (w w' : W) :
  fopen_readlines salt filename w = (Ok lines, w') →
  read_lic_file salt filename w = (Ok (parse_license_file lines), w')
  ∧ length (parse_license_file lines)
    = length (filter (λ line, Py.contains marker line = true) lines)
  ∧ ∀ lic k, lic ∈ parse_license_file lines → is_Some (lic !! k) → k ∈ fields.
Proof.
  intros Hopen. split; [|split].
  - by apply read_lic_file_parse.
  - apply parse_license_file_length.
  - intros lic k. apply parse_license_file_fields.
Qed.

Lemma read_lic_file_records_witness :
  read_lic_file (Fixtures.tool 0 "" Fixtures.example_file) "/tmp/S4H.txt" ()
  = (Ok (parse_license_file Fixtures.example_file), ())
  ∧ length (parse_license_file Fixtures.example_file)
    = length (filter (λ line, Py.contains marker line = true) Fixtures.example_file)
  ∧ ∀ lic k, lic ∈ parse_license_file Fixtures.example_file →
             is_Some (lic !! k) → k ∈ fields.
Proof.
  apply (read_lic_file_records (Fixtures.tool 0 "" Fixtures.example_file)).
  reflexivity.
Defined.

(** The example of the specification: one record with the three fields and
    no [lkey]. *)
Example read_lic_file_example :
  read_lic_file (Fixtures.tool 0 "" Fixtures.example_file) "/tmp/S4H.txt" ()
  = (Ok [Fixtures.lic "S4H" "Z01" "NetWeaver_HDB"], ()).
Proof. vm_compute. reflexivity. Qed.

(** C4: the output of [saplikey -show] whose last block is not followed by
    an empty line makes the loop of [show] read [lines[i]] past the end of
    [lines]: an [IndexError], not a list of licences.  The loop of
    [read_lic_file] has the test [i < len(lines)] that this one lacks. *)
Theorem parse_show_unterminated :
  parse_show ("1. License Key:" +:+ String "010" "-------" +:+ String "010"
              "System : S4H")
  = Raise IndexError.
Proof. vm_compute. reflexivity. Qed.

(** A line of a block without a colon cannot be unpacked. *)
Example parse_show_no_colon :
  parse_show ("1. License Key:" +:+ String "010" "-------" +:+ String "010"
              "System S4H" +:+ String "010" "" +:+ String "010" "")
  = Raise ValueError.
Proof. vm_compute. reflexivity. Qed.

(** With the empty line in place the block is read. *)
Example parse_show_terminated :
  parse_show ("1. License Key:" +:+ String "010" "-------" +:+ String "010"
              "System : S4H" +:+ String "010" "Hardware Key : Z01"
              +:+ String "010" "Software Product : NetWeaver_HDB"
              +:+ String "010" "" +:+ String "010" "")
  = Ok [Fixtures.lic "S4H" "Z01" "NetWeaver_HDB"].
Proof. vm_compute. reflexivity. Qed.

Lemma saplikey_run {W R} (salt : Minion W) (sid args dir : string)
    (c : cmd_ret) (w w1 w2 : W) :
  cmd_shell salt "echo $DIR_LIBRARY" (Py.lower (Py.upper sid) +:+ "adm") w
  = (Ok dir, w1) →
  Py.truthy dir && Py.contains "/" dir = true →
  cmd_run_all salt
    (dir +:+ "/saplikey" +:+ " pf=/sapmnt/" +:+ Py.upper sid
     +:+ "/profile/DEFAULT.PFL " +:+ args)
    (Py.lower (Py.upper sid) +:+ "adm") 30 w1 = (Ok c, w2) →
  saplikey (R:=R) salt sid args w = (Normal c, w2).
Proof.
  intros Hshell [Ht Hc]%andb_true_iff Hrun.
  unfold saplikey, _get_saplikey_path, def, mbind, M_bind, call, raise, return_.
  rewrite Hshell, Ht, Hc. simpl.
  assert ((dir +:+ "/saplikey") +:+ " pf=/sapmnt/" +:+ Py.upper sid
          +:+ "/profile/DEFAULT.PFL " +:+ args
          = dir +:+ "/saplikey" +:+ " pf=/sapmnt/" +:+ Py.upper sid
          +:+ "/profile/DEFAULT.PFL " +:+ args) as ->.
  { apply PyFacts.append_assoc. }
  by rewrite Hrun.
Qed.

(** [show] gives [False] when the tool ends with a code other than 0. *)
Lemma show_nonzero_exit {W} (salt : Minion W) (sid dir : string)
    (c : cmd_ret) (w w1 w2 : W) :
  cmd_shell salt "echo $DIR_LIBRARY" (Py.lower (Py.upper sid) +:+ "adm") w
  = (Ok dir, w1) →
  Py.truthy dir && Py.contains "/" dir = true →
  cmd_run_all salt
    (dir +:+ "/saplikey" +:+ " pf=/sapmnt/" +:+ Py.upper sid
     +:+ "/profile/DEFAULT.PFL " +:+ "-show")
    (Py.lower (Py.upper sid) +:+ "adm") 30 w1 = (Ok c, w2) →
  retcode c ≠ 0%Z →
  show salt sid w = (Ok PyFalse, w2).
Proof.
  intros Hshell Hdir Hrun Hcode. unfold show, def, mbind, M_bind.
  rewrite (saplikey_run salt sid "-show" dir c w w1 w2) by done.
  apply Z.eqb_neq in Hcode. by rewrite Hcode.
Qed.

End ModulesFacts.

(** ** Rules of the program logic *)

Section Logic.
Context {S R : Type} (I : S → Prop) (QR : R → Prop).

Lemma triple_ret {A} (a : A) (Q : A → Prop) :
  Q a → triple I (mret a) Q QR.
Proof. intros Ha s Hs. by split. Qed.

Lemma triple_return {A} (r : R) (Q : A → Prop) :
  QR r → triple I (return_ r) Q QR.
Proof. intros Hr s Hs. by split. Qed.

Lemma triple_raise {A} (e : exn) (Q : A → Prop) :
  triple I (raise e) Q QR.
Proof. intros s Hs. by split. Qed.

Lemma triple_lift {A} (x : res A) (Q : A → Prop) :
  (∀ a, x = Ok a → Q a) → triple I (lift x) Q QR.
Proof. intros Hx s Hs. unfold lift. destruct x; simpl; auto. Qed.

Lemma triple_bind {A B} (m : M S R A) (f : A → M S R B)
    (Q1 : A → Prop) (Q : B → Prop) :
  triple I m Q1 QR → (∀ a, Q1 a → triple I (f a) Q QR) →
  triple I (m ≫= f) Q QR.
Proof.
  intros Hm Hf s Hs. destruct (Hm s Hs) as [HI HQ].
  unfold mbind, M_bind. destruct (m s) as [[a|r|e] s']; simpl in *; auto.
  by apply Hf.
Qed.

Lemma triple_weaken {A} (m : M S R A) (Q Q' : A → Prop) :
  triple I m Q QR → (∀ a, Q a → Q' a) → triple I m Q' QR.
Proof.
  intros Hm HQ s Hs. destruct (Hm s Hs) as [HI Hout]. split; [done|].
  destruct (m s).1; auto.
Qed.

Lemma triple_for {A T} (xs : list A) (body : A → T → M S R T) (acc : T)
    (Q : T → Prop) :
  Q acc → (∀ x acc, x ∈ xs → Q acc → triple I (body x acc) Q QR) →
  triple I (for_ xs body acc) Q QR.
Proof.
  revert acc. induction xs as [|x xs IH]; intros acc Hacc Hbody; simpl.
  - by apply triple_ret.
  - apply triple_bind with Q.
    + apply Hbody; [left|done].
    + intros acc' Hacc'. apply IH; [done|].
      intros y acc'' Hy. apply Hbody. by right.
Qed.

(** A function whose body satisfies a triple: the invariant holds after
    the call and the value it gives satisfies [QR]. *)
Lemma triple_def (body : M S R R) (s : S) :
  triple I body QR QR → I s →
  I (def body s).2 ∧ ∀ r, (def body s).1 = Ok r → QR r.
Proof.
  intros Hbody Hs. destruct (Hbody s Hs) as [HI Hout]. unfold def.
  destruct (body s) as [[a|r|e] s']; simpl in *; (split; [done|]).
  - by intros ? [= <-].
  - by intros ? [= <-].
  - by intros ? [=].
Qed.

End Logic.

Module StatesLogic.
Import States Props.

Lemma extends_refl (P : invocation → Prop) (cs : list invocation) :
  extends P cs cs.
Proof. exists []. by rewrite app_nil_r. Qed.

Lemma extends_snoc (P : invocation → Prop) (cs cs' : list invocation)
    (c : invocation) :
  extends P cs cs' → P c → extends P cs (cs' ++ [c]).
Proof.
  intros [new [-> Hnew]] Hc. exists (new ++ [c]).
  split; [by rewrite app_assoc|]. apply Forall_app. by split; [|constructor].
Qed.

(** A call into [__salt__] keeps "the calls extend [cs] by calls
    satisfying [P]" when it satisfies [P] itself; nothing is known of its
    answer. *)
Lemma triple_invoke {W R A} (P : invocation → Prop) (cs : list invocation)
    (c : invocation) (f : W → res A * W) (QR : R → Prop) :
  P c →
  triple (λ s, extends P cs (calls s)) (invoke c f) (λ _, True) QR.
Proof.
  intros Hc s Hs. unfold invoke. destruct (f (world s)) as [[a|e] w]; simpl;
    (split; [by apply extends_snoc|done]).
Qed.

Lemma getitem_Ok {V} (d : gmap string V) (k : string) (v : V) :
  getitem d k = Ok v → d !! k = Some v.
Proof. unfold getitem. destruct (d !! k); by intros [= <-]. Qed.

Lemma iter_Ok {A} (v : or_false (list A)) (l : list A) :
  iter v = Ok l → v = Val l.
Proof. destruct v; by intros [= <-]. Qed.

End StatesLogic.

(** ** Facts about the states *)

Module StatesFacts.
Import States Props StatesLogic.

(** *** Change lists *)

Lemma descriptions_init (P : string → Prop) (name comment : string)
    (result : option bool) :
  descriptions P (Ret name {["old" := []; "new" := []]} comment result).
Proof.
  intros key l. simpl.
  destruct (decide (key = "old")) as [->|Hold].
  { rewrite lookup_insert_eq. by intros [= <-]. }
  rewrite lookup_insert_ne by done.
  destruct (decide (key = "new")) as [->|Hnew].
  { rewrite lookup_singleton_eq. by intros [= <-]. }
  by rewrite lookup_singleton_ne.
Qed.

Lemma descriptions_append (P : string → Prop) (key msg : string) (r : ret) :
  descriptions P r → P msg → descriptions P (append key msg r).
Proof.
  intros Hr Hmsg key' l. unfold append. simpl. rewrite lookup_alter.
  destruct (decide (key = key')) as [<-|Hne]; [|apply Hr].
  destruct (r_changes r !! key) as [l'|] eqn:Hl'; simpl; [|done].
  intros [= <-]. apply Forall_app. split; [by eapply Hr|by constructor].
Qed.

Lemma descriptions_failed (P : string → Prop) (msg : string) (r : ret) :
  descriptions P r → descriptions P (failed msg r).
Proof. done. Qed.

Lemma descriptions_set_comment (P : string → Prop) (msg : string) (r : ret) :
  descriptions P r → descriptions P (set_comment msg r).
Proof. done. Qed.

Lemma descriptions_finish (P : string → Prop) (test : bool) (r : ret) :
  descriptions P r → descriptions P (finish test r).
Proof.
  intros Hr key l. unfold finish.
  destruct (no_changes "new" r && no_changes "old" r); simpl; [|apply Hr].
  by rewrite lookup_empty.
Qed.

Lemma would_eq (subject verb msg : string) :
  verb ∈ ["removed"; "deleted"; "installed"; "added"] →
  msg = subject +:+ " would be " +:+ verb → would msg.
Proof. intros Hverb ->. by constructor. Qed.

Ltac would_verb subject verb :=
  apply (would_eq subject verb);
  [set_solver|by rewrite !PyFacts.append_assoc].

Ltac would :=
  lazymatch goal with
  | |- would ("Would change to owner of " +:+ _) => apply would_change
  | |- would (?a +:+ ?b +:+ " would be removed") =>
      would_verb (a +:+ b) "removed"
  | |- would (?a +:+ ?b +:+ " would be installed") =>
      would_verb (a +:+ b) "installed"
  | |- would (?a +:+ ?b +:+ " license would be deleted") =>
      would_verb (a +:+ b +:+ " license") "deleted"
  | |- would (?a +:+ ?b +:+ ?c +:+ ?d +:+ " would be added") =>
      would_verb (a +:+ b +:+ c +:+ d) "added"
  end.

(** One step of a proof of a triple: the rule of the statement at the
    head.  [Qret] is what is known of [ret] between two statements. *)
Ltac triple_step Qret :=
  lazymatch goal with
  | |- triple _ (mret _) _ _ => apply triple_ret
  | |- triple _ (return_ _) _ _ => apply triple_return
  | |- triple _ (lift _) _ _ => apply triple_lift; intros ? ?
  | |- triple _ (mbind _ (lift _)) _ _ =>
      eapply triple_bind;
      [apply triple_lift; let H := fresh in intros ? H; exact H|intros ? ?]
  | |- triple _ (mbind _ (invoke _ _)) _ _ =>
      eapply triple_bind; [apply triple_invoke|intros ? _]
  | |- triple _ (mbind _ ?m) _ _ =>
      lazymatch type of m with
      | M _ _ ret => apply triple_bind with Qret; [|intros ? ?]
      | _ => apply triple_bind with (λ _, True); [|intros ? _]
      end
  | |- triple _ (for_ _ _ _) _ _ => apply triple_for; [|intros ? ? ? ?]
  | |- triple _ (if true then _ else _) _ _ => lazy beta iota
  | |- triple _ (if false then _ else _) _ _ => lazy beta iota
  | |- triple _ (if ?b then _ else _) _ _ => destruct b eqn:?
  | |- triple _ (match ?x with _ => _ end) _ _ => destruct x eqn:?
  end.

Ltac unfold_states :=
  unfold license_present, license_absent, license_absent_body,
    remove_other_sid_body, remove_other_hwkey_body, ensure_file, install_file,
    ensure_valid, append_all,
    salt_info, salt_show, salt_delete, salt_install, salt_temp,
    salt_read_lic_file, salt_file_get_user, salt_user_info, salt_file_chown.

(** *** Dry run *)

Section DryRun.
Context {W : Type} (salt : Salt W) (cs : list invocation).

Local Abbreviation read_only :=
  (λ s : st W, extends (λ c, mutating c = false) cs (calls s)).

Local Ltac dry :=
  repeat first
    [ triple_step (descriptions would)
    | done
    | apply descriptions_init
    | apply descriptions_finish
    | apply descriptions_failed
    | apply descriptions_set_comment
    | apply descriptions_append
    | would ].

Lemma license_present_dry (name : string) (filename : option string)
    (remove_other_sid remove_other_hwkey : bool) (s : st W) :
  read_only s →
  let out := license_present salt true name filename
               remove_other_sid remove_other_hwkey s in
  read_only out.2 ∧ ∀ r, out.1 = Ok r → descriptions would r.
Proof.
  intros Hs. unfold_states.
  apply (triple_def read_only (descriptions would)); [|done]. dry.
Qed.

Lemma license_absent_dry (name : string) (remove_all : bool) (s : st W) :
  read_only s →
  let out := license_absent salt true name remove_all s in
  read_only out.2 ∧ ∀ r, out.1 = Ok r → descriptions would r.
Proof.
  intros Hs. unfold_states.
  apply (triple_def read_only (descriptions would)); [|done]. dry.
Qed.

End DryRun.

(** C7: in a dry run ([test] is [True]) [license_present] and
    [license_absent] make no call to [delete], [install], [temp] or
    [file.chown], whatever the surroundings answer and however the run
    ends; every description in the change lists of the value they give is a
    "would be removed / deleted / installed / added" or a "Would change to
    owner" description. *)
Theorem dry_run_read_only {W} (salt : Salt W) (name : string)
    (filename : option string)
    (remove_other_sid remove_other_hwkey remove_all : bool) (s : st W) :
  let present := license_present salt true name filename
                   remove_other_sid remove_other_hwkey s in
  let absent := license_absent salt true name remove_all s in
  extends (λ c, mutating c = false) (calls s) (calls present.2)
  ∧ (∀ r, present.1 = Ok r → descriptions would r)
  ∧ extends (λ c, mutating c = false) (calls s) (calls absent.2)
  ∧ (∀ r, absent.1 = Ok r → descriptions would r).
Proof.
  pose proof (license_present_dry salt (calls s) name filename
                remove_other_sid remove_other_hwkey s (extends_refl _ _))
    as [Hp1 Hp2].
  pose proof (license_absent_dry salt (calls s) name remove_all s
                (extends_refl _ _)) as [Ha1 Ha2].
  done.
Qed.

(** *** The result when nothing changed *)

Lemma finish_unchanged (test : bool) (r : ret) :
  unchanged (finish test r) → no_op (finish test r).
Proof.
  unfold unchanged, no_op, finish.
  destruct (no_changes "new" r && no_changes "old" r) eqn:Hr; simpl.
  - intros _. split; [done|].
    rewrite bool_decide_eq_true_2 by done. by rewrite orb_true_r.
  - unfold no_changes in *. simpl. intros [Hold Hnew].
    rewrite Hold, Hnew in Hr. done.
Qed.

Section Finished.
Context {W : Type} (salt : Salt W) (test : bool).

Local Ltac fin :=
  repeat first
    [ triple_step (λ _ : ret, True)
    | done
    | by left
    | by right; eexists ].

Lemma license_present_finished (name : string) (filename : option string)
    (remove_other_sid remove_other_hwkey : bool) (s : st W) (r : ret) :
  (license_present salt test name filename
     remove_other_sid remove_other_hwkey s).1 = Ok r →
  failed_or_finished test r.
Proof.
  unfold_states.
  apply (triple_def (λ s', extends (λ _, True) (calls s) (calls s'))
           (failed_or_finished test)); [|apply extends_refl].
  fin.
Qed.

Lemma license_absent_finished (name : string) (remove_all : bool)
    (s : st W) (r : ret) :
  (license_absent salt test name remove_all s).1 = Ok r →
  failed_or_finished test r.
Proof.
  unfold_states.
  apply (triple_def (λ s', extends (λ _, True) (calls s) (calls s'))
           (failed_or_finished test)); [|apply extends_refl].
  fin.
Qed.

End Finished.

(** C2, as the code has it: a run of [license_present] or
    [license_absent] that gives a value without reporting a failure
    ([result] is not [False]) and with both change lists empty has the
    comment "No changes required" and the result [True].  (A run that a
    failed [delete], [install] or [temp] cuts short gives its own comment
    and the result [False], also with empty change lists.) *)
Theorem unchanged_no_op {W} (salt : Salt W) (test : bool) (name : string)
    (filename : option string)
    (remove_other_sid remove_other_hwkey remove_all : bool) (s : st W)
    (r : ret) :
  (license_present salt test name filename
     remove_other_sid remove_other_hwkey s).1 = Ok r
  ∨ (license_absent salt test name remove_all s).1 = Ok r →
  r_result r ≠ Some false →
  unchanged r → no_op r.
Proof.
  intros Hrun Hresult Hr.
  assert (failed_or_finished test r) as [?|[r0 ->]].
  { destruct Hrun as [Hrun|Hrun].
    - by eapply license_present_finished.
    - by eapply license_absent_finished. }
  - done.
  - by apply finish_unchanged.
Qed.

Lemma unchanged_no_op_witness :
  (license_absent
     (Fixtures.fixed PyFalse (Val []) true true [] "s4hadm" ∅)
     false "S4H" true Fixtures.start).1
  = Ok (Ret "S4H" ∅ "No changes required" (Some true))
  ∧ no_op (Ret "S4H" ∅ "No changes required" (Some true)).
Proof.
  split; [vm_compute; reflexivity|].
  apply (unchanged_no_op
           (Fixtures.fixed PyFalse (Val []) true true [] "s4hadm" ∅)
           false "S4H" None true true true Fixtures.start).
  - right. vm_compute. reflexivity.
  - simpl. discriminate.
  - split; reflexivity.
Defined.

(** C2, as the specification has it, fails: [license_absent] whose first
    [delete] fails gives empty change lists with the comment "Could not
    remove license for S4H / H1 / P" and the result [False]. *)
Lemma unchanged_no_op_counterexample :
  ¬ ∀ r,
      (license_absent Fixtures.undeletable false "S4H" true Fixtures.start).1
      = Ok r →
      unchanged r → no_op r.
Proof.
  intros H.
  destruct (H (Ret "S4H" {["old" := []; "new" := []]}
                 "Could not remove license for S4H / H1 / P" (Some false)))
    as [Hcomment _].
  - vm_compute. reflexivity.
  - split; reflexivity.
  - discriminate Hcomment.
Qed.

End StatesFacts.

(** ** What the states do on given observations *)

Module Reconciliation.
Import States Props StatesLogic StatesFacts.

(** The first statement of a body is a call into [__salt__] that
    answers [a]. *)
Lemma def_invoke {W R A} (c : invocation) (f : W → res A * W)
    (k : A → M (st W) R R) (s : st W) (a : A) (w : W) :
  f (world s) = (Ok a, w) →
  def (invoke c f ≫= k) s = def (k a) (St w (calls s ++ [c])).
Proof.
  intros Hf. unfold def, mbind, M_bind, invoke. by rewrite Hf.
Qed.

(** *** Statements that run through *)

Lemma bind_normal {S R A B} (m : M S R A) (k : A → M S R B) (s s' : S) (a : A) :
  m s = (Normal a, s') → (m ≫= k) s = k a s'.
Proof. intros Hm. unfold mbind, M_bind. by rewrite Hm. Qed.

Lemma def_normal {S R A} (m : M S R A) (k : A → M S R R) (s s' : S) (a : A) :
  m s = (Normal a, s') → def (m ≫= k) s = def (k a) s'.
Proof. intros Hm. unfold def. by rewrite (bind_normal _ _ _ _ _ Hm). Qed.

Lemma lift_Ok {S R A} (x : res A) (a : A) (s : S) :
  x = Ok a → lift (R:=R) x s = (Normal a, s).
Proof. by intros ->. Qed.

Lemma invoke_Ok {W R A} (c : invocation) (f : W → res A * W) (s : st W)
    (a : A) (w : W) :
  f (world s) = (Ok a, w) →
  invoke (R:=R) c f s = (Normal a, St w (calls s ++ [c])).
Proof. intros Hf. unfold invoke. by rewrite Hf. Qed.

Lemma strip_system_fields_idemp (lic : license) :
  strip_system_fields (strip_system_fields lic) = strip_system_fields lic.
Proof.
  unfold strip_system_fields. apply map_eq. intros k.
  rewrite !lookup_delete. repeat case_decide; done.
Qed.

Lemma find_license_spec (lic_file : license) (lics : list license) :
  (find_license lic_file lics).1
  = bool_decide (lic_file ∈ strip_system_fields <$> lics)
  ∧ strip_system_fields <$> (find_license lic_file lics).2
    = strip_system_fields <$> lics.
Proof.
  induction lics as [|lic lics [IH1 IH2]]; [done|].
  cbn [find_license].
  destruct (bool_decide (lic_file = strip_system_fields lic)) eqn:Heq.
  - apply bool_decide_eq_true in Heq.
    cbn [fst snd]. rewrite !fmap_cons, strip_system_fields_idemp.
    split; [|done]. symmetry. apply bool_decide_eq_true_2. rewrite Heq. by left.
  - apply bool_decide_eq_false in Heq.
    destruct (find_license lic_file lics) as [found lics'] eqn:Hfind.
    cbn [fst snd] in *. rewrite !fmap_cons, strip_system_fields_idemp, IH2.
    split; [|done]. rewrite IH1. apply bool_decide_ext.
    rewrite elem_of_cons. split; [by right|]. by intros [?|?].
Qed.

Lemma installed_elem_of (lics : list license) (lic_file : license) :
  installed lics lic_file ↔ lic_file ∈ strip_system_fields <$> lics.
Proof.
  unfold installed. rewrite Exists_exists, list_elem_of_fmap.
  split; intros (lic_sys & H1 & H2); by exists lic_sys.
Qed.

Lemma all_found_installed (licenses_file lics : list license) (all_valid : bool) :
  Forall (installed lics) licenses_file →
  ∃ lics', all_found licenses_file all_valid (Val lics) = Ok (all_valid, Val lics').
Proof.
  revert lics. induction licenses_file as [|lic_file rest IH]; intros lics Hall; simpl.
  { by eexists. }
  apply Forall_cons in Hall as [Hhead Hrest].
  destruct (find_license_spec lic_file lics) as [Hfound Hlics].
  destruct (find_license lic_file lics) as [found lics'] eqn:Hfind. simpl in *.
  rewrite Hfound, bool_decide_eq_true_2 by by apply installed_elem_of.
  simpl. apply IH. eapply Forall_impl; [exact Hrest|].
  intros lf. rewrite !installed_elem_of. by rewrite Hlics.
Qed.

Lemma find_valid_found (lics : list license) (valid_license : bool) :
  Forall scannable lics → Exists valid lics →
  find_valid lics valid_license = Ok true.
Proof.
  induction lics as [|lic lics IH]; intros Hscan Hvalid.
  { by apply Exists_nil in Hvalid. }
  apply Forall_cons in Hscan as [[[product Hproduct] [validity Hvalidity]] Hscan].
  simpl. unfold getitem. rewrite Hproduct, Hvalidity. simpl.
  apply Exists_cons in Hvalid as [(p & Hp & Hstart & Hv)|Hvalid].
  - assert (p = product) as -> by congruence.
    assert (validity = "valid") as -> by congruence.
    by rewrite Hstart.
  - destruct (Py.startswith product "Maintenance_"); [by apply IH|].
    destruct (String.eqb validity "valid"); [done|by apply IH].
Qed.

Section Loops.
Context {W : Type} (salt : Salt W) (test : bool) (name : string).

Lemma remove_other_sid_none (lics : list license) (ret : ret) (s : st W) :
  Forall (λ lic, lic !! "system" = Some name) lics →
  for_ lics (remove_other_sid_body salt test name) ret s = (Normal ret, s).
Proof.
  induction 1 as [|lic lics Hlic _ IH]; simpl; [done|].
  rewrite (bind_normal _ _ s s ret); [apply IH|].
  unfold remove_other_sid_body, mbind, M_bind, lift, getitem.
  rewrite Hlic. simpl. by rewrite String.eqb_refl.
Qed.

Lemma remove_other_hwkey_none (info : or_false (gmap string string))
    (own : string) (lics : list license) (ret : ret) (s : st W) :
  subscript info "hardware_key" = Ok own →
  Forall (λ lic, lic !! "hardware_key" = Some own) lics →
  for_ lics (remove_other_hwkey_body salt test name info) ret s
  = (Normal ret, s).
Proof.
  intros Hown. induction 1 as [|lic lics Hlic _ IH]; simpl; [done|].
  rewrite (bind_normal _ _ s s ret); [apply IH|].
  unfold remove_other_hwkey_body, mbind, M_bind, lift, getitem.
  rewrite Hlic, Hown. simpl. by rewrite String.eqb_refl.
Qed.

Lemma append_all_normal (key prefix suffix : string) (lics : list license)
    (ret : ret) :
  Forall describable lics →
  ∃ ret', ∀ s : st W,
    append_all (W:=W) key prefix suffix lics ret s = (Normal ret', s).
Proof.
  intros Hlics. revert ret.
  induction Hlics as [|lic lics [d Hd] _ IH]; intros ret.
  { by eexists. }
  destruct (IH (append key (prefix +:+ d +:+ suffix) ret)) as [ret' Hret'].
  exists ret'. intros s. unfold append_all in *. simpl.
  rewrite (bind_normal _ _ s s (append key (prefix +:+ d +:+ suffix) ret));
    [apply Hret'|].
  unfold mbind, M_bind, lift. by rewrite Hd.
Qed.

(** Without foreign licences the two removal loops do nothing: the
    state goes on with the third part, after the calls to [info] and
    [show]. *)
Lemma license_present_none_foreign (info : or_false (gmap string string))
    (lics : list license) (filename : option string)
    (remove_other_sid remove_other_hwkey : bool) (s : st W) (w1 w2 : W) :
  sap_likey_info salt name (world s) = (Ok info, w1) →
  sap_likey_show salt name w1 = (Ok (Val lics), w2) →
  none_foreign name info lics remove_other_sid remove_other_hwkey →
  license_present salt test name filename remove_other_sid remove_other_hwkey s
  = def (ret ← match given filename with
               | Some filename =>
                   ensure_file salt test name filename (Val lics)
                     (Ret name {["old" := []; "new" := []]} "" (Some true))
               | None =>
                   ensure_valid salt test name info (Val lics)
                     (Ret name {["old" := []; "new" := []]} "" (Some true))
               end;
         return_ (finish test ret))
      (St w2 (calls s ++ [Info name; Show name])).
Proof.
  intros Hinfo Hshow [Hsid Hhwkey]. unfold license_present, salt_info, salt_show.
  rewrite (def_invoke _ _ _ s info w1) by done.
  rewrite (def_invoke _ _ _ _ (Val lics) w2) by done.
  simpl. rewrite <- app_assoc. simpl.
  set (ret := Ret name _ _ _).
  set (s2 := St w2 _).
  rewrite (def_normal _ _ s2 s2 ret); cycle 1.
  { destruct remove_other_sid; [|done].
    rewrite (bind_normal _ _ s2 s2 lics) by done.
    by apply remove_other_sid_none, Hsid. }
  rewrite (def_normal _ _ s2 s2 ret); cycle 1.
  { destruct remove_other_hwkey; [|done].
    destruct Hhwkey as [own [Hown Hlics]]; [done|].
    rewrite (bind_normal _ _ s2 s2 own) by by apply lift_Ok.
    rewrite (bind_normal _ _ s2 s2 lics) by done.
    by eapply remove_other_hwkey_none. }
  done.
Qed.

End Loops.

Lemma finish_initial (test : bool) (name comment : string)
    (result : option bool) :
  finish test (Ret name {["old" := []; "new" := []]} comment result)
  = Ret name ∅ "No changes required" (Some true).
Proof.
  unfold finish, no_changes. simpl.
  rewrite lookup_insert_ne, lookup_singleton_eq, lookup_insert_eq by done.
  simpl. rewrite bool_decide_eq_true_2 by done. by rewrite orb_true_r.
Qed.

Section Converged.
Context {W : Type} (salt : Salt W) (test : bool) (name : string).
Context (info : or_false (gmap string string)) (lics : list license).
Context (filename : option string) (remove_other_sid remove_other_hwkey : bool).
Context (s : st W) (w1 w2 : W).
Hypothesis Hinfo : sap_likey_info salt name (world s) = (Ok info, w1).
Hypothesis Hshow : sap_likey_show salt name w1 = (Ok (Val lics), w2).
Hypothesis Hforeign :
  none_foreign name info lics remove_other_sid remove_other_hwkey.

(** C5, as the code has it: without a file name, when no observed
    licence is foreign and one of them is a valid licence other than a
    maintenance licence, [license_present] calls [info] and [show] and
    nothing else, and gives the comment "No changes required" with the
    result [True]: the comment "System ... already has a valid license"
    of line 242 is replaced by the last lines, both change lists being
    empty. *)
Theorem valid_license_no_op :
  given filename = None →
  Forall scannable lics → Exists valid lics →
  license_present salt test name filename remove_other_sid remove_other_hwkey s
  = (Ok (Ret name ∅ "No changes required" (Some true)),
     St w2 (calls s ++ [Info name; Show name])).
Proof using Hinfo Hshow Hforeign.
  intros Hgiven Hscan Hvalid.
  rewrite (license_present_none_foreign salt test name info lics _ _ _ s w1 w2)
    by done.
  rewrite Hgiven. unfold def, ensure_valid, mbind, M_bind, lift, return_.
  simpl. rewrite (find_valid_found lics false) by done. simpl.
  unfold set_comment. simpl. by rewrite finish_initial.
Qed.

(** C1, as the code has it: with a licence file that has at least one
    record, when no observed licence is foreign and every record of the
    file has an exact match among the observed ones once the fields of
    the system are stripped, [license_present] calls [info], [show] and
    [read_lic_file] and nothing else, and gives the comment "No changes
    required" with the result [True]. *)
Theorem converged_no_op (f : string) (licenses_file : list license) (w3 : W) :
  given filename = Some f →
  sap_likey_read_lic_file salt f w2 = (Ok licenses_file, w3) →
  licenses_file ≠ [] →
  Forall (installed lics) licenses_file →
  license_present salt test name filename remove_other_sid remove_other_hwkey s
  = (Ok (Ret name ∅ "No changes required" (Some true)),
     St w3 (calls s ++ [Info name; Show name; ReadLicFile f])).
Proof using Hinfo Hshow Hforeign.
  intros Hgiven Hread Hne Hall.
  rewrite (license_present_none_foreign salt test name info lics _ _ _ s w1 w2)
    by done.
  rewrite Hgiven.
  destruct (all_found_installed licenses_file lics
              (bool_decide (0 < length licenses_file)) Hall) as [lics' Hfound].
  unfold def, ensure_file, salt_read_lic_file, mbind, M_bind, invoke, lift,
    return_.
  simpl. rewrite Hread, Hfound. simpl.
  rewrite bool_decide_eq_true_2 by (destruct licenses_file; [done|simpl; lia]).
  simpl. rewrite finish_initial. by rewrite <- app_assoc.
Qed.

End Converged.

(** *** The calls a statement starts with *)

Lemma extends_trans (P : invocation → Prop) (cs1 cs2 cs3 : list invocation) :
  extends P cs1 cs2 → extends P cs2 cs3 → extends P cs1 cs3.
Proof.
  intros [new1 [-> H1]] [new2 [-> H2]]. exists (new1 ++ new2).
  split; [by rewrite app_assoc|]. by apply Forall_app.
Qed.

Section Starts.
Context {W R : Type}.

Local Abbreviation grows m :=
  (∀ cs, triple (λ s : st W, extends (λ _, True) cs (calls s)) m
           (λ _, True) (λ _ : R, True)).

Lemma starts_invoke {A B} (c : invocation) (f : W → res A * W)
    (k : A → M (st W) R B) (s : st W) :
  (∀ a, grows (k a)) →
  extends (λ _, True) (calls s ++ [c]) (calls ((invoke c f ≫= k) s).2).
Proof.
  intros Hk. unfold mbind, M_bind, invoke.
  destruct (f (world s)) as [[a|e] w]; simpl; [|apply extends_refl].
  apply (Hk a (calls s ++ [c]) (St w (calls s ++ [c]))), extends_refl.
Qed.

Lemma starts_bind {A B} (c : invocation) (m : M (st W) R A)
    (k : A → M (st W) R B) (s : st W) :
  extends (λ _, True) (calls s ++ [c]) (calls (m s).2) →
  (∀ a, grows (k a)) →
  extends (λ _, True) (calls s ++ [c]) (calls ((m ≫= k) s).2).
Proof.
  intros Hm Hk. unfold mbind, M_bind.
  destruct (m s) as [[a|r|e] s']; simpl in *; [|done..].
  by apply (Hk a (calls s ++ [c]) s').
Qed.

End Starts.

Lemma def_state {S R} (body : M S R R) (s : S) : (def body s).2 = (body s).2.
Proof. unfold def. by destruct (body s) as [[?|?|?] ?]. Qed.

Lemma def_eq {S R A} (m m' : M S R A) (k : A → M S R R) (s s' : S) :
  m s = m' s' → def (m ≫= k) s = def (m' ≫= k) s'.
Proof. intros Hm. unfold def, mbind, M_bind. by rewrite Hm. Qed.

Lemma read_lic_lines_no_block (lines : list string) :
  Forall (λ line, Py.contains Spec.marker line = false) lines →
  Spec.parse_license_file lines = [].
Proof.
  induction 1 as [|line lines Hline _ IH]; simpl; [done|]. by rewrite Hline.
Qed.

Section EmptyFile.
Context {W : Type} (salt : Salt W) (minion : Modules.Minion W).
Context (name : string) (info : or_false (gmap string string))
  (lics : list license).
Context (filename : option string) (f : string) (lines : list string).
Context (remove_other_sid remove_other_hwkey : bool).
Context (s : st W) (w1 w2 w3 : W).
Hypothesis Hinfo : sap_likey_info salt name (world s) = (Ok info, w1).
Hypothesis Hshow : sap_likey_show salt name w1 = (Ok (Val lics), w2).
Hypothesis Hforeign :
  none_foreign name info lics remove_other_sid remove_other_hwkey.
Hypothesis Hgiven : given filename = Some f.
Hypothesis Hreader : sap_likey_read_lic_file salt = Modules.read_lic_file minion.
Hypothesis Hopen : Modules.fopen_readlines minion f w2 = (Ok lines, w3).
Hypothesis Hlines :
  Forall (λ line, Py.contains Spec.marker line = false) lines.

Lemma license_present_empty_file :
  license_present salt false name filename remove_other_sid remove_other_hwkey s
  = def (ret ← install_file salt false name f [] (Val lics)
                 (Ret name {["old" := []; "new" := []]} "" (Some true));
         return_ (finish false ret))
      (St w3 (calls s ++ [Info name; Show name; ReadLicFile f])).
Proof using All.
  rewrite (license_present_none_foreign salt false name info lics _ _ _ s w1 w2)
    by done.
  rewrite Hgiven. apply def_eq.
  unfold ensure_file, salt_read_lic_file, mbind, M_bind, invoke, lift.
  simpl. rewrite Hreader.
  rewrite (ModulesFacts.read_lic_file_parse minion f lines w2 w3 Hopen).
  rewrite read_lic_lines_no_block by done. simpl.
  by rewrite <- app_assoc.
Qed.


End EmptyFile.

End Reconciliation.


(** ** Concrete runs *)

Module Runs.
Import States Props Fixtures.

Lemma own_license_scannable : scannable own_license.
Proof. split; eexists; reflexivity. Defined.

Lemma own_license_valid : valid own_license.
Proof. exists "NetWeaver_HDB". repeat split; reflexivity. Defined.

Lemma own_license_not_foreign :
  none_foreign "S4H" info_S4H [own_license] true true.
Proof.
  split; intros _.
  - repeat constructor.
  - exists "H1". split; [reflexivity|]. repeat constructor.
Defined.

Lemma valid_license_no_op_witness :
  license_present (settled []) false "S4H" None true true start
  = (Ok (Ret "S4H" ∅ "No changes required" (Some true)),
     St () [Info "S4H"; Show "S4H"]).
Proof.
  apply (Reconciliation.valid_license_no_op (settled []) false "S4H"
           info_S4H [own_license] None true true start () ()).
  - reflexivity.
  - reflexivity.
  - exact own_license_not_foreign.
  - reflexivity.
  - apply List.Forall_cons; [exact own_license_scannable|apply List.Forall_nil].
  - left. exact own_license_valid.
Defined.

(** C5, as the specification has it, fails: the system has a valid
    licence and no file is named, and the comment of the run is "No
    changes required", not "... already has a valid license". *)
Lemma valid_license_counterexample :
  ¬ ∀ r s',
      license_present (settled []) false "S4H" None true true start
      = (Ok r, s') →
      Forall (λ c, mutating c = false) (calls s')
      ∧ Py.contains "already has a valid license" (r_comment r) = true.
Proof.
  intros H.
  destruct (H (Ret "S4H" ∅ "No changes required" (Some true))
              (St () [Info "S4H"; Show "S4H"])) as [_ Hcomment].
  - vm_compute. reflexivity.
  - vm_compute in Hcomment. discriminate Hcomment.
Qed.

Lemma converged_no_op_witness :
  license_present (settled [lic "S4H" "H1" "NetWeaver_HDB"]) false "S4H"
    (Some "/tmp/S4H.txt") true true start
  = (Ok (Ret "S4H" ∅ "No changes required" (Some true)),
     St () [Info "S4H"; Show "S4H"; ReadLicFile "/tmp/S4H.txt"]).
Proof.
  apply (Reconciliation.converged_no_op
           (settled [lic "S4H" "H1" "NetWeaver_HDB"]) false "S4H"
           info_S4H [own_license] (Some "/tmp/S4H.txt") true true start () ()
           eq_refl eq_refl own_license_not_foreign
           "/tmp/S4H.txt" [lic "S4H" "H1" "NetWeaver_HDB"] ()).
  - reflexivity.
  - reflexivity.
  - discriminate.
  - apply List.Forall_cons; [|apply List.Forall_nil].
    apply Exists_cons_hd. vm_compute. reflexivity.
Defined.

(** C1, as the specification has it, fails in two ways.  With a licence
    file without records every record of the file has its match, and the
    run still calls [delete] and [install] and gives the comment "Installed
    licenses".  With a licence file of two records, one on the hardware key
    H1 of the system and one on H2, both observed, every record of the file
    has its match, and the run still removes the licence on H2 with
    [delete S4H S4H H2 *] and reports it. *)
Lemma converged_counterexample :
  ¬ (Forall (installed [own_license]) [] →
     ∀ r s',
       license_present (settled []) false "S4H" (Some "/tmp/S4H.txt")
         true true start = (Ok r, s') →
       Forall (λ c, mutating c = false) (calls s') ∧ no_op r)
  ∧ ¬ (Forall (installed [lic "S4H" "H1" "P"; lic "S4H" "H2" "P"])
         [lic "S4H" "H1" "P"; lic "S4H" "H2" "P"] →
       ∀ r s',
         license_present two_keys false "S4H" (Some "/tmp/S4H.txt")
           true true start = (Ok r, s') →
         Forall (λ c, mutating c = false) (calls s') ∧ no_op r).
Proof.
  split; intros H.
  - destruct (H (List.Forall_nil _)
                (Ret "S4H"
                   {["old" := ["SAP system license S4H / H1 / NetWeaver_HDB"];
                     "new" := []]}
                   "Installed licenses" (Some true))
                (St () [Info "S4H"; Show "S4H"; ReadLicFile "/tmp/S4H.txt";
                        Delete "S4H" "S4H" "*" "*"; FileGetUser "/tmp/S4H.txt";
                        UserInfo "s4hadm";
                        FileChown (PyInt 1001) (PyInt 79) "/tmp/S4H.txt";
                        Install "S4H" "/tmp/S4H.txt"])) as [_ [Hcomment _]].
    + vm_compute. reflexivity.
    + discriminate Hcomment.
  - destruct (H (List.Forall_cons _ _ _
                   (List.Exists_cons_hd _ _ _ eq_refl)
                   (List.Forall_cons _ _ _
                      (List.Exists_cons_tl _ (List.Exists_cons_hd _ _ _ eq_refl))
                      (List.Forall_nil _)))
                (Ret "S4H"
                   {["old" := ["SAP system license S4H / H2 / P"]; "new" := []]}
                   "" (Some true))
                (St () [Info "S4H"; Show "S4H"; Delete "S4H" "S4H" "H2" "*";
                        ReadLicFile "/tmp/S4H.txt"])) as [Hcalls [Hcomment _]].
    + vm_compute. reflexivity.
    + discriminate Hcomment.
Qed.



End Runs.

(** ** Where the states leave their description *)

Module Failures.
Import States Props Fixtures StatesLogic StatesFacts.

(** Every [delete] call of [license_absent] names the system [name]
    itself as the owner, with the hardware key and the product of an
    observed record. *)
Lemma license_absent_deletes {W} (salt : Salt W) (test : bool)
    (name : string) (remove_all : bool) (lics : list license)
    (s : st W) (w : W) :
  sap_likey_show salt name (world s) = (Ok (Val lics), w) →
  extends
    (λ c, is_delete c = true →
          ∃ lic hardware_key software_product,
            lic ∈ lics ∧ lic !! "hardware_key" = Some hardware_key
            ∧ lic !! "software_product" = Some software_product
            ∧ c = Delete name name hardware_key software_product)
    (calls s) (calls (license_absent salt test name remove_all s).2).
Proof.
  intros Hshow. unfold_states.
  rewrite (Reconciliation.def_invoke _ _ _ s (Val lics) w) by done.
  apply (triple_def
           (λ s', extends _ (calls s) (calls s')) (λ _, True)).
  2:{ simpl. exists [Show name]. split; [done|]. by repeat constructor. }
  repeat first [triple_step (λ _ : ret, True) | done].
  intros _. cbv beta in *.
  repeat match goal with
         | H : iter (Val _) = Ok _ |- _ => injection H as <-
         | H : getitem _ _ = Ok _ |- _ => apply getitem_Ok in H
         end.
  by eexists _, _, _.
Qed.

(** C6: [license_absent] with [remove_all], on a system that holds a
    licence of the system M70: the [delete] call names S4H as the owner,
    not M70, and the run reports the licence of M70 as removed.  The
    message and the log line of the loop name [lic_sys['system']], the
    call passes [name]. *)
Theorem license_absent_foreign_owner :
  license_absent only_foreign false "S4H" true start
  = (Ok (Ret "S4H"
           {["old" := ["SAP system license M70 / H1 / P"]; "new" := []]}
           "" (Some true)),
     St () [Show "S4H"; Delete "S4H" "S4H" "H1" "P"]).
Proof. vm_compute. reflexivity. Qed.

(** C8: a [show] that gives [False] makes [license_absent] raise a
    [TypeError] at [for lic_sys in licenses_system], and so does
    [license_present] at its first loop; an [info] that gives [False]
    makes [license_present] raise at [info['hardware_key']].  Nothing is
    returned: no comment, no result. *)
Theorem read_failure_raises {W} (salt : Salt W) (test : bool) (name : string)
    (s : st W) :
  (∀ remove_all w,
     sap_likey_show salt name (world s) = (Ok PyFalse, w) →
     license_absent salt test name remove_all s
     = (Raise TypeError, St w (calls s ++ [Show name])))
  ∧ (∀ filename remove_other_hwkey info w1 w2,
       sap_likey_info salt name (world s) = (Ok info, w1) →
       sap_likey_show salt name w1 = (Ok PyFalse, w2) →
       license_present salt test name filename true remove_other_hwkey s
       = (Raise TypeError, St w2 (calls s ++ [Info name; Show name])))
  ∧ (∀ filename licenses_system w1 w2,
       sap_likey_info salt name (world s) = (Ok PyFalse, w1) →
       sap_likey_show salt name w1 = (Ok licenses_system, w2) →
       license_present salt test name filename false true s
       = (Raise TypeError, St w2 (calls s ++ [Info name; Show name]))).
Proof.
  split; [|split].
  - intros remove_all w Hshow. unfold license_absent, salt_show.
    by rewrite (Reconciliation.def_invoke _ _ _ s PyFalse w).
  - intros filename remove_other_hwkey info w1 w2 Hinfo Hshow.
    unfold license_present, salt_info, salt_show.
    rewrite (Reconciliation.def_invoke _ _ _ s info w1) by done.
    rewrite (Reconciliation.def_invoke _ _ _ _ PyFalse w2) by done.
    simpl. by rewrite <- app_assoc.
  - intros filename licenses_system w1 w2 Hinfo Hshow.
    unfold license_present, salt_info, salt_show.
    rewrite (Reconciliation.def_invoke _ _ _ s PyFalse w1) by done.
    rewrite (Reconciliation.def_invoke _ _ _ _ licenses_system w2) by done.
    simpl. by rewrite <- app_assoc.
Qed.

(** The same through the execution module: the tool ends with the code
    1, [show] gives [False], the state raises. *)
Lemma read_failure_raises_witness :
  Modules.show (tool 1 "" []) "S4H" () = (Ok PyFalse, ())
  ∧ license_absent broken_tool false "S4H" true start
    = (Raise TypeError, St () [Show "S4H"]).
Proof.
  split; [vm_compute; reflexivity|].
  destruct (read_failure_raises broken_tool false "S4H" start) as [Habsent _].
  apply (Habsent true ()). vm_compute. reflexivity.
Defined.

End Failures.

(** ** More facts about strings *)

Module StringFacts.
Import Render.

Lemma startswith_empty (s : string) : Py.startswith s EmptyString = true.
Proof. by destruct s. Qed.

Lemma contains_char_cons (c a : ascii) (s : string) :
  Py.contains (String c EmptyString) (String a s)
  = Ascii.eqb c a || Py.contains (String c EmptyString) s.
Proof. simpl. by rewrite startswith_empty, andb_true_r. Qed.

Lemma contains_chars (c : ascii) (s : string) :
  Py.contains (String c EmptyString) s = true ↔ c ∈ chars s.
Proof.
  induction s as [|a s IH]; [simpl; by rewrite elem_of_nil|].
  rewrite contains_char_cons, orb_true_iff, IH. cbn [chars].
  rewrite elem_of_cons, Ascii.eqb_eq. done.
Qed.

Lemma not_contains_chars (c : ascii) (s : string) :
  Py.contains (String c EmptyString) s = false ↔ c ∉ chars s.
Proof.
  rewrite <- contains_chars. by destruct (Py.contains _ s).
Qed.

Lemma chars_lstrip (c : ascii) (s : string) :
  c ∈ chars (Py.lstrip s) → c ∈ chars s.
Proof.
  induction s as [|a s IH]; [done|]. simpl.
  destruct (Py.isspace a); [|done]. intros ?. right. by apply IH.
Qed.

Lemma chars_rev_app (c : ascii) (a b : string) :
  c ∈ chars (String.rev_app a b) ↔ c ∈ chars a ∨ c ∈ chars b.
Proof.
  revert b. induction a as [|x a IH]; intros b; simpl.
  - rewrite elem_of_nil. tauto.
  - rewrite IH. cbn [chars]. rewrite !elem_of_cons. tauto.
Qed.

Lemma chars_rev (c : ascii) (s : string) :
  c ∈ chars (String.rev s) ↔ c ∈ chars s.
Proof.
  unfold String.rev. rewrite chars_rev_app. simpl. rewrite elem_of_nil. tauto.
Qed.

Lemma chars_strip (c : ascii) (s : string) :
  c ∈ chars (Py.strip s) → c ∈ chars s.
Proof.
  unfold Py.strip, Py.rstrip. rewrite chars_rev.
  intros H%chars_lstrip. rewrite chars_rev in H. by apply chars_lstrip.
Qed.

Lemma chars_map (f : ascii → ascii) (c : ascii) (s : string) :
  c ∈ chars (Py.map_chars f s) ↔ ∃ a, a ∈ chars s ∧ c = f a.
Proof.
  induction s as [|x s IH]; simpl.
  - split; [by intros ?%elem_of_nil|].
    intros (a & Ha & _). by apply elem_of_nil in Ha.
  - rewrite elem_of_cons, IH. split.
    + intros [->|(a & Ha & ->)]; [exists x|exists a];
        (split; [|done]); [by left|by right].
    + intros (a & [->|Ha]%elem_of_cons & ->); [by left|right; by exists a].
Qed.

Lemma chars_remove (a c : ascii) (s : string) :
  c ∈ chars (Py.remove_char a s) ↔ c ∈ chars s ∧ c ≠ a.
Proof.
  induction s as [|x s IH]; simpl.
  - rewrite elem_of_nil. tauto.
  - destruct (Ascii.eqb x a) eqn:Hx.
    + apply Ascii.eqb_eq in Hx as ->. rewrite IH, elem_of_cons. intuition congruence.
    + apply Ascii.eqb_neq in Hx. cbn [chars]. rewrite !elem_of_cons, IH.
      intuition congruence.
Qed.

Lemma chars_collapse (c : ascii) (s : string) :
  c ∈ chars (Py.collapse_underscores s) → c ∈ chars s.
Proof.
  induction s as [|x s IH]; [done|]. cbn [Py.collapse_underscores chars].
  destruct (Ascii.eqb x "_").
  - destruct s as [|y s'].
    + done.
    + destruct (Ascii.eqb y "_").
      * intros ?. right. by apply IH.
      * cbn [chars]. rewrite !elem_of_cons. intros [->|H]; [by left|].
        right. apply elem_of_cons. by apply IH.
  - cbn [chars]. rewrite !elem_of_cons. intros [->|H]; [by left|].
    right. by apply IH.
Qed.

Lemma startswith_cons (a b : ascii) (s p : string) :
  Py.startswith (String b s) (String a p) = Ascii.eqb a b && Py.startswith s p.
Proof. done. Qed.

(** [re.sub("_+", "_", s)] leaves no two underscores in a row. *)
Lemma collapse_no_double (s : string) :
  Py.contains "__" (Py.collapse_underscores s) = false
  ∧ (Py.startswith (Py.collapse_underscores s) "_" = true →
     Py.startswith s "_" = true).
Proof.
  induction s as [|x s [IH1 IH2]]; [done|]. cbn [Py.collapse_underscores].
  destruct (Ascii.eqb x "_") eqn:Hx.
  - apply Ascii.eqb_eq in Hx as ->. destruct s as [|y s'].
    + by split.
    + destruct (Ascii.eqb y "_") eqn:Hy; [split; [exact IH1|reflexivity]|].
      split; [|done].
      cbn [Py.contains]. rewrite IH1, orb_false_r.
      destruct (Py.collapse_underscores (String y s')) as [|z t] eqn:Hc;
        [reflexivity|].
      rewrite !startswith_cons. destruct (Ascii.eqb "_" z) eqn:Hz;
        [|by rewrite andb_false_r].
      apply Ascii.eqb_eq in Hz as <-.
      assert (Py.startswith (String y s') "_" = true) as Hs.
      { apply IH2. by rewrite startswith_cons, startswith_empty. }
      rewrite startswith_cons, Ascii.eqb_sym, Hy in Hs. done.
  - split.
    + cbn [Py.contains]. rewrite IH1, orb_false_r.
      by rewrite startswith_cons, Ascii.eqb_sym, Hx.
    + by rewrite !startswith_cons, Ascii.eqb_sym, Hx.
Qed.

Lemma lower_char_idemp (c : ascii) :
  Py.lower_char (Py.lower_char c) = Py.lower_char c.
Proof. by destruct c as [[] [] [] [] [] [] [] []]. Qed.

Lemma map_chars_id (f : ascii → ascii) (s : string) :
  (∀ c, c ∈ chars s → f c = c) → Py.map_chars f s = s.
Proof.
  induction s as [|x s IH]; [done|]. intros H. simpl.
  rewrite H by by left. rewrite IH; [done|]. intros c Hc. apply H. by right.
Qed.

(** [s.split(sep)] is never empty, and its first part has no [sep]. *)
Lemma split_first (sep : ascii) (s : string) :
  ∃ w ws, Py.split sep s = w :: ws ∧ sep ∉ chars w.
Proof.
  induction s as [|c s (w & ws & Hs & Hw)]; simpl.
  - eexists _, _. split; [done|]. by intros ?%elem_of_nil.
  - destruct (Ascii.eqb c sep) eqn:Hc.
    + eexists _, _. split; [done|]. by intros ?%elem_of_nil.
    + rewrite Hs. eexists _, _. split; [done|]. cbn [chars].
      apply Ascii.eqb_neq in Hc. rewrite elem_of_cons. intuition congruence.
Qed.

Lemma split_one_line (sep : ascii) (s : string) :
  sep ∉ chars s → Py.split sep s = [s].
Proof.
  induction s as [|c s IH]; [done|]. cbn [chars]. rewrite elem_of_cons.
  intros H. simpl. destruct (Ascii.eqb c sep) eqn:Hc.
  - apply Ascii.eqb_eq in Hc. intuition congruence.
  - rewrite IH by intuition congruence. done.
Qed.

Lemma split_app (sep : ascii) (a b : string) :
  sep ∉ chars a →
  Py.split sep (a +:+ String sep b) = a :: Py.split sep b.
Proof.
  induction a as [|c a IH]; cbn [chars].
  - intros _. change (EmptyString +:+ String sep b) with (String sep b).
    simpl. by rewrite Ascii.eqb_refl.
  - rewrite elem_of_cons. intros H.
    change (String c a +:+ String sep b) with (String c (a +:+ String sep b)).
    simpl. destruct (Ascii.eqb c sep) eqn:Hc.
    + apply Ascii.eqb_eq in Hc. intuition congruence.
    + rewrite IH by intuition congruence. done.
Qed.

Lemma concat_cons (a b : string) (lines : list string) :
  String.concat nl (a :: b :: lines)
  = a +:+ String "010" (String.concat nl (b :: lines)).
Proof. done. Qed.

(** Splitting the lines joined by line breaks gives the lines back. *)
Lemma split_concat (lines : list string) :
  lines ≠ [] → Forall one_line lines →
  Py.split "010" (String.concat nl lines) = lines.
Proof.
  intros Hne Hlines. induction Hlines as [|line lines Hline Hlines IH]; [done|].
  apply not_contains_chars in Hline.
  destruct lines as [|line' lines].
  - simpl. by apply split_one_line.
  - rewrite concat_cons, split_app by done. by rewrite IH.
Qed.

Lemma split1_app (sep : ascii) (a b : string) :
  sep ∉ chars a → Py.split1 sep (a +:+ String sep b) = [a; b].
Proof.
  induction a as [|c a IH]; cbn [chars].
  - intros _. change (EmptyString +:+ String sep b) with (String sep b).
    simpl. by rewrite Ascii.eqb_refl.
  - rewrite elem_of_cons. intros H.
    change (String c a +:+ String sep b) with (String c (a +:+ String sep b)).
    simpl. destruct (Ascii.eqb c sep) eqn:Hc.
    + apply Ascii.eqb_eq in Hc. intuition congruence.
    + rewrite IH by intuition congruence. done.
Qed.

Lemma rev_app_app (a b c : string) :
  String.rev_app (a +:+ b) c = String.rev_app b (String.rev_app a c).
Proof.
  revert c. induction a as [|x a IH]; intros c; [done|].
  change (String x a +:+ b) with (String x (a +:+ b)). simpl. apply IH.
Qed.

(** A line break at the end of a value is stripped with the rest. *)
Lemma strip_line (v : string) :
  Py.lstrip v = v → Py.rstrip v = v → Py.strip (v +:+ nl) = v.
Proof.
  intros Hl Hr. unfold Py.strip.
  assert (Py.lstrip (v +:+ nl) = v +:+ nl ∨ v = EmptyString) as [-> | ->].
  { destruct v as [|c v]; [by right|left].
    change (String c v +:+ nl) with (String c (v +:+ nl)).
    simpl in *. destruct (Py.isspace c); [|done].
    exfalso. clear Hr.
    assert (∀ s, String.length (Py.lstrip s) ≤ String.length s) as Hlen.
    { clear. induction s as [|a s IH]; simpl; [lia|].
      destruct (Py.isspace a); simpl; lia. }
    specialize (Hlen v). rewrite Hl in Hlen. simpl in Hlen. lia. }
  - unfold Py.rstrip, String.rev in *. rewrite rev_app_app. simpl. done.
  - done.
Qed.

Lemma strip_after_space (v : string) :
  Py.lstrip v = v → Py.rstrip v = v → Py.strip (" " +:+ v) = v.
Proof.
  intros Hl Hr. unfold Py.strip.
  change (" " +:+ v) with (String " " v). simpl. by rewrite Hl.
Qed.

End StringFacts.

(** ** More facts about the execution module *)

Module ParserFacts.
Import Modules Spec Render StringFacts.

Lemma chars_app (a b : string) : chars (a +:+ b) = chars a ++ chars b.
Proof.
  induction a as [|x a IH]; [done|].
  change (String x a +:+ b) with (String x (a +:+ b)). simpl. by rewrite IH.
Qed.

Lemma one_line_app (a b : string) : one_line a → one_line b → one_line (a +:+ b).
Proof.
  unfold one_line, nl. rewrite !not_contains_chars, chars_app, elem_of_app. tauto.
Qed.

(** *** [info] *)

Lemma info_key_normal (key : string) :
  info_key
    (Py.collapse_underscores
       (Py.replace_char " " "_" (Py.strip (Py.remove_char "." (Py.lower key))))).
Proof.
  set (k0 := Py.lower key). set (k1 := Py.remove_char "." k0).
  set (k2 := Py.strip k1). set (k3 := Py.replace_char " " "_" k2).
  assert (∀ c, c ∈ chars (Py.collapse_underscores k3) →
               c = "_"%char ∨ (c ≠ " "%char ∧ c ≠ "."%char ∧ c ∈ chars k0)) as Hc.
  { intros c Hc%chars_collapse. apply chars_map in Hc as (a & Ha & ->).
    destruct (Ascii.eqb a " ") eqn:Hsp; [by left|right].
    apply Ascii.eqb_neq in Hsp. apply chars_strip, chars_remove in Ha. tauto. }
  repeat split.
  - apply map_chars_id. intros c [->|(_ & _ & Hk)]%Hc; [done|].
    apply chars_map in Hk as (a & _ & ->). apply lower_char_idemp.
  - apply not_contains_chars. by intros [?|[? _]]%Hc.
  - apply not_contains_chars. by intros [?|(_ & ? & _)]%Hc.
  - apply collapse_no_double.
Qed.

Lemma info_line_keys (ifo : gmap string string) (line : string) :
  (∀ k v, ifo !! k = Some v → info_key k ∧ Py.contains " " v = false) →
  ∃ ifo', info_line ifo line = Ok ifo'
    ∧ ∀ k v, ifo' !! k = Some v → info_key k ∧ Py.contains " " v = false.
Proof.
  intros Hifo. unfold info_line.
  destruct (Py.contains ":" line) eqn:Hcolon; [|by exists ifo].
  destruct (ModulesFacts.split1_found _ _ Hcolon) as (key & value & ->).
  cbn [unpack2 mbind res_bind].
  destruct (split_first " " (Py.strip value)) as (w & ws & -> & Hw).
  cbn [first mbind res_bind mret res_ret]. eexists. split; [done|]. intros k v.
  rewrite lookup_insert. case_decide as Hk.
  - intros [= <-]. subst k. split; [apply info_key_normal|].
    by apply not_contains_chars.
  - apply Hifo.
Qed.

Lemma info_lines_keys (lines : list string) (ifo : gmap string string) :
  (∀ k v, ifo !! k = Some v → info_key k ∧ Py.contains " " v = false) →
  ∃ ifo', info_lines lines ifo = Ok ifo'
    ∧ ∀ k v, ifo' !! k = Some v → info_key k ∧ Py.contains " " v = false.
Proof.
  revert ifo. induction lines as [|line lines IH]; intros ifo Hifo; simpl.
  { by exists ifo. }
  destruct (info_line_keys ifo line Hifo) as (ifo1 & -> & Hifo1). simpl.
  by apply IH.
Qed.

(** X: for every output of [saplikey -get] the loop of [info] gives a
    mapping and never raises; every key of it is lower case and has no
    space, no period and no two underscores in a row, and no value has a
    space. *)
Theorem parse_info_keys (stdout : string) :
  ∃ ifo, parse_info stdout = Ok ifo
    ∧ ∀ k v, ifo !! k = Some v → info_key k ∧ Py.contains " " v = false.
Proof.
  apply info_lines_keys. intros k v. by rewrite lookup_empty.
Qed.

(** *** [show] *)

Abbreviation is_header := (λ line : string, Py.endswith line "License Key:" = true).

Lemma show_lines_length (rest : list string) (acc l : list license) :
  show_lines rest acc = Ok l →
  length l = length acc + length (filter is_header rest).
Proof.
  revert acc. induction rest as [|line rest IH]; intros acc; simpl.
  { intros [= <-]. lia. }
  rewrite filter_cons. destruct (Py.endswith line "License Key:") eqn:Hline.
  - rewrite decide_True by done.
    destruct (show_block (drop 1 rest) ∅) as [lic|e]; simpl; [|done].
    intros ->%IH. rewrite length_app. simpl. lia.
  - rewrite decide_False by (by intros ?). apply IH.
Qed.

(** X: when [show] reads the output of the tool without raising, it gives
    one licence per line that ends with "License Key:". *)
Theorem parse_show_count (stdout : string) (licenses : list license) :
  parse_show stdout = Ok licenses →
  length licenses = length (filter is_header (Py.split "010" stdout)).
Proof. intros H%show_lines_length. done. Qed.

Lemma show_block_raises (rest : list string) (lic : license) :
  Forall (λ line, line ≠ EmptyString) rest →
  show_block rest lic = Raise IndexError ∨ show_block rest lic = Raise ValueError.
Proof.
  intros Hrest. revert lic.
  induction Hrest as [|line rest Hline _ IH]; intros lic; simpl; [by left|].
  destruct line as [|c line]; [done|]. cbn [Py.truthy].
  destruct (Py.split1 ":" (String c line)) as [|key [|value [|? ?]]];
    simpl; try by right.
  apply IH.
Qed.

Lemma show_lines_raises (rest : list string) (acc : list license) :
  Forall (λ line, line ≠ EmptyString) rest → Exists is_header rest →
  show_lines rest acc = Raise IndexError ∨ show_lines rest acc = Raise ValueError.
Proof.
  intros Hrest Hheader. revert acc.
  induction Hrest as [|line rest Hline Hrest IH]; intros acc.
  { by apply Exists_nil in Hheader. }
  simpl. destruct (Py.endswith line "License Key:") eqn:Hend.
  - destruct (show_block_raises (drop 1 rest) ∅) as [-> | ->];
      [|by left|by right].
    destruct rest; [done|]. simpl. by apply Forall_cons in Hrest as [_ ?].
  - apply Exists_cons in Hheader as [Hheader|Hheader]; [congruence|].
    by apply IH.
Qed.

(** X: an output of the tool that has a line ending with "License Key:"
    and no empty line makes [show] raise, an [IndexError] or a
    [ValueError]: no block of it is ever closed. *)
Theorem parse_show_unclosed (stdout : string) :
  Forall (λ line, line ≠ EmptyString) (Py.split "010" stdout) →
  Exists is_header (Py.split "010" stdout) →
  parse_show stdout = Raise IndexError ∨ parse_show stdout = Raise ValueError.
Proof. apply show_lines_raises. Qed.

Lemma truthy_app (a b : string) : Py.truthy b = true → Py.truthy (a +:+ b) = true.
Proof. by destruct a. Qed.

Lemma show_block_fields (fields : list (string * string)) (tail : list string)
    (lic : license) :
  Forall show_field fields →
  show_block (((λ kv, kv.1 +:+ ": " +:+ kv.2) <$> fields) ++ EmptyString :: tail) lic
  = Ok (foldl (λ lic kv, <[kv.1 := kv.2]> lic) lic fields).
Proof.
  intros Hfields. revert lic.
  induction Hfields as [|[k v] fields (Hcolon & Hkey & Hl & Hr & _) _ IH];
    intros lic; [done|].
  cbn [fmap list_fmap app show_block fst snd] in *.
  rewrite truthy_app by done.
  change (k +:+ ": " +:+ v) with (k +:+ String ":" (" " +:+ v)).
  rewrite split1_app by by apply not_contains_chars.
  cbn [unpack2 mbind res_bind]. fold (show_key k).
  rewrite Hkey, strip_after_space by done. apply IH.
Qed.

Lemma show_lines_skip (lines tail : list string) (acc : list license) :
  Forall (λ line, Py.endswith line "License Key:" = false) lines →
  show_lines (lines ++ tail) acc = show_lines tail acc.
Proof.
  induction 1 as [|line lines Hline _ IH]; [done|]. simpl. by rewrite Hline.
Qed.

Lemma show_lines_blocks (blocks : list (string * list (string * string)))
    (acc : list license) :
  Forall show_block_ok blocks →
  show_lines (show_lines_of blocks) acc = Ok (acc ++ (record ∘ snd <$> blocks)).
Proof.
  intros Hblocks. revert acc.
  induction Hblocks as [|[header fields] blocks (Hheader & _ & Hfields) _ IH];
    intros acc.
  { simpl. by rewrite app_nil_r. }
  unfold show_lines_of in *. cbn [mbind list_bind fst snd] in *.
  assert (Forall show_field fields) as Hshow.
  { eapply Forall_impl; [exact Hfields|]. by intros ? [? _]. }
  unfold show_block_lines at 1. cbn [fst snd app show_lines].
  rewrite Hheader, ?drop_0.
  change (Py.endswith "-------" "License Key:") with false. cbv iota.
  rewrite <- (app_assoc _ [EmptyString]) at 1. cbn [app].
  assert (∀ (a : string) l, drop 1 (a :: l) = l) as -> by done.
  rewrite show_block_fields by done. cbn [mbind res_bind].
  rewrite show_lines_skip, IH, <- app_assoc; [done|].
  apply Forall_app. split; [|by repeat constructor].
  apply Forall_fmap. eapply Forall_impl; [exact Hshow|].
  by intros kv (_ & _ & _ & _ & ?).
Qed.

(** X: [show] reads back what the tool prints.  For blocks whose header
    ends with "License Key:", whose keys are in the form [show] stores and
    whose values have no white space around them, the output of the tool
    gives one licence per block, in order, with the fields of the block. *)
Theorem parse_show_round_trip (blocks : list (string * list (string * string))) :
  Forall show_block_ok blocks →
  parse_show (show_text blocks) = Ok (record ∘ snd <$> blocks).
Proof.
  intros Hblocks. unfold parse_show, show_text.
  destruct blocks as [|block blocks]; [done|].
  rewrite split_concat.
  - by rewrite show_lines_blocks.
  - by destruct block.
  - unfold show_lines_of. apply Forall_bind.
    eapply Forall_impl; [exact Hblocks|].
    intros [header fields] (_ & Hheader & Hfields).
    unfold show_block_lines. cbn [fst snd].
    apply Forall_cons. split; [done|]. apply Forall_cons. split; [done|].
    apply Forall_app. split; [|by repeat constructor].
    apply Forall_fmap. eapply Forall_impl; [exact Hfields|].
    intros [k v] (_ & Hk & Hv). cbn [fst snd] in *.
    apply one_line_app; [done|]. by apply one_line_app.
Qed.

(** *** [read_lic_file] *)

Lemma assoc_no_equals (key field : string) :
  assoc key rename_table = Some field → "="%char ∉ chars key.
Proof.
  unfold rename_table. cbn [assoc].
  repeat match goal with
         | |- context [String.eqb key ?k] =>
             destruct (String.eqb_spec key k) as [->|_];
             [intros _; apply not_contains_chars; reflexivity|]
         end.
  done.
Qed.

Lemma lic_line_field (lic : license) (kv : string * string) :
  lic_field kv →
  add_line lic (kv.1 +:+ "=" +:+ kv.2 +:+ nl)
  = <[default kv.1 (assoc kv.1 rename_table) := kv.2]> lic.
Proof.
  destruct kv as [k v]. intros ([field Hfield] & Hl & Hr & _). cbn [fst snd] in *.
  unfold add_line, field_of.
  change (k +:+ "=" +:+ v +:+ nl) with (k +:+ String "=" (v +:+ nl)).
  rewrite split1_app by by eapply assoc_no_equals.
  rewrite Hfield. cbn [mbind option_bind default]. by rewrite strip_line.
Qed.

Lemma lic_line_key_value (kv : string * string) :
  lic_field kv → is_key_value (kv.1 +:+ "=" +:+ kv.2 +:+ nl) = true.
Proof.
  intros (_ & _ & _ & Hmarker). unfold is_key_value. rewrite Hmarker.
  rewrite andb_true_r. apply contains_chars.
  change (kv.1 +:+ "=" +:+ kv.2 +:+ nl) with (kv.1 +:+ String "=" (kv.2 +:+ nl)).
  rewrite chars_app, elem_of_app. right. by left.
Qed.

Lemma block_of_fields (fields : list (string * string)) (tail : list string) :
  Forall lic_field fields →
  block_of (((λ kv, kv.1 +:+ "=" +:+ kv.2 +:+ nl) <$> fields)
            ++ ("----- End SAP License -----" +:+ nl) :: tail)
  = (λ kv, kv.1 +:+ "=" +:+ kv.2 +:+ nl) <$> fields.
Proof.
  induction 1 as [|kv fields Hkv _ IH]; [done|].
  cbn [fmap list_fmap app block_of]. rewrite lic_line_key_value by done.
  by rewrite IH.
Qed.

Lemma foldl_add_line_fields (fields : list (string * string)) (lic : license) :
  Forall lic_field fields →
  foldl add_line lic ((λ kv, kv.1 +:+ "=" +:+ kv.2 +:+ nl) <$> fields)
  = foldl (λ lic kv, <[kv.1 := kv.2]> lic) lic
      ((λ kv, (default kv.1 (assoc kv.1 rename_table), kv.2)) <$> fields).
Proof.
  intros Hfields. revert lic.
  induction Hfields as [|kv fields Hkv _ IH]; intros lic; [done|].
  cbn [fmap list_fmap foldl]. rewrite lic_line_field by done. apply IH.
Qed.

Lemma parse_skip (lines tail : list string) :
  Forall (λ line, Py.contains marker line = false) lines →
  parse_license_file (lines ++ tail) = parse_license_file tail.
Proof.
  induction 1 as [|line lines Hline _ IH]; [done|]. simpl. by rewrite Hline.
Qed.

Lemma parse_blocks (blocks : list (list (string * string))) :
  Forall (Forall lic_field) blocks →
  parse_license_file (blocks ≫= lic_block_lines) = lic_record <$> blocks.
Proof.
  induction 1 as [|fields blocks Hfields _ IH]; [done|].
  cbn [mbind list_bind fmap list_fmap]. unfold lic_block_lines at 1.
  cbn [app parse_license_file].
  change (Py.contains marker ("----- Begin SAP License -----" +:+ nl)) with true.
  cbv iota. rewrite <- app_assoc. cbn [app].
  rewrite block_of_fields by done. f_equal.
  - unfold record_of, lic_record, record. by apply foldl_add_line_fields.
  - rewrite parse_skip.
    + cbn [parse_license_file].
      change (Py.contains marker ("----- End SAP License -----" +:+ nl))
        with false. cbv iota. exact IH.
    + apply Forall_fmap. eapply Forall_impl; [exact Hfields|].
      by intros kv (_ & _ & _ & ?).
Qed.

(** X: [read_lic_file] reads back a licence file.  For a file made of
    blocks, each with the line of the marker, one [KEY=value] line per field
    with a key of the rename table and a value without white space around
    it, and the closing line, it gives one record per block, in order, with
    every field under its new name. *)
Theorem read_lic_file_round_trip {W} (salt : Minion W) (filename : string)
    (blocks : list (list (string * string))) (w w' : W) :
  fopen_readlines salt filename w = (Ok (blocks ≫= lic_block_lines), w') →
  Forall (Forall lic_field) blocks →
  read_lic_file salt filename w = (Ok (lic_record <$> blocks), w').
Proof.
  intros Hopen Hblocks.
  rewrite (ModulesFacts.read_lic_file_parse salt filename _ w w' Hopen).
  by rewrite parse_blocks.
Qed.

(** *** The wrappers *)

Section Wrappers.
Context {W : Type} (salt : Minion W) (sid : string).
Context (w w1 : W) (dir : string).
Hypothesis Hshell :
  cmd_shell salt "echo $DIR_LIBRARY" (Py.lower (Py.upper sid) +:+ "adm") w
  = (Ok dir, w1).

Lemma saplikey_no_path {R} (args : string) :
  Py.truthy dir && Py.contains "/" dir = false →
  saplikey (R:=R) salt sid args w
  = (Raised (Exception ("Cannot retrieve $DIR_LIBRARY for user "
                        +:+ Py.lower (Py.upper sid) +:+ "adm")), w1).
Proof using Hshell.
  intros Hdir.
  unfold saplikey, _get_saplikey_path, def, mbind, M_bind, call, raise, return_.
  rewrite Hshell. rewrite <- negb_andb, Hdir. done.
Qed.

(** X: for a [sid] of ASCII characters, when [$DIR_LIBRARY] of [<sid>adm]
    is empty or has no slash, each of the five wrappers raises the
    exception of [_get_saplikey_path] right after the lookup: the tool is
    not run. *)
Theorem wrappers_no_path :
  Py.isascii sid = true →
  Py.truthy dir && Py.contains "/" dir = false →
  let e := Exception ("Cannot retrieve $DIR_LIBRARY for user "
                      +:+ Py.lower (Py.upper sid) +:+ "adm") in
  info salt sid w = (Raise e, w1)
  ∧ show salt sid w = (Raise e, w1)
  ∧ (∀ filename, install salt sid filename w = (Raise e, w1))
  ∧ (∀ name hwkey product, delete salt name sid hwkey product w = (Raise e, w1))
  ∧ (∀ product, temp salt sid product w = (Raise e, w1)).
Proof using Hshell.
  intros _ Hdir e.
  repeat split; intros;
    unfold info, show, install, delete, temp, def, mbind, M_bind;
    by rewrite saplikey_no_path.
Qed.

(** X: for a [sid] of ASCII characters, with the tool found, [install],
    [delete] and [temp] run it once, as [<sid>adm] with the profile of the
    upper-cased [sid] and a timeout of 30, and give [True] exactly when it
    ends with the code 0. *)
Theorem wrappers_exit_code (w2 : W) (c : cmd_ret) (args : string) :
  Py.isascii sid = true →
  Py.truthy dir && Py.contains "/" dir = true →
  cmd_run_all salt
    (dir +:+ "/saplikey" +:+ " pf=/sapmnt/" +:+ Py.upper sid
     +:+ "/profile/DEFAULT.PFL " +:+ args)
    (Py.lower (Py.upper sid) +:+ "adm") 30 w1 = (Ok c, w2) →
  (∀ filename, args = "-install " +:+ filename →
     install salt sid filename w = (Ok (retcode c =? 0)%Z, w2))
  ∧ (∀ name hwkey product,
       args = "-delete " +:+ name +:+ " " +:+ hwkey +:+ " " +:+ product →
       delete salt name sid hwkey product w = (Ok (retcode c =? 0)%Z, w2))
  ∧ (∀ product, args = "-temp " +:+ product →
       temp salt sid product w = (Ok (retcode c =? 0)%Z, w2)).
Proof using Hshell.
  intros _ Hdir Hrun.
  repeat split; intros; subst args;
    unfold install, delete, temp, def, mbind, M_bind;
    rewrite (ModulesFacts.saplikey_run salt sid _ dir c w w1 w2) by done;
    by destruct (retcode c =? 0)%Z.
Qed.

End Wrappers.

Lemma parse_show_count_witness :
  length [Fixtures.lic "S4H" "Z01" "NetWeaver_HDB"]
  = length (filter is_header
              (Py.split "010"
                 ("1. License Key:" +:+ nl +:+ "-------" +:+ nl +:+ "System : S4H"
                  +:+ nl +:+ "Hardware Key : Z01" +:+ nl
                  +:+ "Software Product : NetWeaver_HDB" +:+ nl +:+ nl))).
Proof. apply parse_show_count. vm_compute. reflexivity. Defined.

Lemma parse_show_unclosed_witness :
  parse_show ("2. License Key:" +:+ nl +:+ "-------" +:+ nl +:+ "System : S4H")
  = Raise IndexError
  ∨ parse_show ("2. License Key:" +:+ nl +:+ "-------" +:+ nl +:+ "System : S4H")
    = Raise ValueError.
Proof.
  apply parse_show_unclosed.
  - vm_compute. repeat constructor; discriminate.
  - vm_compute. apply Exists_cons_hd. reflexivity.
Defined.

Lemma parse_show_round_trip_witness :
  parse_show
    (show_text [("1. License Key:",
                 [("system", "S4H"); ("hardware_key", "Z01");
                  ("validity", "valid")]);
                ("2. License Key:", [("system", "S4H")])])
  = Ok [record [("system", "S4H"); ("hardware_key", "Z01"); ("validity", "valid")];
        record [("system", "S4H")]].
Proof.
  apply (parse_show_round_trip
           [("1. License Key:",
             [("system", "S4H"); ("hardware_key", "Z01"); ("validity", "valid")]);
            ("2. License Key:", [("system", "S4H")])]).
  repeat (first [apply List.Forall_cons | apply List.Forall_nil | split]);
    vm_compute; reflexivity.
Defined.

Lemma read_lic_file_round_trip_witness :
  read_lic_file
    (Fixtures.tool 0 ""
       ([[("SAPSYSTEM", "S4H"); ("HARDWARE-KEY", "Z01")]; [("INSTNO", "0020")]]
        ≫= lic_block_lines))
    "/tmp/S4H.txt" ()
  = (Ok [lic_record [("SAPSYSTEM", "S4H"); ("HARDWARE-KEY", "Z01")];
         lic_record [("INSTNO", "0020")]], ()).
Proof.
  apply (read_lic_file_round_trip _ "/tmp/S4H.txt"
           [[("SAPSYSTEM", "S4H"); ("HARDWARE-KEY", "Z01")]; [("INSTNO", "0020")]]).
  - reflexivity.
  - repeat (first [apply List.Forall_cons | apply List.Forall_nil | split]);
      first [by eexists | vm_compute; reflexivity].
Defined.

Lemma wrappers_no_path_witness :
  show (Fixtures.no_tool) "S4H" ()
  = (Raise (Exception "Cannot retrieve $DIR_LIBRARY for user s4hadm"), ()).
Proof.
  destruct (wrappers_no_path Fixtures.no_tool "S4H" () () ""
              eq_refl eq_refl eq_refl) as (_ & Hshow & _).
  exact Hshow.
Defined.

Lemma wrappers_exit_code_witness :
  delete (Fixtures.tool 1 "" []) "M70" "S4H" "*" "*" () = (Ok false, ()).
Proof.
  destruct (wrappers_exit_code (Fixtures.tool 1 "" []) "S4H" () ()
              "/usr/sap/S4H/SYS/exe/run" eq_refl ()
              (Build_cmd_ret 1 "" "") "-delete M70 * *" eq_refl eq_refl eq_refl)
    as (_ & Hdelete & _).
  exact (Hdelete "M70" "*" "*" eq_refl).
Defined.

End ParserFacts.

(** ** What the states return and call *)

Module Outcomes.
Import States Props Plan Fixtures StatesLogic StatesFacts.

(** *** The result *)

Lemma no_changes_nonempty (key : string) (r : ret) :
  no_changes key r = false → r_changes r ≠ ∅.
Proof.
  unfold no_changes. intros H Hempty. rewrite Hempty, lookup_empty in H. done.
Qed.

Lemma finish_result (test : bool) (r : ret) :
  (unchanged (finish test r) ∧ r_result (finish test r) = Some true)
  ∨ (¬ unchanged (finish test r)
     ∧ r_result (finish test r) = if test then None else Some true).
Proof.
  unfold finish, unchanged.
  destruct (no_changes "new" r && no_changes "old" r) eqn:Hr; simpl.
  - left. split; [done|].
    rewrite bool_decide_eq_true_2 by done. by rewrite orb_true_r.
  - right. split.
    + unfold no_changes in *. simpl. intros [Hold Hnew].
      by rewrite Hold, Hnew in Hr.
    + apply andb_false_iff in Hr as [Hr|Hr];
        apply no_changes_nonempty in Hr;
        rewrite bool_decide_eq_false_2 by done; by destruct test.
Qed.

Section Finished.
Context {W : Type} (salt : Salt W).

Local Ltac fin :=
  repeat first
    [ triple_step (λ _ : ret, True)
    | done
    | by eexists ].

Lemma license_present_dry_finished (name : string) (filename : option string)
    (remove_other_sid remove_other_hwkey : bool) (s : st W) (r : ret) :
  (license_present salt true name filename
     remove_other_sid remove_other_hwkey s).1 = Ok r →
  ∃ r0, r = finish true r0.
Proof.
  unfold_states.
  apply (triple_def (λ s', extends (λ _, True) (calls s) (calls s'))
           (λ r, ∃ r0, r = finish true r0)); [|apply extends_refl].
  fin.
Qed.

Lemma license_absent_dry_finished (name : string) (remove_all : bool)
    (s : st W) (r : ret) :
  (license_absent salt true name remove_all s).1 = Ok r →
  ∃ r0, r = finish true r0.
Proof.
  unfold_states.
  apply (triple_def (λ s', extends (λ _, True) (calls s) (calls s'))
           (λ r, ∃ r0, r = finish true r0)); [|apply extends_refl].
  fin.
Qed.

End Finished.

(** X: the result of a state has three values.  In a dry run it is never
    [False]: it is [True] when both change lists are empty and [None] when
    a change is pending.  Outside a dry run it is never [None]. *)
Theorem result_tristate {W} (salt : Salt W) (test : bool) (name : string)
    (filename : option string)
    (remove_other_sid remove_other_hwkey remove_all : bool) (s : st W)
    (r : ret) :
  (license_present salt test name filename
     remove_other_sid remove_other_hwkey s).1 = Ok r
  ∨ (license_absent salt test name remove_all s).1 = Ok r →
  (test = true →
   (unchanged r ∧ r_result r = Some true) ∨ (¬ unchanged r ∧ r_result r = None))
  ∧ (test = false → r_result r = Some true ∨ r_result r = Some false).
Proof.
  intros Hrun. split; intros ->.
  - assert (∃ r0, r = finish true r0) as [r0 ->].
    { destruct Hrun as [Hrun|Hrun].
      - by eapply license_present_dry_finished.
      - by eapply license_absent_dry_finished. }
    apply finish_result.
  - assert (failed_or_finished false r) as [?|[r0 ->]].
    { destruct Hrun as [Hrun|Hrun].
      - by eapply license_present_finished.
      - by eapply license_absent_finished. }
    + by right.
    + left. by destruct (finish_result false r0) as [[_ ?]|[_ ?]].
Qed.

Lemma result_tristate_witness :
  let r :=
    Ret "S4H"
      (changes
         ["SAP system license S4H / H1 / NetWeaver_HDB would be removed"]
         ["Would change to owner of /tmp/S4H.txt to uid 1001 / gid 79"])
      "Installed licenses" None in
  (license_present (settled []) true "S4H" (Some "/tmp/S4H.txt") true true start).1
  = Ok r
  ∧ ((unchanged r ∧ r_result r = Some true) ∨ (¬ unchanged r ∧ r_result r = None)).
Proof.
  intros r. split; [vm_compute; reflexivity|].
  destruct (result_tristate (settled []) true "S4H" (Some "/tmp/S4H.txt")
              true true true start r) as [Hdry _].
  - left. vm_compute. reflexivity.
  - exact (Hdry eq_refl).
Defined.

(** *** Change lists and messages *)

Lemma append_old (msg name comment : string) (old new : list string)
    (result : option bool) :
  append "old" msg (Ret name (changes old new) comment result)
  = Ret name (changes (old ++ [msg]) new) comment result.
Proof.
  unfold append, changes. simpl. by rewrite alter_insert_eq.
Qed.

Lemma append_new (msg name comment : string) (old new : list string)
    (result : option bool) :
  append "new" msg (Ret name (changes old new) comment result)
  = Ret name (changes old (new ++ [msg])) comment result.
Proof.
  unfold append, changes. simpl.
  rewrite alter_insert_ne by done. by rewrite alter_singleton_eq.
Qed.

Lemma finish_changes (test : bool) (name comment : string)
    (old new : list string) (result : option bool) :
  finish test (Ret name (changes old new) comment result)
  = match old, new with
    | [], [] => Ret name ∅ "No changes required" (Some true)
    | _, _ => Ret name (changes old new) comment
                (if test then None else Some true)
    end.
Proof.
  unfold finish, no_changes, changes. simpl.
  rewrite lookup_insert_ne, lookup_singleton_eq, lookup_insert_eq by done.
  destruct old, new; simpl;
    rewrite ?(bool_decide_eq_true_2 (∅ = ∅)) by done;
    rewrite ?bool_decide_eq_false_2 by apply insert_non_empty;
    by destruct test.
Qed.

Lemma describe_description (lic : license) :
  describable lic → describe lic = Ok (description lic).
Proof. intros [d Hd]. unfold description. by rewrite Hd. Qed.

Lemma describable_fields (lic : license) :
  describable lic →
  lic !! "system" = Some (field "system" lic)
  ∧ lic !! "hardware_key" = Some (field "hardware_key" lic)
  ∧ lic !! "software_product" = Some (field "software_product" lic).
Proof.
  intros [d Hd]. unfold describe, getitem, field in *.
  destruct (lic !! "system"); [|done]. simpl in Hd.
  destruct (lic !! "hardware_key"); [|done]. simpl in Hd.
  destruct (lic !! "software_product"); done.
Qed.

Lemma invoke_answer {W R} (c : invocation) (f : W → res bool * W) (s : st W)
    (answer : bool) :
  (f (world s)).1 = Ok answer →
  ∃ w, invoke (R:=R) c f s = (Normal answer, St w (calls s ++ [c])).
Proof.
  intros Hf. unfold invoke. destruct (f (world s)) as [r w]. simpl in Hf.
  subst r. by exists w.
Qed.

(** *** Loops over the observed records *)

Section Loop.
Context {W : Type} (body : license → ret → M (st W) ret ret).
Context (P Q : license → Prop) `{!∀ lic, Decision (Q lic)}.
Context (msg : license → string) (call : license → invocation).
Hypothesis keeps :
  ∀ lic ret s, P lic → ¬ Q lic → body lic ret s = (Normal ret, s).

Lemma loop_announces (lics : list license) (name comment : string)
    (old new : list string) (result : option bool) (s : st W) :
  (∀ lic ret s, P lic → Q lic →
     body lic ret s = (Normal (append "old" (msg lic) ret), s)) →
  Forall P lics →
  for_ lics body (Ret name (changes old new) comment result) s
  = (Normal (Ret name (changes (old ++ (msg <$> filter Q lics)) new)
               comment result), s).
Proof using keeps.
  intros Hacts Hlics. revert old.
  induction Hlics as [|lic lics Hlic _ IH]; intros old.
  { simpl. by rewrite app_nil_r. }
  rewrite filter_cons. cbn [for_]. destruct (decide (Q lic)) as [Hq|Hq].
  - rewrite (Reconciliation.bind_normal _ _ _ _ _ (Hacts _ _ _ Hlic Hq)).
    rewrite append_old, IH. cbn [fmap list_fmap]. by rewrite <- app_assoc.
  - by rewrite (Reconciliation.bind_normal _ _ _ _ _ (keeps _ _ _ Hlic Hq)).
Qed.

Lemma loop_removes (lics : list license) (name comment : string)
    (old new : list string) (result : option bool) (s : st W) :
  (∀ lic ret s, P lic → Q lic →
     ∃ w, body lic ret s
          = (Normal (append "old" (msg lic) ret),
             St w (calls s ++ [call lic]))) →
  Forall P lics →
  ∃ w,
    for_ lics body (Ret name (changes old new) comment result) s
    = (Normal (Ret name (changes (old ++ (msg <$> filter Q lics)) new)
                 comment result),
       St w (calls s ++ (call <$> filter Q lics))).
Proof using keeps.
  intros Hacts Hlics. revert old s.
  induction Hlics as [|lic lics Hlic _ IH]; intros old s.
  { exists (world s). simpl. rewrite !app_nil_r. by destruct s. }
  rewrite filter_cons. cbn [for_]. destruct (decide (Q lic)) as [Hq|Hq].
  - destruct (Hacts lic (Ret name (changes old new) comment result) s Hlic Hq)
      as [w1 Hbody].
    destruct (IH (old ++ [msg lic]) (St w1 (calls s ++ [call lic])))
      as [w2 Hloop].
    exists w2. rewrite (Reconciliation.bind_normal _ _ _ _ _ Hbody).
    rewrite append_old, Hloop. cbn [fmap list_fmap calls].
    by rewrite <- !app_assoc.
  - destruct (IH old s) as [w2 Hloop]. exists w2.
    by rewrite (Reconciliation.bind_normal _ _ _ _ _ (keeps _ _ _ Hlic Hq)).
Qed.

Lemma loop_stops (fail : license → string) (lics : list license) (ret : ret)
    (s : st W) :
  (∀ lic ret s, P lic → Q lic →
     ∃ w, body lic ret s
          = (Returned (failed (fail lic) ret), St w (calls s ++ [call lic]))) →
  Forall P lics →
  ∃ w,
    for_ lics body ret s
    = match filter Q lics with
      | [] => (Normal ret, s)
      | lic :: _ =>
          (Returned (failed (fail lic) ret), St w (calls s ++ [call lic]))
      end.
Proof using keeps.
  intros Hacts Hlics.
  induction Hlics as [|lic lics Hlic _ [w IH]]; [by exists (world s)|].
  rewrite filter_cons. cbn [for_]. destruct (decide (Q lic)) as [Hq|Hq].
  - destruct (Hacts lic ret s Hlic Hq) as [w1 Hbody].
    exists w1. unfold mbind, M_bind. by rewrite Hbody.
  - exists w.
    by rewrite (Reconciliation.bind_normal _ _ _ _ _ (keeps _ _ _ Hlic Hq)).
Qed.

End Loop.

(** *** [license_absent] *)

Section Absent.
Context {W : Type} (salt : Salt W) (name : string) (remove_all : bool).

Local Abbreviation picked :=
  (λ lic : license, remove_all = true ∨ lic !! "system" = Some name).

Lemma absent_body_keeps (test : bool) (lic : license) (ret : ret) (s : st W) :
  describable lic → ¬ picked lic →
  license_absent_body salt test name remove_all lic ret s = (Normal ret, s).
Proof.
  intros (Hsystem & _)%describable_fields Hno.
  unfold license_absent_body, mbind, M_bind, lift, getitem.
  destruct remove_all; [exfalso; apply Hno; by left|].
  rewrite Hsystem. simpl.
  destruct (String.eqb_spec (field "system" lic) name) as [Heq|_]; [|done].
  exfalso. apply Hno. right. by rewrite Hsystem, Heq.
Qed.

Lemma absent_body_matches (lic : license) :
  describable lic → picked lic →
  remove_all || String.eqb (field "system" lic) name = true.
Proof.
  intros (Hsystem & _)%describable_fields [->|Heq]; [done|].
  rewrite Hsystem in Heq. injection Heq as ->.
  by rewrite String.eqb_refl, orb_true_r.
Qed.

Lemma absent_body_dry (lic : license) (ret : ret) (s : st W) :
  describable lic → picked lic →
  license_absent_body salt true name remove_all lic ret s
  = (Normal (append "old" (announced lic) ret), s).
Proof.
  intros Hlic Hq. pose proof (absent_body_matches lic Hlic Hq) as Hmatch.
  pose proof (describable_fields lic Hlic) as (Hsystem & _).
  unfold license_absent_body, mbind, M_bind, lift, getitem.
  rewrite Hsystem, describe_description by done.
  by destruct remove_all; simpl in Hmatch |- *; rewrite ?Hmatch.
Qed.

Lemma absent_body_calls (answer : bool) (lic : license) (ret : ret) (s : st W) :
  deletes_answer salt answer → describable lic → picked lic →
  ∃ w,
    license_absent_body salt false name remove_all lic ret s
    = (if answer then Normal (append "old" (named lic) ret)
       else Returned (failed ("Could not remove license for " +:+ description lic)
                        ret),
       St w (calls s ++ [delete_record name lic])).
Proof.
  intros Hdelete Hlic Hq. pose proof (absent_body_matches lic Hlic Hq) as Hmatch.
  pose proof (describable_fields lic Hlic) as (Hsystem & Hhwkey & Hproduct).
  destruct (invoke_answer (R:=States.ret) (delete_record name lic)
              (sap_likey_delete salt name name (field "hardware_key" lic)
                 (field "software_product" lic)) s answer (Hdelete _ _ _ _ _))
    as [w Hinvoke].
  exists w.
  unfold license_absent_body, salt_delete, mbind, M_bind, lift, getitem.
  rewrite Hsystem, Hhwkey, Hproduct.
  destruct remove_all; simpl in Hmatch |- *; rewrite ?Hmatch;
    unfold delete_record in Hinvoke; rewrite Hinvoke;
    rewrite describe_description by done; by destruct answer.
Qed.

(** X: [license_absent] has nothing to do when no observed record is of
    the system and [remove_all] is off, or when nothing is observed: it
    calls [show] and nothing else, dry run or not, and gives "No changes
    required" with the result [True]. *)
Theorem license_absent_nothing_to_do (test : bool) (lics : list license)
    (s : st W) (w : W) :
  sap_likey_show salt name (world s) = (Ok (Val lics), w) →
  Forall describable lics →
  to_remove name remove_all lics = [] →
  license_absent salt test name remove_all s
  = (Ok (Ret name ∅ "No changes required" (Some true)),
     St w (calls s ++ [Show name])).
Proof.
  intros Hshow Hlics Hnone. unfold license_absent, salt_show.
  rewrite (Reconciliation.def_invoke _ _ _ s (Val lics) w) by done.
  set (s1 := St w _).
  rewrite (Reconciliation.def_normal _ _ s1 s1 lics) by done.
  fold (changes [] []).
  rewrite (Reconciliation.def_normal _ _ s1 s1
             (Ret name (changes [] []) "" (Some true))).
  { unfold def, return_. by rewrite finish_changes. }
  assert (∀ lic, lic ∈ lics → ¬ picked lic) as Hno.
  { intros lic Hin Hq.
    assert (lic ∈ to_remove name remove_all lics) as Hin'
      by by apply list_elem_of_filter.
    rewrite Hnone in Hin'. by apply elem_of_nil in Hin'. }
  clear Hnone Hshow. induction Hlics as [|lic lics Hlic _ IH]; [done|].
  cbn [for_].
  rewrite (Reconciliation.bind_normal _ _ s1 s1
             (Ret name (changes [] []) "" (Some true))).
  - apply IH. intros l Hl. apply Hno. by right.
  - apply absent_body_keeps; [done|]. apply Hno. by left.
Qed.

(** X: a dry run of [license_absent] calls [show] and nothing else, and
    announces the observed records of the system (every observed record
    with [remove_all]) in the order of [show]; the result is [None] when
    there is one. *)
Theorem license_absent_plan (lics : list license) (s : st W) (w : W) :
  sap_likey_show salt name (world s) = (Ok (Val lics), w) →
  Forall describable lics →
  license_absent salt true name remove_all s
  = (Ok match to_remove name remove_all lics with
        | [] => Ret name ∅ "No changes required" (Some true)
        | _ => Ret name (changes (announced <$> to_remove name remove_all lics) [])
                 "" None
        end,
     St w (calls s ++ [Show name])).
Proof.
  intros Hshow Hlics. unfold license_absent, salt_show.
  rewrite (Reconciliation.def_invoke _ _ _ s (Val lics) w) by done.
  set (s1 := St w _).
  rewrite (Reconciliation.def_normal _ _ s1 s1 lics) by done.
  fold (changes [] []).
  rewrite (Reconciliation.def_normal _ _ _ _ _
             (loop_announces (license_absent_body salt true name remove_all)
                describable picked announced
                (absent_body_keeps true) lics name "" [] [] (Some true) s1
                absent_body_dry Hlics)).
  unfold def, return_. rewrite finish_changes. simpl.
  fold (to_remove name remove_all lics).
  by destruct (to_remove name remove_all lics).
Qed.

(** X: outside a dry run, when every [delete] succeeds, [license_absent]
    calls [delete] once for each observed record of the system (for each
    observed record with [remove_all]), in the order of [show], with [name]
    as the licence name and the hardware key and the product of the record,
    and reports each of them as removed with the result [True]. *)
Theorem license_absent_removes (lics : list license) (s : st W) (w : W) :
  sap_likey_show salt name (world s) = (Ok (Val lics), w) →
  Forall describable lics → deletes_answer salt true →
  ∃ w',
    license_absent salt false name remove_all s
    = (Ok match to_remove name remove_all lics with
          | [] => Ret name ∅ "No changes required" (Some true)
          | _ => Ret name (changes (named <$> to_remove name remove_all lics) [])
                   "" (Some true)
          end,
       St w' (calls s ++ Show name
              :: (delete_record name <$> to_remove name remove_all lics))).
Proof.
  intros Hshow Hlics Hdelete. unfold license_absent, salt_show.
  rewrite (Reconciliation.def_invoke _ _ _ s (Val lics) w) by done.
  set (s1 := St w _).
  rewrite (Reconciliation.def_normal _ _ s1 s1 lics) by done.
  fold (changes [] []).
  destruct (loop_removes (license_absent_body salt false name remove_all)
              describable picked named (delete_record name)
              (absent_body_keeps false) lics name "" [] [] (Some true) s1
              (λ lic ret s, absent_body_calls true lic ret s Hdelete) Hlics)
    as [w' Hloop].
  exists w'. rewrite (Reconciliation.def_normal _ _ _ _ _ Hloop).
  unfold def, return_. rewrite finish_changes. simpl.
  rewrite <- app_assoc. simpl. fold (to_remove name remove_all lics).
  by destruct (to_remove name remove_all lics).
Qed.

(** X: outside a dry run, when [delete] fails, [license_absent] stops at
    the first record it is to remove: one [delete] call, no change recorded,
    the comment names the record and the result is [False]. *)
Theorem license_absent_stops (lics rest : list license) (lic : license)
    (s : st W) (w : W) :
  sap_likey_show salt name (world s) = (Ok (Val lics), w) →
  Forall describable lics → deletes_answer salt false →
  to_remove name remove_all lics = lic :: rest →
  ∃ w',
    license_absent salt false name remove_all s
    = (Ok (Ret name (changes [] [])
             ("Could not remove license for " +:+ description lic) (Some false)),
       St w' (calls s ++ [Show name; delete_record name lic])).
Proof.
  intros Hshow Hlics Hdelete Hfirst. unfold license_absent, salt_show.
  rewrite (Reconciliation.def_invoke _ _ _ s (Val lics) w) by done.
  set (s1 := St w _).
  rewrite (Reconciliation.def_normal _ _ s1 s1 lics) by done.
  destruct (loop_stops (license_absent_body salt false name remove_all)
              describable picked (delete_record name)
              (absent_body_keeps false)
              (λ lic, "Could not remove license for " +:+ description lic)
              lics (Ret name {["old" := []; "new" := []]} "" (Some true)) s1
              (λ lic ret s, absent_body_calls false lic ret s Hdelete) Hlics)
    as [w' Hloop].
  fold (to_remove name remove_all lics) in Hloop.
  rewrite Hfirst in Hloop. exists w'.
  unfold def, mbind, M_bind. rewrite Hloop. simpl. by rewrite <- app_assoc.
Qed.

(** X: a record without the field [system] at the head of what [show]
    gave makes [license_absent] raise [KeyError], in a dry run or not, and
    with [remove_all] as well: the test of line 277 is cut short, the log
    line after it reads the field. *)
Theorem license_absent_missing_system (test : bool) (lic : license)
    (rest : list license) (s : st W) (w : W) :
  sap_likey_show salt name (world s) = (Ok (Val (lic :: rest)), w) →
  lic !! "system" = None →
  license_absent salt test name remove_all s
  = (Raise (KeyError "system"), St w (calls s ++ [Show name])).
Proof.
  intros Hshow Hsystem. unfold license_absent, salt_show.
  rewrite (Reconciliation.def_invoke _ _ _ s (Val (lic :: rest)) w) by done.
  unfold def, license_absent_body, mbind, M_bind, lift, getitem. simpl.
  rewrite Hsystem. by destruct remove_all.
Qed.

End Absent.

Lemma license_absent_missing_system_witness :
  license_absent
    (fixed info_S4H (Val [{["hardware_key" := "H1"]}]) true true [] "s4hadm"
       uinfo)
    false "S4H" true start
  = (Raise (KeyError "system"), St () [Show "S4H"]).
Proof.
  apply (license_absent_missing_system
           (fixed info_S4H (Val [{["hardware_key" := "H1"]}]) true true []
              "s4hadm" uinfo)
           "S4H" true false {["hardware_key" := "H1"]} [] start ());
    reflexivity.
Defined.

Lemma license_absent_nothing_to_do_witness :
  license_absent only_foreign false "S4H" false start
  = (Ok (Ret "S4H" ∅ "No changes required" (Some true)), St () [Show "S4H"]).
Proof.
  apply (license_absent_nothing_to_do only_foreign "S4H" false false
           [lic "M70" "H1" "P"] start ()); [reflexivity| |vm_compute; reflexivity].
  apply List.Forall_cons; [|apply List.Forall_nil].
  eexists; vm_compute; reflexivity.
Defined.

Lemma license_absent_plan_witness :
  license_absent with_foreign true "S4H" true start
  = (Ok (Ret "S4H"
           (changes ["SAP system license M70 / H2 / P would be removed";
                     "SAP system license S4H / H1 / NetWeaver_HDB would be removed"]
              [])
           "" None),
     St () [Show "S4H"]).
Proof.
  apply (license_absent_plan with_foreign "S4H" true
           [lic "M70" "H2" "P"; own_license] start ()).
  - reflexivity.
  - repeat apply List.Forall_cons; try apply List.Forall_nil;
      eexists; vm_compute; reflexivity.
Defined.

Lemma license_absent_removes_witness :
  ∃ w',
    license_absent with_foreign false "S4H" true start
    = (Ok (Ret "S4H"
             (changes ["SAP system license M70 / H2 / P";
                       "SAP system license S4H / H1 / NetWeaver_HDB"] [])
             "" (Some true)),
       St w' [Show "S4H"; Delete "S4H" "S4H" "H2" "P";
              Delete "S4H" "S4H" "H1" "NetWeaver_HDB"]).
Proof.
  apply (license_absent_removes with_foreign "S4H" true
           [lic "M70" "H2" "P"; own_license] start ()).
  - reflexivity.
  - repeat apply List.Forall_cons; try apply List.Forall_nil;
      eexists; vm_compute; reflexivity.
  - intros name sid hwkey product w. reflexivity.
Defined.

Lemma license_absent_stops_witness :
  ∃ w',
    license_absent undeletable false "S4H" false start
    = (Ok (Ret "S4H" (changes [] [])
             "Could not remove license for S4H / H1 / P" (Some false)),
       St w' [Show "S4H"; Delete "S4H" "S4H" "H1" "P"]).
Proof.
  apply (license_absent_stops undeletable "S4H" false
           [lic "S4H" "H1" "P"] [] (lic "S4H" "H1" "P") start ()).
  - reflexivity.
  - apply List.Forall_cons; [|apply List.Forall_nil].
    eexists; vm_compute; reflexivity.
  - intros name sid hwkey product w. reflexivity.
  - vm_compute. reflexivity.
Defined.

End Outcomes.

(** ** What [license_present] calls and reports *)

Module Presence.
Import States Props Plan Fixtures StatesLogic StatesFacts Outcomes.

Section Foreign.
Context {W : Type} (salt : Salt W) (name : string).

Local Abbreviation of_other_sid :=
  (λ lic : license, lic !! "system" ≠ Some name).

Lemma sid_body_differs (lic : license) :
  describable lic → of_other_sid lic →
  String.eqb (field "system" lic) name = false.
Proof.
  intros (Hsystem & _)%describable_fields Hq. apply String.eqb_neq.
  intros Heq. apply Hq. by rewrite Hsystem, Heq.
Qed.

Lemma sid_body_keeps (test : bool) (lic : license) (ret : ret) (s : st W) :
  describable lic → ¬ of_other_sid lic →
  remove_other_sid_body salt test name lic ret s = (Normal ret, s).
Proof.
  intros _ Hq. apply dec_stable in Hq.
  unfold remove_other_sid_body, mbind, M_bind, lift, getitem.
  rewrite Hq. simpl. by rewrite String.eqb_refl.
Qed.

Lemma sid_body_dry (lic : license) (ret : ret) (s : st W) :
  describable lic → of_other_sid lic →
  remove_other_sid_body salt true name lic ret s
  = (Normal (append "old" (announced lic) ret), s).
Proof.
  intros Hlic Hq. pose proof (sid_body_differs lic Hlic Hq) as Hne.
  pose proof (describable_fields lic Hlic) as (Hsystem & _).
  unfold remove_other_sid_body, mbind, M_bind, lift, getitem.
  rewrite Hsystem, describe_description by done. simpl. by rewrite Hne.
Qed.

Lemma sid_body_calls (answer : bool) (lic : license) (ret : ret) (s : st W) :
  deletes_answer salt answer → describable lic → of_other_sid lic →
  ∃ w,
    remove_other_sid_body salt false name lic ret s
    = (if answer then Normal (append "old" (named lic) ret)
       else Returned
              (failed ("Could not remove license for SAP system license "
                       +:+ description lic) ret),
       St w (calls s ++ [delete_sid name lic])).
Proof.
  intros Hdelete Hlic Hq. pose proof (sid_body_differs lic Hlic Hq) as Hne.
  pose proof (describable_fields lic Hlic) as (Hsystem & _).
  destruct (invoke_answer (R:=States.ret) (delete_sid name lic)
              (sap_likey_delete salt (field "system" lic) name "*" "*")
              s answer (Hdelete _ _ _ _ _)) as [w Hinvoke].
  exists w.
  unfold remove_other_sid_body, salt_delete, mbind, M_bind, lift, getitem.
  rewrite Hsystem. simpl. rewrite Hne. simpl.
  unfold delete_sid in Hinvoke. rewrite Hinvoke.
  rewrite describe_description by done. by destruct answer.
Qed.

Context (info : or_false (gmap string string)) (own : string).
Hypothesis Hown : subscript info "hardware_key" = Ok own.

Local Abbreviation of_other_hwkey :=
  (λ lic : license, lic !! "hardware_key" ≠ Some own).

Lemma hwkey_body_differs (lic : license) :
  describable lic → of_other_hwkey lic →
  String.eqb (field "hardware_key" lic) own = false.
Proof.
  intros (_ & Hhwkey & _)%describable_fields Hq. apply String.eqb_neq.
  intros Heq. apply Hq. by rewrite Hhwkey, Heq.
Qed.

Lemma hwkey_body_keeps (test : bool) (lic : license) (ret : ret) (s : st W) :
  describable lic → ¬ of_other_hwkey lic →
  remove_other_hwkey_body salt test name info lic ret s = (Normal ret, s).
Proof using Hown.
  intros _ Hq. apply dec_stable in Hq.
  unfold remove_other_hwkey_body, mbind, M_bind, lift, getitem.
  rewrite Hq, Hown. simpl. by rewrite String.eqb_refl.
Qed.

Lemma hwkey_body_dry (lic : license) (ret : ret) (s : st W) :
  describable lic → of_other_hwkey lic →
  remove_other_hwkey_body salt true name info lic ret s
  = (Normal (append "old" (announced lic) ret), s).
Proof using Hown.
  intros Hlic Hq. pose proof (hwkey_body_differs lic Hlic Hq) as Hne.
  pose proof (describable_fields lic Hlic) as (_ & Hhwkey & _).
  unfold remove_other_hwkey_body, mbind, M_bind, lift, getitem.
  rewrite Hhwkey, Hown, describe_description by done. simpl. by rewrite Hne.
Qed.

Lemma hwkey_body_calls (answer : bool) (lic : license) (ret : ret) (s : st W) :
  deletes_answer salt answer → describable lic → of_other_hwkey lic →
  ∃ w,
    remove_other_hwkey_body salt false name info lic ret s
    = (if answer then Normal (append "old" (named lic) ret)
       else Returned
              (failed ("Could not remove license for system "
                       +:+ description lic) ret),
       St w (calls s ++ [delete_hwkey name lic])).
Proof using Hown.
  intros Hdelete Hlic Hq. pose proof (hwkey_body_differs lic Hlic Hq) as Hne.
  pose proof (describable_fields lic Hlic) as (Hsystem & Hhwkey & _).
  destruct (invoke_answer (R:=States.ret) (delete_hwkey name lic)
              (sap_likey_delete salt (field "system" lic) name
                 (field "hardware_key" lic) "*")
              s answer (Hdelete _ _ _ _ _)) as [w Hinvoke].
  exists w.
  unfold remove_other_hwkey_body, salt_delete, mbind, M_bind, lift, getitem.
  rewrite Hhwkey, Hown, Hsystem. simpl. rewrite Hne. simpl.
  unfold delete_hwkey in Hinvoke. rewrite Hinvoke.
  rewrite describe_description by done. by destruct answer.
Qed.

End Foreign.

Lemma state_eta {W} (s : st W) : St (world s) (calls s ++ []) = s.
Proof. destruct s. simpl. by rewrite app_nil_r. Qed.

Lemma find_valid_none (lics : list license) :
  Forall scannable lics → ¬ Exists valid lics →
  find_valid lics false = Ok false.
Proof.
  induction 1 as [|lic lics [[product Hproduct] [validity Hvalidity]] _ IH];
    intros Hnone; [done|].
  simpl. unfold getitem. rewrite Hproduct, Hvalidity. simpl.
  assert (¬ Exists valid lics) as Hrest.
  { intros Hrest. apply Hnone. by right. }
  destruct (Py.startswith product "Maintenance_") eqn:Hstart; [by apply IH|].
  destruct (String.eqb_spec validity "valid") as [->|_]; [|by apply IH].
  exfalso. apply Hnone. left. by exists product.
Qed.

Section Phases.
Context {W : Type} (salt : Salt W) (test : bool) (name : string).
Context (lics : list license).
Hypothesis Hlics : Forall describable lics.
Hypothesis Hdelete : test = false → deletes_answer salt true.

Lemma sid_phase (flag : bool) (comment : string) (old new : list string)
    (result : option bool) (s : st W) :
  ∃ w,
    (test = true → w = world s)
    ∧ (if flag
       then lics ← lift (iter (Val lics));
            for_ lics (remove_other_sid_body salt test name)
              (Ret name (changes old new) comment result)
       else mret (Ret name (changes old new) comment result)) s
      = (Normal (Ret name
                   (changes (old ++ (removed test <$> sid_removals name flag lics))
                      new) comment result),
         St w (calls s
               ++ unless_dry test
                    (delete_sid name <$> sid_removals name flag lics))).
Proof using Hlics Hdelete.
  destruct flag; cycle 1.
  { exists (world s). split; [done|]. simpl. rewrite app_nil_r.
    destruct test; simpl; by rewrite state_eta. }
  rewrite (Reconciliation.bind_normal _ _ s s lics) by done.
  unfold sid_removals, other_sid. destruct test.
  - exists (world s). split; [done|]. simpl. rewrite state_eta.
    apply (loop_announces (remove_other_sid_body salt true name) describable _
             announced (sid_body_keeps salt name true));
      [apply sid_body_dry|done].
  - destruct (loop_removes (remove_other_sid_body salt false name) describable
                (λ lic, lic !! "system" ≠ Some name) named (delete_sid name)
                (sid_body_keeps salt name false) lics name comment old new
                result s
                (λ lic ret s, sid_body_calls salt name true lic ret s
                                (Hdelete eq_refl)) Hlics)
      as [w Hloop].
    exists w. split; [done|]. exact Hloop.
Qed.

Lemma hwkey_phase (flag : bool) (info : or_false (gmap string string))
    (own comment : string) (old new : list string) (result : option bool)
    (s : st W) :
  (flag = true → subscript info "hardware_key" = Ok own) →
  ∃ w,
    (test = true → w = world s)
    ∧ (if flag
       then _ ← lift (subscript info "hardware_key");
            lics ← lift (iter (Val lics));
            for_ lics (remove_other_hwkey_body salt test name info)
              (Ret name (changes old new) comment result)
       else mret (Ret name (changes old new) comment result)) s
      = (Normal (Ret name
                   (changes (old ++ (removed test <$> hwkey_removals own flag lics))
                      new) comment result),
         St w (calls s
               ++ unless_dry test
                    (delete_hwkey name <$> hwkey_removals own flag lics))).
Proof using Hlics Hdelete.
  intros Hown. destruct flag; cycle 1.
  { exists (world s). split; [done|]. simpl. rewrite app_nil_r.
    destruct test; simpl; by rewrite state_eta. }
  specialize (Hown eq_refl).
  rewrite (Reconciliation.bind_normal _ _ s s own)
    by by apply Reconciliation.lift_Ok.
  rewrite (Reconciliation.bind_normal _ _ s s lics) by done.
  unfold hwkey_removals, other_hwkey. destruct test.
  - exists (world s). split; [done|]. simpl. rewrite state_eta.
    apply (loop_announces (remove_other_hwkey_body salt true name info)
             describable _ announced
             (hwkey_body_keeps salt name info own Hown true));
      [by apply hwkey_body_dry|done].
  - destruct (loop_removes (remove_other_hwkey_body salt false name info)
                describable (λ lic, lic !! "hardware_key" ≠ Some own) named
                (delete_hwkey name)
                (hwkey_body_keeps salt name info own Hown false) lics name
                comment old new result s
                (λ lic ret s, hwkey_body_calls salt name info own Hown true
                                lic ret s (Hdelete eq_refl)) Hlics)
      as [w Hloop].
    exists w. split; [done|]. exact Hloop.
Qed.

(** The two removal loops: the state goes on with the third part, with
    the records of other systems and of other hardware keys in the list
    of removals, after the calls to [info], [show] and, outside a dry run,
    one [delete] for each of them. *)
Lemma license_present_foreign (info : or_false (gmap string string))
    (own : string) (filename : option string)
    (remove_other_sid remove_other_hwkey : bool) (s : st W) (w1 w2 : W) :
  sap_likey_info salt name (world s) = (Ok info, w1) →
  sap_likey_show salt name w1 = (Ok (Val lics), w2) →
  (remove_other_hwkey = true → subscript info "hardware_key" = Ok own) →
  ∃ w,
    (test = true → w = w2)
    ∧ license_present salt test name filename
        remove_other_sid remove_other_hwkey s
      = def (ret ← match given filename with
                   | Some filename =>
                       ensure_file salt test name filename (Val lics)
                         (Ret name
                            (changes
                               (removed test
                                <$> foreign name own remove_other_sid
                                      remove_other_hwkey lics) [])
                            "" (Some true))
                   | None =>
                       ensure_valid salt test name info (Val lics)
                         (Ret name
                            (changes
                               (removed test
                                <$> foreign name own remove_other_sid
                                      remove_other_hwkey lics) [])
                            "" (Some true))
                   end;
             return_ (finish test ret))
          (St w (calls s ++ Info name :: Show name
                 :: unless_dry test
                      (foreign_deletes name own remove_other_sid
                         remove_other_hwkey lics))).
Proof using Hlics Hdelete.
  intros Hinfo Hshow Hown. unfold license_present, salt_info, salt_show.
  rewrite (Reconciliation.def_invoke _ _ _ s info w1) by done.
  rewrite (Reconciliation.def_invoke _ _ _ _ (Val lics) w2) by done.
  simpl. rewrite <- app_assoc. simpl.
  set (s2 := St w2 _). fold (changes [] []).
  destruct (sid_phase remove_other_sid "" [] [] (Some true) s2)
    as (w3 & Hw3 & Hsid).
  rewrite (Reconciliation.def_normal _ _ _ _ _ Hsid).
  set (s3 := St w3 _).
  destruct (hwkey_phase remove_other_hwkey info own ""
              ([] ++ (removed test <$> sid_removals name remove_other_sid lics))
              [] (Some true) s3 Hown)
    as (w4 & Hw4 & Hhwkey).
  rewrite (Reconciliation.def_normal _ _ _ _ _ Hhwkey).
  exists w4. split.
  { intros Htest. rewrite (Hw4 Htest). simpl. by rewrite (Hw3 Htest). }
  unfold foreign, foreign_deletes. rewrite fmap_app. simpl.
  subst s3 s2. simpl. rewrite <- !app_assoc. simpl.
  by destruct test.
Qed.

(** X: without a file name, when one of the observed licences is a valid
    licence other than a maintenance licence, [license_present] removes the
    licences of other systems and then those on other hardware keys, each
    loop over the whole list [show] gave, and nothing else.  Outside a dry
    run it calls [delete] once for each of them; a dry run announces them.
    The comment says that the system has a valid licence. *)
Theorem license_present_removes_foreign (info : or_false (gmap string string))
    (own : string) (filename : option string)
    (remove_other_sid remove_other_hwkey : bool) (s : st W) (w1 w2 : W) :
  sap_likey_info salt name (world s) = (Ok info, w1) →
  sap_likey_show salt name w1 = (Ok (Val lics), w2) →
  (remove_other_hwkey = true → subscript info "hardware_key" = Ok own) →
  given filename = None →
  Forall scannable lics → Exists valid lics →
  ∃ w,
    (test = true → w = w2)
    ∧ license_present salt test name filename
        remove_other_sid remove_other_hwkey s
      = (Ok match foreign name own remove_other_sid remove_other_hwkey lics with
            | [] => Ret name ∅ "No changes required" (Some true)
            | gone =>
                Ret name (changes (removed test <$> gone) [])
                  ("System " +:+ name +:+ " already has a valid license")
                  (if test then None else Some true)
            end,
         St w (calls s ++ Info name :: Show name
               :: unless_dry test
                    (foreign_deletes name own remove_other_sid
                       remove_other_hwkey lics))).
Proof using Hlics Hdelete.
  intros Hinfo Hshow Hown Hgiven Hscan Hvalid.
  destruct (license_present_foreign info own filename remove_other_sid
              remove_other_hwkey s w1 w2 Hinfo Hshow Hown) as (w & Hw & ->).
  exists w. split; [done|]. rewrite Hgiven.
  unfold def, ensure_valid, mbind, M_bind, lift, return_. simpl.
  rewrite (Reconciliation.find_valid_found lics false) by done. simpl.
  unfold set_comment. simpl. rewrite finish_changes.
  by destruct (foreign name own remove_other_sid remove_other_hwkey lics).
Qed.

Lemma ensure_valid_temporary (answer : bool)
    (info : or_false (gmap string string)) (products comment : string)
    (old new : list string) (result : option bool) (s : st W) :
  subscript info "software_products" = Ok products →
  (test = false → temps_answer salt answer) →
  Forall scannable lics → ¬ Exists valid lics →
  ∃ w,
    (test = true → w = world s)
    ∧ ensure_valid salt test name info (Val lics)
        (Ret name (changes old new) comment result) s
      = (if test || answer
         then Normal (Ret name
                        (changes (old ++ wiped name test lics)
                           (new ++ [temporary name products test]))
                        comment result)
         else Returned (Ret name (changes (old ++ wiped name test lics) new)
                          ("Could not add temporay license for system " +:+ name
                           +:+ " for " +:+ products) (Some false)),
         St w (calls s
               ++ unless_dry test (wipe name lics ++ [Temp name products]))).
Proof using Hdelete.
  clear Hlics. intros Hproducts Htemp Hscan Hvalid.
  unfold ensure_valid.
  rewrite (Reconciliation.bind_normal _ _ s s lics) by done.
  rewrite (Reconciliation.bind_normal _ _ s s false)
    by by apply Reconciliation.lift_Ok, find_valid_none.
  cbn [negb]. destruct test.
  - exists (world s). split; [done|]. simpl. rewrite state_eta.
    unfold mbind, M_bind, lift. rewrite Hproducts.
    destruct lics; simpl; rewrite ?append_old, append_new; [|done].
    by rewrite app_nil_r.
  - specialize (Hdelete eq_refl). specialize (Htemp eq_refl).
    assert (∃ w1,
      (if nonempty (Val lics)
       then success ← salt_delete salt name name "*" "*";
            if success : bool
            then mret (append "old" ("SAP system " +:+ name +:+ " license")
                         (Ret name (changes old new) comment result))
            else return_ (failed ("Could not remove license for system " +:+ name)
                            (Ret name (changes old new) comment result))
       else mret (Ret name (changes old new) comment result)) s
      = (Normal (Ret name (changes (old ++ wiped name false lics) new)
                   comment result),
         St w1 (calls s ++ wipe name lics))) as [w1 Hwipe].
    { destruct lics as [|lic rest]; simpl.
      - exists (world s). by rewrite app_nil_r, state_eta.
      - destruct (invoke_answer (R:=States.ret) (Delete name name "*" "*")
                    (sap_likey_delete salt name name "*" "*") s true
                    (Hdelete _ _ _ _ _)) as [w1 Hinvoke].
        exists w1. unfold salt_delete.
        rewrite (Reconciliation.bind_normal _ _ _ _ _ Hinvoke).
        by rewrite append_old. }
    rewrite (Reconciliation.bind_normal _ _ _ _ _ Hwipe).
    set (s1 := St w1 _).
    destruct (invoke_answer (R:=States.ret) (Temp name products)
                (sap_likey_temp salt name products) s1 answer (Htemp _ _ _))
      as [w2 Hinvoke].
    exists w2. split; [done|].
    unfold salt_temp, mbind, M_bind, lift. rewrite Hproducts, Hinvoke.
    subst s1. simpl. rewrite <- app_assoc.
    destruct answer; simpl; [by rewrite append_new|done].
Qed.

(** X: without a file name, when none of the observed licences is a valid
    licence other than a maintenance licence, [license_present] removes
    the foreign licences, then every licence of the system with one
    wildcard [delete] when [show] gave a record, then asks for a temporary
    licence for the products [info] names.  When [temp] fails the result
    is [False], after the licences are gone.  A dry run announces the
    same. *)
Theorem license_present_temporary (answer : bool)
    (info : or_false (gmap string string)) (own products : string)
    (filename : option string) (remove_other_sid remove_other_hwkey : bool)
    (s : st W) (w1 w2 : W) :
  sap_likey_info salt name (world s) = (Ok info, w1) →
  sap_likey_show salt name w1 = (Ok (Val lics), w2) →
  (remove_other_hwkey = true → subscript info "hardware_key" = Ok own) →
  subscript info "software_products" = Ok products →
  (test = false → temps_answer salt answer) →
  given filename = None →
  Forall scannable lics → ¬ Exists valid lics →
  ∃ w,
    (test = true → w = w2)
    ∧ license_present salt test name filename
        remove_other_sid remove_other_hwkey s
      = (Ok (let old :=
               (removed test
                <$> foreign name own remove_other_sid remove_other_hwkey lics)
               ++ wiped name test lics in
             if test || answer
             then Ret name (changes old [temporary name products test]) ""
                    (if test then None else Some true)
             else Ret name (changes old [])
                    ("Could not add temporay license for system " +:+ name
                     +:+ " for " +:+ products) (Some false)),
         St w (calls s ++ Info name :: Show name
               :: unless_dry test
                    (foreign_deletes name own remove_other_sid
                       remove_other_hwkey lics
                     ++ wipe name lics ++ [Temp name products]))).
Proof using Hlics Hdelete.
  intros Hinfo Hshow Hown Hproducts Htemp Hgiven Hscan Hvalid.
  destruct (license_present_foreign info own filename remove_other_sid
              remove_other_hwkey s w1 w2 Hinfo Hshow Hown) as (w & Hw & ->).
  rewrite Hgiven. set (s1 := St w _).
  destruct (ensure_valid_temporary answer info products ""
              (removed test
               <$> foreign name own remove_other_sid remove_other_hwkey lics)
              [] (Some true) s1 Hproducts Htemp Hscan Hvalid)
    as (w' & Hw' & Hensure).
  exists w'. split.
  { intros Htest. rewrite (Hw' Htest). simpl. by apply Hw. }
  unfold def, mbind, M_bind. rewrite Hensure. subst s1. simpl.
  destruct test; simpl.
  - rewrite finish_changes, !app_nil_r.
    by destruct (_ ++ wiped _ _ _).
  - rewrite <- !app_assoc. simpl.
    destruct answer; simpl; [|done]. rewrite finish_changes.
    by destruct (_ ++ wiped _ _ _).
Qed.

End Phases.

(** *** The branch with a licence file *)

Lemma append_empty_r (s : string) : s +:+ "" = s.
Proof.
  induction s as [|c s IH]; [done|].
  change (String c (s +:+ "") = String c s). by rewrite IH.
Qed.

Lemma describe_strip (lic : license) :
  describe (strip_system_fields lic) = describe lic.
Proof.
  unfold describe, getitem, strip_system_fields.
  by rewrite !lookup_delete_ne by done.
Qed.

Lemma description_strip (lics lics' : list license) :
  strip_system_fields <$> lics' = strip_system_fields <$> lics →
  description <$> lics' = description <$> lics
  ∧ (Forall describable lics → Forall describable lics').
Proof.
  intros Hstrip.
  assert (∀ l : list license,
            description <$> l = description <$> (strip_system_fields <$> l))
    as Hdescription.
  { intros l. rewrite <- list_fmap_compose. apply list_fmap_ext.
    intros _ lic _. unfold description. simpl. by rewrite describe_strip. }
  split; [by rewrite (Hdescription lics'), Hstrip, <- Hdescription|].
  assert (∀ l : list license,
            Forall describable l
            ↔ Forall describable (strip_system_fields <$> l)) as Hdescribable.
  { intros l. rewrite Forall_fmap. apply Forall_iff.
    intros lic. unfold describable. simpl. by rewrite describe_strip. }
  rewrite (Hdescribable lics), (Hdescribable lics'). by rewrite Hstrip.
Qed.

Lemma all_found_missing (licenses_file lics : list license) (all_valid : bool) :
  ¬ Forall (installed lics) licenses_file →
  ∃ lics',
    all_found licenses_file all_valid (Val lics) = Ok (false, Val lics')
    ∧ strip_system_fields <$> lics' = strip_system_fields <$> lics.
Proof.
  revert lics. induction licenses_file as [|lic_file rest IH];
    intros lics Hmissing.
  { exfalso. apply Hmissing. apply Forall_nil_2. }
  destruct (Reconciliation.find_license_spec lic_file lics) as [Hfound Hlics].
  simpl. destruct (find_license lic_file lics) as [found lics1]. simpl in *.
  destruct found; simpl; [|by exists lics1].
  symmetry in Hfound. apply bool_decide_eq_true in Hfound.
  destruct (IH lics1) as (lics' & Hall & Hstrip).
  - intros Hrest. apply Hmissing. apply Forall_cons. split.
    + by apply Reconciliation.installed_elem_of.
    + eapply Forall_impl; [exact Hrest|]. intros lf.
      rewrite !Reconciliation.installed_elem_of. by rewrite Hlics.
  - exists lics'. split; [done|]. by rewrite Hstrip.
Qed.

Lemma invoke_gives {W R A} (c : invocation) (f : W → res A * W) (s : st W)
    (a : A) :
  (f (world s)).1 = Ok a →
  ∃ w, invoke (R:=R) c f s = (Normal a, St w (calls s ++ [c])).
Proof.
  intros Hf. unfold invoke. destruct (f (world s)) as [r w]. simpl in Hf.
  subst r. by exists w.
Qed.

Section File.
Context {W : Type} (salt : Salt W) (test : bool) (name filename : string).

Lemma append_all_changes (key : string) (msg : license → string)
    (prefix suffix : string) (lics : list license) (comment : string)
    (old new : list string) (result : option bool) (s : st W) :
  (∀ lic, prefix +:+ description lic +:+ suffix = msg lic) →
  Forall describable lics →
  (key = "old" →
   append_all (W:=W) key prefix suffix lics
     (Ret name (changes old new) comment result) s
   = (Normal (Ret name (changes (old ++ (msg <$> lics)) new) comment result), s))
  ∧ (key = "new" →
     append_all (W:=W) key prefix suffix lics
       (Ret name (changes old new) comment result) s
     = (Normal (Ret name (changes old (new ++ (msg <$> lics))) comment result),
        s)).
Proof.
  intros Hmsg Hlics. revert old new.
  induction Hlics as [|lic lics Hlic _ IH]; intros old new.
  { simpl. by rewrite !app_nil_r. }
  unfold append_all in *. cbn [for_].
  split; intros ->.
  - rewrite (Reconciliation.bind_normal _ _ s s
               (Ret name (changes (old ++ [msg lic]) new) comment result)).
    + destruct (IH (old ++ [msg lic]) new) as [Hrest _].
      rewrite Hrest by done. cbn [fmap list_fmap]. by rewrite <- app_assoc.
    + unfold mbind, M_bind, lift.
      rewrite describe_description by done. simpl.
      by rewrite Hmsg, append_old.
  - rewrite (Reconciliation.bind_normal _ _ s s
               (Ret name (changes old (new ++ [msg lic])) comment result)).
    + destruct (IH old (new ++ [msg lic])) as [_ Hrest].
      rewrite Hrest by done. cbn [fmap list_fmap]. by rewrite <- app_assoc.
    + unfold mbind, M_bind, lift.
      rewrite describe_description by done. simpl.
      by rewrite Hmsg, append_new.
Qed.

Context (lics licenses_file : list license) (owner : string).
Context (ui : gmap string pyval) (uid gid : pyval) (answer : bool).
Hypothesis Hlics : Forall describable lics.
Hypothesis Hfile : Forall describable licenses_file.
Hypothesis Hdelete : test = false → deletes_answer salt true.
Hypothesis Howner : owned_by salt filename owner.
Hypothesis Huser :
  owner ≠ Py.lower name +:+ "adm" →
  known_user salt (Py.lower name +:+ "adm") ui
  ∧ ui !! "uid" = Some uid ∧ ui !! "gid" = Some gid
  ∧ (test = false → chowns salt).
Hypothesis Hinstall : test = false → installs_answer salt answer.

Lemma install_file_wipes (comment : string) (old new : list string)
    (result : option bool) (s : st W) :
  ∃ w,
    (if test
     then lics ← lift (iter (Val lics));
          append_all "old" "SAP system license " " would be removed" lics
            (Ret name (changes old new) comment result)
     else success ← salt_delete salt name name "*" "*";
          if success : bool
          then lics ← lift (iter (Val lics));
               append_all "old" "SAP system license " "" lics
                 (Ret name (changes old new) comment result)
          else return_ (failed ("Could not remove license for system " +:+ name)
                          (Ret name (changes old new) comment result))) s
    = (Normal (Ret name (changes (old ++ (removed test <$> lics)) new)
                 comment result),
       St w (calls s ++ unless_dry test [Delete name name "*" "*"])).
Proof using Hlics Hdelete.
  clear Hfile Howner Huser Hinstall. destruct test.
  - exists (world s). simpl. rewrite state_eta.
    rewrite (Reconciliation.bind_normal _ _ s s lics) by done.
    by apply (append_all_changes "old" announced).
  - destruct (invoke_gives (R:=States.ret) (Delete name name "*" "*")
                (sap_likey_delete salt name name "*" "*") s true
                (Hdelete eq_refl _ _ _ _ _)) as [w Hinvoke].
    exists w. unfold salt_delete.
    rewrite (Reconciliation.bind_normal _ _ _ _ _ Hinvoke).
    set (s1 := St w _).
    rewrite (Reconciliation.bind_normal _ _ s1 s1 lics) by done.
    apply (append_all_changes "old" named); [|done..].
    intros lic. unfold named. by rewrite append_empty_r.
Qed.

Lemma install_file_owner (comment : string) (old new : list string)
    (result : option bool) (s : st W) :
  ∃ w,
    (if negb (String.eqb owner (Py.lower name +:+ "adm"))
     then user_info ← salt_user_info salt (Py.lower name +:+ "adm");
          if test
          then uid ← lift (getitem user_info "uid");
               gid ← lift (getitem user_info "gid");
               mret (append "new"
                       ("Would change to owner of " +:+ filename +:+ " to uid "
                        +:+ str uid +:+ " / gid " +:+ str gid)
                       (Ret name (changes old new) comment result))
          else uid ← lift (getitem user_info "uid");
               gid ← lift (getitem user_info "gid");
               salt_file_chown salt uid gid filename;;
               mret (Ret name (changes old new) comment result)
     else mret (Ret name (changes old new) comment result)
     : M (st W) States.ret States.ret) s
    = (Normal (Ret name
                 (changes old
                    (new ++ chown_announced test name filename owner uid gid))
                 comment result),
       St w (calls s ++ chown_calls test name filename owner uid gid)).
Proof using Huser.
  clear Hlics Hfile Hdelete Howner Hinstall.
  unfold chown_announced, chown_calls.
  destruct (String.eqb_spec owner (Py.lower name +:+ "adm")) as [_|Hne].
  { exists (world s). simpl. rewrite !app_nil_r. by destruct s. }
  destruct (Huser Hne) as (Hui & Huid & Hgid & Hchown).
  destruct (invoke_gives (R:=States.ret) (UserInfo (Py.lower name +:+ "adm"))
              (user_info salt (Py.lower name +:+ "adm")) s ui (Hui _))
    as [w1 Hinvoke].
  cbn [negb]. unfold salt_user_info.
  rewrite (Reconciliation.bind_normal _ _ _ _ _ Hinvoke).
  set (s1 := St w1 _).
  unfold lift, getitem. rewrite Huid, Hgid.
  destruct test.
  - exists w1.
    rewrite (Reconciliation.bind_normal _ _ s1 s1 uid) by done.
    rewrite (Reconciliation.bind_normal _ _ s1 s1 gid) by done.
    simpl. by rewrite append_new.
  - destruct (invoke_gives (R:=States.ret) (FileChown uid gid filename)
                (file_chown salt uid gid filename) s1 ()
                (Hchown eq_refl _ _ _ _)) as [w2 Hchowned].
    exists w2. unfold salt_file_chown.
    rewrite (Reconciliation.bind_normal _ _ s1 s1 uid) by done.
    rewrite (Reconciliation.bind_normal _ _ s1 s1 gid) by done.
    rewrite (Reconciliation.bind_normal _ _ _ _ _ Hchowned).
    subst s1. simpl. by rewrite app_nil_r, <- app_assoc.
Qed.

Lemma install_file_runs (comment : string) (old new : list string)
    (result : option bool) (s : st W) :
  ∃ w,
    install_file salt test name filename licenses_file (Val lics)
      (Ret name (changes old new) comment result) s
    = (if test || answer
       then Normal (Ret name
                      (changes (old ++ (removed test <$> lics))
                         (new
                          ++ chown_announced test name filename owner uid gid
                          ++ (added test <$> licenses_file)))
                      "Installed licenses" result)
       else Returned (Ret name (changes (old ++ (removed test <$> lics)) new)
                        ("Could not install licenses for system " +:+ name)
                        (Some false)),
       St w (calls s ++ unless_dry test [Delete name name "*" "*"]
             ++ FileGetUser filename
             :: chown_calls test name filename owner uid gid
             ++ unless_dry test [Install name filename])).
Proof using Hlics Hfile Hdelete Howner Huser Hinstall.
  unfold install_file.
  destruct (install_file_wipes comment old new result s) as [w1 Hwipe].
  rewrite (Reconciliation.bind_normal _ _ _ _ _ Hwipe).
  set (s1 := St w1 _).
  destruct (invoke_gives (R:=States.ret) (FileGetUser filename)
              (file_get_user salt filename) s1 owner (Howner _))
    as [w2 Hgot].
  unfold salt_file_get_user.
  rewrite (Reconciliation.bind_normal _ _ _ _ _ Hgot).
  set (s2 := St w2 _).
  destruct (install_file_owner comment (old ++ (removed test <$> lics)) new
              result s2) as [w3 Howned].
  rewrite (Reconciliation.bind_normal _ _ _ _ _ Howned).
  set (s3 := St w3 _).
  assert (calls s3
          = calls s ++ unless_dry test [Delete name name "*" "*"]
            ++ FileGetUser filename
            :: chown_calls test name filename owner uid gid) as Hcalls.
  { subst s3 s2 s1. simpl. by rewrite <- !app_assoc. }
  destruct test.
  - exists w3. simpl.
    rewrite (Reconciliation.bind_normal _ _ s3 s3
               (Ret name
                  (changes (old ++ (removed true <$> lics))
                     ((new ++ chown_announced true name filename owner uid gid)
                      ++ (added true <$> licenses_file)))
                  comment result)).
    + unfold set_comment. simpl. rewrite <- app_assoc, app_nil_r.
      clear Hcalls. subst s3 s2 s1. simpl. by rewrite app_nil_r, <- app_assoc.
    + by apply (append_all_changes "new" (added true)).
  - destruct (invoke_gives (R:=States.ret) (Install name filename)
                (sap_likey_install salt name filename) s3 answer
                (Hinstall eq_refl _ _ _)) as [w4 Hinstalled].
    exists w4. unfold salt_install.
    assert (∀ (k : bool → M (st W) States.ret States.ret),
              (invoke (Install name filename)
                 (sap_likey_install salt name filename) ≫= k) s3
              = k answer (St w4 (calls s3 ++ [Install name filename])))
      as Hstep.
    { intros k. by rewrite (Reconciliation.bind_normal _ _ _ _ _ Hinstalled). }
    unfold mbind at 1, M_bind at 1. rewrite Hstep, Hcalls. clear Hstep.
    simpl. rewrite <- !app_assoc. simpl.
    destruct answer; simpl.
    + set (s4 := St w4 _).
      destruct (append_all_changes "new" (added false)
                  "SAP system license " "" licenses_file comment
                  (old ++ (removed false <$> lics))
                  (new ++ chown_announced false name filename owner uid gid)
                  result s4) as [_ Hadded]; [|done|].
      { intros lic. unfold added, named. by rewrite append_empty_r. }
      rewrite Hadded by done. unfold set_comment. simpl.
      by rewrite <- app_assoc.
    + unfold chown_announced. by rewrite andb_false_r, app_nil_r.
Qed.

End File.

Lemma removed_description (test : bool) (lics lics' : list license) :
  description <$> lics' = description <$> lics →
  removed test <$> lics' = removed test <$> lics.
Proof.
  intros Hdescription.
  assert (∀ l : list license,
            removed test <$> l
            = (λ d, if test
                    then "SAP system license " +:+ d +:+ " would be removed"
                    else "SAP system license " +:+ d) <$> (description <$> l))
    as Hremoved.
  { intros l. rewrite <- list_fmap_compose. apply list_fmap_ext.
    intros _ lic _. by destruct test. }
  by rewrite (Hremoved lics'), Hdescription, <- Hremoved.
Qed.

(** X: with a licence file that is empty or has a record without an exact
    match among the observed licences, [license_present] removes the
    foreign licences, reads the file, removes every licence of the system
    with one wildcard [delete], makes [<sid>adm] the owner of the file
    unless it is already, and installs the file.  Every observed licence
    is reported as removed, every record of the file as installed.  When
    [install] fails the result is [False], after the licences are gone.
    A dry run reads the file, its owner and the user, and announces the
    same. *)
Theorem license_present_installs {W} (salt : Salt W) (test answer : bool)
    (name f owner own : string) (lics licenses_file : list license)
    (info : or_false (gmap string string)) (ui : gmap string pyval)
    (uid gid : pyval) (filename : option string)
    (remove_other_sid remove_other_hwkey : bool) (s : st W) (w1 w2 : W) :
  sap_likey_info salt name (world s) = (Ok info, w1) →
  sap_likey_show salt name w1 = (Ok (Val lics), w2) →
  (remove_other_hwkey = true → subscript info "hardware_key" = Ok own) →
  Forall describable lics →
  given filename = Some f →
  reads_file salt f licenses_file →
  Forall describable licenses_file →
  licenses_file = [] ∨ ¬ Forall (installed lics) licenses_file →
  owned_by salt f owner →
  (owner ≠ Py.lower name +:+ "adm" →
   known_user salt (Py.lower name +:+ "adm") ui
   ∧ ui !! "uid" = Some uid ∧ ui !! "gid" = Some gid
   ∧ (test = false → chowns salt)) →
  (test = false → deletes_answer salt true) →
  (test = false → installs_answer salt answer) →
  ∃ w,
    license_present salt test name filename remove_other_sid remove_other_hwkey s
    = (Ok (let old :=
             (removed test
              <$> foreign name own remove_other_sid remove_other_hwkey lics)
             ++ (removed test <$> lics) in
           let new :=
             chown_announced test name f owner uid gid
             ++ (added test <$> licenses_file) in
           if test || answer
           then match old, new with
                | [], [] => Ret name ∅ "No changes required" (Some true)
                | _, _ => Ret name (changes old new) "Installed licenses"
                            (if test then None else Some true)
                end
           else Ret name (changes old [])
                  ("Could not install licenses for system " +:+ name)
                  (Some false)),
       St w (calls s ++ Info name :: Show name
             :: unless_dry test
                  (foreign_deletes name own remove_other_sid
                     remove_other_hwkey lics)
             ++ ReadLicFile f
             :: unless_dry test [Delete name name "*" "*"]
             ++ FileGetUser f
             :: chown_calls test name f owner uid gid
             ++ unless_dry test [Install name f])).
Proof.
  intros Hinfo Hshow Hown Hlics Hgiven Hread Hfile Hmissing Howner Huser
    Hdelete Hinstall.
  destruct (license_present_foreign salt test name lics Hlics Hdelete info own
              filename remove_other_sid remove_other_hwkey s w1 w2
              Hinfo Hshow Hown) as (w & _ & ->).
  rewrite Hgiven. set (s1 := St w _).
  destruct (invoke_gives (R:=States.ret) (ReadLicFile f)
              (sap_likey_read_lic_file salt f) s1 licenses_file (Hread _))
    as [w3 Hinvoke].
  assert (∃ lics',
            all_found licenses_file
              (bool_decide (0 < length licenses_file)%nat) (Val lics)
            = Ok (false, Val lics')
            ∧ strip_system_fields <$> lics' = strip_system_fields <$> lics)
    as (lics' & Hfound & Hstrip).
  { destruct Hmissing as [->|Hmissing]; [by exists lics|].
    by apply all_found_missing. }
  destruct (description_strip lics lics' Hstrip) as [Hdescription Hlics'].
  specialize (Hlics' Hlics).
  set (s2 := St w3 (calls s1 ++ [ReadLicFile f])) in *.
  set (ret0 := Ret name _ "" (Some true)).
  destruct (install_file_runs salt test name f lics' licenses_file owner ui
              uid gid answer Hlics' Hfile Hdelete Howner Huser Hinstall ""
              (removed test
               <$> foreign name own remove_other_sid remove_other_hwkey lics)
              [] (Some true) s2) as [w4 Hruns].
  rewrite (removed_description test lics lics') in Hruns by done.
  assert (ensure_file salt test name f (Val lics) ret0 s1
          = install_file salt test name f licenses_file (Val lics') ret0 s2)
    as Hensure.
  { unfold ensure_file, salt_read_lic_file.
    rewrite (Reconciliation.bind_normal _ _ _ _ _ Hinvoke). fold s2.
    by rewrite (Reconciliation.bind_normal _ _ s2 s2 (false, Val lics'))
      by by apply Reconciliation.lift_Ok. }
  exists w4. unfold def, mbind, M_bind. rewrite Hensure. subst ret0.
  rewrite Hruns. subst s2 s1. cbn [calls]. rewrite <- ?app_assoc.
  cbn [app]. rewrite <- ?app_assoc.
  by destruct test; [|destruct answer]; simpl; rewrite ?finish_changes.
Qed.

(** *** A [delete] that fails *)

Lemma def_returned {S R A} (m : M S R A) (k : A → M S R R) (s s' : S) (r : R) :
  m s = (Returned r, s') → def (m ≫= k) s = (Ok r, s').
Proof. intros Hm. unfold def, mbind, M_bind. by rewrite Hm. Qed.

Section Refusals.
Context {W : Type} (salt : Salt W) (name : string).
Context (info : or_false (gmap string string)) (lics : list license).
Context (filename : option string) (s : st W) (w1 w2 : W).
Hypothesis Hinfo : sap_likey_info salt name (world s) = (Ok info, w1).
Hypothesis Hshow : sap_likey_show salt name w1 = (Ok (Val lics), w2).
Hypothesis Hdelete : deletes_answer salt false.

(** X: outside a dry run, when [delete] fails, [license_present] stops at
    the first foreign licence: one [delete] call, no change recorded and
    the result [False].  The comment of the loop over other systems reads
    "Could not remove license for SAP system license ...", that of the loop
    over other hardware keys "Could not remove license for system ...". *)
Theorem license_present_stops (own : string)
    (remove_other_sid remove_other_hwkey : bool) (lic : license)
    (rest : list license) :
  (remove_other_hwkey = true → subscript info "hardware_key" = Ok own) →
  Forall describable lics →
  foreign name own remove_other_sid remove_other_hwkey lics = lic :: rest →
  ∃ w,
    license_present salt false name filename
      remove_other_sid remove_other_hwkey s
    = match sid_removals name remove_other_sid lics with
      | _ :: _ =>
          (Ok (Ret name (changes [] [])
                 ("Could not remove license for SAP system license "
                  +:+ description lic) (Some false)),
           St w (calls s ++ [Info name; Show name; delete_sid name lic]))
      | [] =>
          (Ok (Ret name (changes [] [])
                 ("Could not remove license for system " +:+ description lic)
                 (Some false)),
           St w (calls s ++ [Info name; Show name; delete_hwkey name lic]))
      end.
Proof using Hinfo Hshow Hdelete.
  intros Hown Hlics Hfirst. unfold license_present, salt_info, salt_show.
  rewrite (Reconciliation.def_invoke _ _ _ s info w1) by done.
  rewrite (Reconciliation.def_invoke _ _ _ _ (Val lics) w2) by done.
  simpl. rewrite <- app_assoc. simpl.
  set (s2 := St w2 _). set (ret0 := Ret name _ "" (Some true)).
  assert (∃ w,
    (if remove_other_sid
     then lics ← lift (iter (Val lics));
          for_ lics (remove_other_sid_body salt false name) ret0
     else mret ret0) s2
    = match sid_removals name remove_other_sid lics with
      | [] => (Normal ret0, s2)
      | lic :: _ =>
          (Returned (failed ("Could not remove license for SAP system license "
                             +:+ description lic) ret0),
           St w (calls s2 ++ [delete_sid name lic]))
      end) as [w3 Hsid].
  { destruct remove_other_sid; [|by exists w2].
    rewrite (Reconciliation.bind_normal _ _ s2 s2 lics) by done.
    apply (loop_stops (remove_other_sid_body salt false name) describable
             (λ lic, lic !! "system" ≠ Some name) (delete_sid name)
             (sid_body_keeps salt name false)
             (λ lic, "Could not remove license for SAP system license "
                     +:+ description lic)); [|done].
    intros l r s' Hl Hq. by apply (sid_body_calls salt name false). }
  unfold foreign in Hfirst.
  destruct (sid_removals name remove_other_sid lics) as [|lic' rest'].
  - rewrite (Reconciliation.def_normal _ _ _ _ _ Hsid). simpl in Hfirst.
    destruct remove_other_hwkey; [|done]. specialize (Hown eq_refl).
    destruct (loop_stops (remove_other_hwkey_body salt false name info)
                describable (λ lic, lic !! "hardware_key" ≠ Some own)
                (delete_hwkey name)
                (hwkey_body_keeps salt name info own Hown false)
                (λ lic, "Could not remove license for system "
                        +:+ description lic) lics ret0 s2
                (λ l r s' Hl Hq,
                   hwkey_body_calls salt name info own Hown false l r s'
                     Hdelete Hl Hq) Hlics) as [w4 Hhwkey].
    simpl in Hfirst. unfold other_hwkey in Hfirst. rewrite Hfirst in Hhwkey.
    exists w4.
    rewrite (def_returned _ _ s2
               (St w4 (calls s2 ++ [delete_hwkey name lic]))
               (failed ("Could not remove license for system "
                        +:+ description lic) ret0)).
    + subst s2. simpl. by rewrite <- app_assoc.
    + rewrite (Reconciliation.bind_normal _ _ s2 s2 own)
        by by apply Reconciliation.lift_Ok.
      by rewrite (Reconciliation.bind_normal _ _ s2 s2 lics).
  - injection Hfirst as -> _. exists w3.
    rewrite (def_returned _ _ _ _ _ Hsid). subst s2. simpl.
    by rewrite <- app_assoc.
Qed.

(** X: outside a dry run, without foreign licences, when the wildcard
    [delete] fails, [license_present] gives the result [False] with the
    comment "Could not remove license for system ..." and goes no further:
    it calls neither [install] nor [temp], and does not look at the owner
    of the file. *)
Theorem license_present_wipe_fails (remove_other_sid remove_other_hwkey : bool)
    (licenses_file : list license) (w3 : W) :
  none_foreign name info lics remove_other_sid remove_other_hwkey →
  match given filename with
  | Some f =>
      sap_likey_read_lic_file salt f w2 = (Ok licenses_file, w3)
      ∧ (licenses_file = [] ∨ ¬ Forall (installed lics) licenses_file)
  | None => Forall scannable lics ∧ ¬ Exists valid lics ∧ lics ≠ []
  end →
  ∃ w,
    license_present salt false name filename
      remove_other_sid remove_other_hwkey s
    = (Ok (Ret name (changes [] [])
             ("Could not remove license for system " +:+ name) (Some false)),
       St w (calls s ++ Info name :: Show name
             :: match given filename with
                | Some f => [ReadLicFile f]
                | None => []
                end
             ++ [Delete name name "*" "*"])).
Proof using Hinfo Hshow Hdelete.
  intros Hforeign Hpath.
  rewrite (Reconciliation.license_present_none_foreign salt false name info
             lics _ _ _ s w1 w2) by done.
  set (s2 := St w2 _). fold (changes [] []).
  destruct (given filename) as [f|].
  - destruct Hpath as [Hread Hmissing].
    assert (∃ lics',
              all_found licenses_file
                (bool_decide (0 < length licenses_file)%nat) (Val lics)
              = Ok (false, Val lics')) as [lics' Hfound].
    { destruct Hmissing as [->|Hmissing]; [by exists lics|].
      destruct (all_found_missing licenses_file lics
                  (bool_decide (0 < length licenses_file)%nat) Hmissing)
        as (lics' & Hfound & _).
      by exists lics'. }
    set (s3 := St w3 (calls s2 ++ [ReadLicFile f])).
    destruct (invoke_gives (R:=States.ret) (Delete name name "*" "*")
                (sap_likey_delete salt name name "*" "*") s3 false
                (Hdelete _ _ _ _ _)) as [w4 Hinvoke].
    exists w4.
    unfold def, ensure_file, install_file, salt_read_lic_file, salt_delete.
    unfold mbind at 1 2, M_bind at 1 2.
    rewrite (Reconciliation.invoke_Ok _ _ s2 licenses_file w3) by done.
    fold s3. unfold mbind at 1, M_bind at 1, lift at 1. rewrite Hfound.
    cbn [negb]. unfold mbind, M_bind. rewrite Hinvoke.
    subst s3 s2. simpl. by rewrite <- !app_assoc.
  - destruct Hpath as (Hscan & Hvalid & Hne).
    destruct (invoke_gives (R:=States.ret) (Delete name name "*" "*")
                (sap_likey_delete salt name name "*" "*") s2 false
                (Hdelete _ _ _ _ _)) as [w4 Hinvoke].
    exists w4. unfold def, ensure_valid, salt_delete.
    unfold mbind at 1 2, M_bind at 1 2, lift at 1. simpl.
    unfold mbind at 1, M_bind at 1, lift at 1.
    rewrite find_valid_none by done. cbn [negb].
    destruct lics as [|lic rest]; [done|]. simpl.
    unfold mbind, M_bind. rewrite Hinvoke.
    subst s2. simpl. by rewrite <- !app_assoc.
Qed.

End Refusals.

Lemma license_present_removes_foreign_witness :
  ∃ w,
    license_present crowded false "S4H" None true true start
    = (Ok (Ret "S4H"
             (changes ["SAP system license M70 / H2 / P";
                       "SAP system license M70 / H2 / P"] [])
             "System S4H already has a valid license" (Some true)),
       St w [Info "S4H"; Show "S4H"; Delete "M70" "S4H" "*" "*";
             Delete "M70" "S4H" "H2" "*"]).
Proof.
  destruct (license_present_removes_foreign crowded false "S4H"
              [<["validity" := "expired"]> (lic "M70" "H2" "P"); own_license])
    with (info := info_S4H) (own := "H1") (filename := @None string)
         (remove_other_sid := true) (remove_other_hwkey := true)
         (s := start) (w1 := ()) (w2 := ()) as (w & _ & Hrun).
  - repeat apply List.Forall_cons; try apply List.Forall_nil;
      eexists; vm_compute; reflexivity.
  - intros _ name sid hwkey product w. reflexivity.
  - reflexivity.
  - reflexivity.
  - reflexivity.
  - reflexivity.
  - repeat apply List.Forall_cons; try apply List.Forall_nil;
      split; eexists; vm_compute; reflexivity.
  - apply List.Exists_cons_tl, List.Exists_cons_hd.
    exists "NetWeaver_HDB". repeat split; vm_compute; reflexivity.
  - exists w. exact Hrun.
Defined.

Lemma license_present_temporary_witness :
  ∃ w,
    license_present (lapsed false) false "S4H" None true true start
    = (Ok (Ret "S4H" (changes ["SAP system S4H license"] [])
             "Could not add temporay license for system S4H for NetWeaver_HDB"
             (Some false)),
       St w [Info "S4H"; Show "S4H"; Delete "S4H" "S4H" "*" "*";
             Temp "S4H" "NetWeaver_HDB"]).
Proof.
  destruct (license_present_temporary (lapsed false) false "S4H"
              [<["validity" := "expired"]> (lic "S4H" "H1" "NetWeaver_HDB")])
    with (answer := false) (info := info_S4H) (own := "H1")
         (products := "NetWeaver_HDB") (filename := @None string)
         (remove_other_sid := true) (remove_other_hwkey := true)
         (s := start) (w1 := ()) (w2 := ()) as (w & _ & Hrun).
  - repeat apply List.Forall_cons; try apply List.Forall_nil;
      eexists; vm_compute; reflexivity.
  - intros _ name sid hwkey product w. reflexivity.
  - reflexivity.
  - reflexivity.
  - reflexivity.
  - reflexivity.
  - intros _ sid product w. reflexivity.
  - reflexivity.
  - repeat apply List.Forall_cons; try apply List.Forall_nil;
      split; eexists; vm_compute; reflexivity.
  - intros Hvalid. apply List.Exists_cons in Hvalid as [Hvalid|Hvalid].
    + destruct Hvalid as (product & _ & _ & Hvalidity). discriminate Hvalidity.
    + by apply List.Exists_nil in Hvalid.
  - exists w. exact Hrun.
Defined.

Lemma license_present_installs_witness :
  ∃ w,
    license_present (settled [lic "S4H" "H1" "Maintenance_HDB"]) false "S4H"
      (Some "/tmp/S4H.txt") true true start
    = (Ok (Ret "S4H"
             (changes ["SAP system license S4H / H1 / NetWeaver_HDB"]
                ["SAP system license S4H / H1 / Maintenance_HDB"])
             "Installed licenses" (Some true)),
       St w [Info "S4H"; Show "S4H"; ReadLicFile "/tmp/S4H.txt";
             Delete "S4H" "S4H" "*" "*"; FileGetUser "/tmp/S4H.txt";
             UserInfo "s4hadm"; FileChown (PyInt 1001) (PyInt 79) "/tmp/S4H.txt";
             Install "S4H" "/tmp/S4H.txt"]).
Proof.
  apply (license_present_installs
           (settled [lic "S4H" "H1" "Maintenance_HDB"]) false true "S4H"
           "/tmp/S4H.txt" "root" "H1" [own_license]
           [lic "S4H" "H1" "Maintenance_HDB"] info_S4H uinfo (PyInt 1001)
           (PyInt 79) (Some "/tmp/S4H.txt") true true start () ()).
  - reflexivity.
  - reflexivity.
  - reflexivity.
  - apply List.Forall_cons; [|apply List.Forall_nil].
    eexists; vm_compute; reflexivity.
  - reflexivity.
  - intros w. reflexivity.
  - apply List.Forall_cons; [|apply List.Forall_nil].
    eexists; vm_compute; reflexivity.
  - right. intros Hall. apply List.Forall_inv in Hall.
    apply List.Exists_cons in Hall as [Heq|Hnone].
    + apply (f_equal (λ m : license, m !! "software_product")) in Heq.
      vm_compute in Heq. discriminate Heq.
    + by apply List.Exists_nil in Hnone.
  - intros w. reflexivity.
  - intros _. split; [intros w; reflexivity|].
    split; [reflexivity|]. split; [reflexivity|].
    intros _ u g path w. reflexivity.
  - intros _ name sid hwkey product w. reflexivity.
  - intros _ sid filename w. reflexivity.
Defined.

Lemma license_present_stops_witness :
  ∃ w,
    license_present
      (fixed info_S4H (Val [lic "M70" "H2" "P"]) false true [] "s4hadm" uinfo)
      false "S4H" None false true start
    = (Ok (Ret "S4H" (changes [] [])
             "Could not remove license for system M70 / H2 / P" (Some false)),
       St w [Info "S4H"; Show "S4H"; Delete "M70" "S4H" "H2" "*"]).
Proof.
  apply (license_present_stops
           (fixed info_S4H (Val [lic "M70" "H2" "P"]) false true [] "s4hadm"
              uinfo)
           "S4H" info_S4H [lic "M70" "H2" "P"] None start () ()
           eq_refl eq_refl (λ _ _ _ _ _, eq_refl)
           "H1" false true (lic "M70" "H2" "P") []).
  - reflexivity.
  - apply List.Forall_cons; [|apply List.Forall_nil].
    eexists; vm_compute; reflexivity.
  - vm_compute. reflexivity.
Defined.

Lemma license_present_wipe_fails_witness :
  ∃ w,
    license_present undeletable false "S4H" (Some "/tmp/S4H.txt") true true
      start
    = (Ok (Ret "S4H" (changes [] [])
             "Could not remove license for system S4H" (Some false)),
       St w [Info "S4H"; Show "S4H"; ReadLicFile "/tmp/S4H.txt";
             Delete "S4H" "S4H" "*" "*"]).
Proof.
  apply (license_present_wipe_fails undeletable "S4H" info_S4H
           [lic "S4H" "H1" "P"] (Some "/tmp/S4H.txt") start () ()
           eq_refl eq_refl (λ _ _ _ _ _, eq_refl) true true [] ()).
  - split; intros _.
    + apply List.Forall_cons; [reflexivity|apply List.Forall_nil].
    + exists "H1". split; [reflexivity|].
      apply List.Forall_cons; [reflexivity|apply List.Forall_nil].
  - split; [reflexivity|by left].
Defined.

End Presence.

(** ** The calls of the two removal loops *)

Module Scope.
Import States Props Plan Fixtures StatesLogic StatesFacts.

Section Trace.
Context {W : Type} (body : license → ret → M (st W) ret ret).
Context (Q : license → Prop) `{!∀ lic, Decision (Q lic)}.
Context (c : license → list invocation).
Hypothesis keeps :
  ∀ lic ret s, ¬ Q lic → body lic ret s = (Normal ret, s).
Hypothesis acts :
  ∀ lic ret s, Q lic →
    ∃ o s', body lic ret s = (o, s')
            ∧ ((calls s' = calls s ++ c lic ∧ (halted o ∨ ∃ r, o = Normal r))
               ∨ (calls s' = calls s ∧ halted o)).

Lemma loop_trace (lics : list license) (ret : ret) (s : st W) :
  ∃ o s' made,
    for_ lics body ret s = (o, s')
    ∧ calls s' = calls s ++ made
    ∧ made `prefix_of` (filter Q lics ≫= c)
    ∧ (halted o ∨ ((∃ r, o = Normal r) ∧ made = filter Q lics ≫= c)).
Proof using keeps acts.
  revert ret s. induction lics as [|lic lics IH]; intros ret s.
  { exists (Normal ret), s, []. rewrite app_nil_r.
    repeat split; [done|]. right. by split; [eexists|]. }
  rewrite filter_cons. cbn [for_]. destruct (decide (Q lic)) as [Hq|Hq].
  - destruct (acts lic ret s Hq) as (o1 & s1 & Hbody & Hcalls).
    rewrite bind_cons.
    destruct Hcalls as [[Hcalls [Ho1|[r1 ->]]]|[Hcalls Ho1]].
    + exists (match o1 with
              | Normal _ => Raised TypeError
              | Returned r => Returned r
              | Raised e => Raised e
              end), s1, (c lic).
      unfold mbind, M_bind. rewrite Hbody.
      destruct o1 as [?|r|e]; [done|..];
        (repeat split; [done|by apply prefix_app_r|by left]).
    + destruct (IH r1 s1) as (o & s' & made & Hloop & Hmade & Hprefix & Hend).
      exists o, s', (c lic ++ made).
      rewrite (Reconciliation.bind_normal _ _ _ _ _ Hbody).
      repeat split; [done|by rewrite Hmade, Hcalls, app_assoc| |].
      * by apply prefix_app.
      * destruct Hend as [Ho|[Ho ->]]; [by left|by right].
    + exists (match o1 with
              | Normal _ => Raised TypeError
              | Returned r => Returned r
              | Raised e => Raised e
              end), s1, [].
      unfold mbind, M_bind. rewrite Hbody.
      destruct o1 as [?|r|e]; [done|..];
        (repeat split; [by rewrite app_nil_r|apply prefix_nil|by left]).
  - destruct (IH ret s) as (o & s' & made & Hloop & Hrest).
    exists o, s', made.
    by rewrite (Reconciliation.bind_normal _ _ _ _ _ (keeps _ _ _ Hq)).
Qed.

End Trace.

Section Bodies.
Context {W : Type} (salt : Salt W) (test : bool) (name : string).

Lemma sid_body_same (lic : license) (ret : ret) (s : st W) :
  ¬ lic !! "system" ≠ Some name →
  remove_other_sid_body salt test name lic ret s = (Normal ret, s).
Proof.
  intros Hq. apply dec_stable in Hq.
  unfold remove_other_sid_body, mbind, M_bind, lift, getitem.
  rewrite Hq. simpl. by rewrite String.eqb_refl.
Qed.

Lemma sid_body_trace (lic : license) (ret : ret) (s : st W) :
  lic !! "system" ≠ Some name →
  ∃ o s',
    remove_other_sid_body salt test name lic ret s = (o, s')
    ∧ ((calls s' = calls s ++ unless_dry test [delete_sid name lic]
        ∧ (halted o ∨ ∃ r, o = Normal r))
       ∨ (calls s' = calls s ∧ halted o)).
Proof.
  intros Hq.
  unfold remove_other_sid_body, salt_delete, invoke, describe, delete_sid,
    field, mbind, M_bind, lift, getitem.
  destruct (lic !! "system") as [system|] eqn:Hsystem; simpl;
    [|by eexists _, _; split; [|right]].
  assert (String.eqb system name = false) as ->.
  { apply String.eqb_neq. congruence. }
  simpl. destruct test; simpl.
  - destruct (lic !! "hardware_key"), (lic !! "software_product"); simpl;
      eexists _, _; (split; [done|]); left; rewrite app_nil_r;
      (split; [done|]); first [by left|by right; eexists].
  - destruct (sap_likey_delete salt system name "*" "*" (world s))
      as [[[|]|e] w]; simpl;
      destruct (lic !! "hardware_key"), (lic !! "software_product"); simpl;
      eexists _, _; (split; [done|]); left; (split; [done|]); first [by left|by right; eexists].
Qed.

Context (info : or_false (gmap string string)) (own : string).
Hypothesis Hown : subscript info "hardware_key" = Ok own.

Lemma hwkey_body_same (lic : license) (ret : ret) (s : st W) :
  ¬ lic !! "hardware_key" ≠ Some own →
  remove_other_hwkey_body salt test name info lic ret s = (Normal ret, s).
Proof using Hown.
  intros Hq. apply dec_stable in Hq.
  unfold remove_other_hwkey_body, mbind, M_bind, lift, getitem.
  rewrite Hq, Hown. simpl. by rewrite String.eqb_refl.
Qed.

Lemma hwkey_body_trace (lic : license) (ret : ret) (s : st W) :
  lic !! "hardware_key" ≠ Some own →
  ∃ o s',
    remove_other_hwkey_body salt test name info lic ret s = (o, s')
    ∧ ((calls s' = calls s ++ unless_dry test [delete_hwkey name lic]
        ∧ (halted o ∨ ∃ r, o = Normal r))
       ∨ (calls s' = calls s ∧ halted o)).
Proof using Hown.
  intros Hq.
  unfold remove_other_hwkey_body, salt_delete, invoke, describe, delete_hwkey,
    field, mbind, M_bind, lift, getitem.
  rewrite Hown.
  destruct (lic !! "hardware_key") as [hardware_key|] eqn:Hhwkey; simpl;
    [|by eexists _, _; split; [|right]].
  assert (String.eqb hardware_key own = false) as ->.
  { apply String.eqb_neq. congruence. }
  simpl. destruct test; simpl.
  - destruct (lic !! "system"), (lic !! "software_product"); simpl;
      eexists _, _; (split; [done|]); left; rewrite app_nil_r;
      (split; [done|]); first [by left|by right; eexists].
  - destruct (lic !! "system") as [system|]; simpl;
      [|by eexists _, _; split; [|right]].
    destruct (sap_likey_delete salt system name hardware_key "*" (world s))
      as [[[|]|e] w]; simpl;
      destruct (lic !! "software_product"); simpl;
      eexists _, _; (split; [done|]); left; (split; [done|]); first [by left|by right; eexists].
Qed.

End Bodies.

Lemma bind_unless_dry (test : bool) (f : license → invocation)
    (lics : list license) :
  lics ≫= (λ lic, unless_dry test [f lic]) = unless_dry test (f <$> lics).
Proof.
  induction lics as [|lic lics IH]; [by destruct test|].
  rewrite bind_cons, IH. by destruct test.
Qed.

Lemma def_halted {S A} (m : M S ret A) (k : A → M S ret ret) (s s' : S)
    (o : outcome ret A) :
  m s = (o, s') → halted o → ∃ x, def (m ≫= k) s = (x, s') ∧ stopped x.
Proof.
  intros Hm Ho. unfold def, mbind, M_bind. rewrite Hm.
  destruct o as [a|r|e]; [done|by exists (Ok r)|by exists (Raise e)].
Qed.

Section Whole.
Context {W : Type} (salt : Salt W) (test : bool) (name : string).
Context (info : or_false (gmap string string)) (lics : list license).

Local Abbreviation wipes_only :=
  (λ c, is_delete c = true → c = Delete name name "*" "*").

Lemma third_part_wipes (cs : list invocation) (filename : option string)
    (ret : ret) :
  triple (λ s : st W, extends wipes_only cs (calls s))
    (ret ← match given filename with
           | Some filename => ensure_file salt test name filename (Val lics) ret
           | None => ensure_valid salt test name info (Val lics) ret
           end;
     return_ (finish test ret))
    (λ _ : States.ret, True) (λ _ : States.ret, True).
Proof.
  unfold_states.
  repeat first [triple_step (λ _ : States.ret, True) | done].
  all: try (intros [=]; fail).
  all: by intros _.
Qed.

Lemma sid_phase_trace (flag : bool) (ret : ret) (s : st W) :
  ∃ o s' made,
    (if flag
     then lics ← lift (iter (Val lics));
          for_ lics (remove_other_sid_body salt test name) ret
     else mret ret) s = (o, s')
    ∧ calls s' = calls s ++ made
    ∧ made `prefix_of`
        unless_dry test (delete_sid name <$> sid_removals name flag lics)
    ∧ (halted o
       ∨ ((∃ r, o = Normal r)
          ∧ made = unless_dry test
                     (delete_sid name <$> sid_removals name flag lics))).
Proof.
  destruct flag; cycle 1.
  { exists (Normal ret), s, []. rewrite app_nil_r.
    repeat split; [apply prefix_nil|]. right.
    split; [by eexists|by destruct test]. }
  rewrite (Reconciliation.bind_normal _ _ s s lics) by done.
  unfold sid_removals, other_sid. rewrite <- bind_unless_dry.
  apply (loop_trace (remove_other_sid_body salt test name)
           (λ lic, lic !! "system" ≠ Some name)
           (λ lic, unless_dry test [delete_sid name lic])).
  - apply sid_body_same.
  - apply sid_body_trace.
Qed.

Lemma hwkey_phase_trace (flag : bool) (own : string) (ret : ret) (s : st W) :
  (flag = true → subscript info "hardware_key" = Ok own) →
  ∃ o s' made,
    (if flag
     then _ ← lift (subscript info "hardware_key");
          lics ← lift (iter (Val lics));
          for_ lics (remove_other_hwkey_body salt test name info) ret
     else mret ret) s = (o, s')
    ∧ calls s' = calls s ++ made
    ∧ made `prefix_of`
        unless_dry test (delete_hwkey name <$> hwkey_removals own flag lics)
    ∧ (halted o
       ∨ ((∃ r, o = Normal r)
          ∧ made = unless_dry test
                     (delete_hwkey name <$> hwkey_removals own flag lics))).
Proof.
  intros Hown. destruct flag; cycle 1.
  { exists (Normal ret), s, []. rewrite app_nil_r.
    repeat split; [apply prefix_nil|]. right.
    split; [by eexists|by destruct test]. }
  specialize (Hown eq_refl).
  rewrite (Reconciliation.bind_normal _ _ s s own)
    by by apply Reconciliation.lift_Ok.
  rewrite (Reconciliation.bind_normal _ _ s s lics) by done.
  unfold hwkey_removals, other_hwkey. rewrite <- bind_unless_dry.
  apply (loop_trace (remove_other_hwkey_body salt test name info)
           (λ lic, lic !! "hardware_key" ≠ Some own)
           (λ lic, unless_dry test [delete_hwkey name lic])).
  - by apply hwkey_body_same.
  - by apply hwkey_body_trace.
Qed.


End Whole.


End Scope.
